(** * Tool-orchestration core of the course-materials RAG chatbot

    A shallow embedding of [backend/ai_generator.py] (the round loop of
    [AIGenerator.generate_response]) and of [backend/search_tools.py]
    ([CourseSearchTool], [CourseOutlineTool], [ToolManager]), followed by
    the properties of the specification that are checked against it.

    Python objects with mutable fields are modelled by explicit state
    passing; code that may raise runs in a state-and-exception monad
    whose state also carries a chronological trace of the calls made to
    the two external collaborators (the model service and the tool
    manager), the way the test-suite's mocks record them. *)

From Stdlib Require Import ZArith Ascii String DecimalString.
From stdpp Require Import base option list strings gmap.

Local Open Scope Z_scope.

(** ** Python values and string primitives *)

Module Py.

(** A [str] is represented by the bytes of its UTF-8 encoding, so a
    character takes one to four bytes.

    [c.isspace()] for a character of one byte: TAB..CR, FS..US and SPACE. *)
Definition is_space (c : ascii) : bool :=
  let n := nat_of_ascii c in
  (Nat.leb 9 n && Nat.leb n 13) || (Nat.leb 28 n && Nat.leb n 32).

(** [c.isspace()] for a character of two bytes: U+0085 (C2 85) and
    U+00A0 (C2 A0). *)
Definition is_space2 (c1 c2 : ascii) : bool :=
  let n1 := nat_of_ascii c1 in
  let n2 := nat_of_ascii c2 in
  Nat.eqb n1 194 && (Nat.eqb n2 133 || Nat.eqb n2 160).

(** [c.isspace()] for a character of three bytes: U+1680 (E1 9A 80),
    U+2000..U+200A (E2 80 80 .. E2 80 8A), U+2028, U+2029 and U+202F
    (E2 80 A8, E2 80 A9, E2 80 AF), U+205F (E2 81 9F) and U+3000
    (E3 80 80). No character of four bytes is white space. *)
Definition is_space3 (c1 c2 c3 : ascii) : bool :=
  let n1 := nat_of_ascii c1 in
  let n2 := nat_of_ascii c2 in
  let n3 := nat_of_ascii c3 in
  (Nat.eqb n1 225 && Nat.eqb n2 154 && Nat.eqb n3 128)
  || (Nat.eqb n1 226 && Nat.eqb n2 128
      && ((Nat.leb 128 n3 && Nat.leb n3 138)
          || Nat.eqb n3 168 || Nat.eqb n3 169 || Nat.eqb n3 175))
  || (Nat.eqb n1 226 && Nat.eqb n2 129 && Nat.eqb n3 159)
  || (Nat.eqb n1 227 && Nat.eqb n2 128 && Nat.eqb n3 128).

(** Removal of the white-space characters a byte sequence starts with.
    [sp2] and [sp3] recognise a character of two and of three bytes from
    the bytes in the order they are met. *)
Fixpoint strip_front (sp2 : ascii → ascii → bool)
    (sp3 : ascii → ascii → ascii → bool) (l : list ascii) : list ascii :=
  match l with
  | [] => []
  | c1 :: l1 =>
      if is_space c1 then strip_front sp2 sp3 l1
      else
        match l1 with
        | [] => l
        | c2 :: l2 =>
            if sp2 c1 c2 then strip_front sp2 sp3 l2
            else
              match l2 with
              | [] => l
              | c3 :: l3 =>
                  if sp3 c1 c2 c3 then strip_front sp2 sp3 l3 else l
              end
        end
  end.

Definition lstrip_chars (l : list ascii) : list ascii :=
  strip_front is_space2 is_space3 l.

(** The same on the reversed byte sequence, where the bytes of a
    character are met last byte first. *)
Definition rstrip_chars_rev (l : list ascii) : list ascii :=
  strip_front (λ c2 c1, is_space2 c1 c2) (λ c3 c2 c1, is_space3 c1 c2 c3) l.

Definition lstrip (s : string) : string :=
  string_of_list_ascii (lstrip_chars (list_ascii_of_string s)).

Definition rstrip (s : string) : string :=
  string_of_list_ascii
    (rev (rstrip_chars_rev (rev (list_ascii_of_string s)))).

(** [s.strip()] *)
Definition strip (s : string) : string := rstrip (lstrip s).

(** Truth value of a [str]: non-empty. *)
Definition truthy (s : string) : bool :=
  match s with
  | EmptyString => false
  | String _ _ => true
  end.

(** Truth value of an [Optional[str]]: neither [None] nor [""]. *)
Definition truthy_opt (o : option string) : bool :=
  match o with
  | None => false
  | Some s => truthy s
  end.

(** Truth value of an [Optional[int]]: neither [None] nor [0]. *)
Definition truthy_int (o : option Z) : bool :=
  match o with
  | None => false
  | Some n => negb (n =? 0)%Z
  end.

(** [str(n)] for an [int]. *)
Definition str_int (n : Z) : string := NilZero.string_of_int (Z.to_int n).

(** The formatting of an [Optional[int]] inside an f-string. *)
Definition str_opt_int (o : option Z) : string :=
  match o with
  | None => "None"
  | Some n => str_int n
  end.

Definition newline : string := String (ascii_of_nat 10) EmptyString.

(** [sep.join(parts)] *)
Fixpoint join (sep : string) (parts : list string) : string :=
  match parts with
  | [] => ""
  | [p] => p
  | p :: rest => p +:+ sep +:+ join sep rest
  end.

(** [len(s.split("\n"))]: the number of lines of a text. *)
Fixpoint count_newlines (s : string) : nat :=
  match s with
  | EmptyString => 0%nat
  | String c s' =>
      ((if Ascii.eqb c (ascii_of_nat 10) then 1 else 0) + count_newlines s')%nat
  end.

Definition line_count (s : string) : nat := S (count_newlines s).

(** [needle in s] *)
Fixpoint contains (needle s : string) : bool :=
  String.prefix needle s ||
  match s with
  | EmptyString => false
  | String _ s' => contains needle s'
  end.

(** A raised object, as far as the code looks at it: its class, [str(e)]
    and whether it is an instance of [Exception], which is what
    [except Exception] tests. [KeyboardInterrupt], [SystemExit] and
    [GeneratorExit] derive from [BaseException] only. *)
Record BaseException := {
  exc_class : string;
  exc_str : string;
  isinstance_Exception : bool
}.

Definition UnboundLocalError (var : string) : BaseException :=
  {| exc_class := "UnboundLocalError";
     exc_str := "cannot access local variable '" +:+ var
                +:+ "' where it is not associated with a value";
     isinstance_Exception := true |}.

(** [TypeError(msg)] *)
Definition TypeError (msg : string) : BaseException :=
  {| exc_class := "TypeError"; exc_str := msg;
     isinstance_Exception := true |}.

(** [Exception(msg)] *)
Definition Exception (msg : string) : BaseException :=
  {| exc_class := "Exception"; exc_str := msg;
     isinstance_Exception := true |}.

(** [KeyboardInterrupt()] *)
Definition KeyboardInterrupt : BaseException :=
  {| exc_class := "KeyboardInterrupt"; exc_str := "";
     isinstance_Exception := false |}.

(** Outcome of a call: a value, or a raised exception. *)
Inductive Result (A : Type) : Type :=
| Ok (a : A)
| Raise (e : BaseException).
Global Arguments Ok {A} a.
Global Arguments Raise {A} e.

(** JSON-like values of a tool invocation's arguments. *)
Inductive Value :=
| VStr (s : string)
| VInt (n : Z)
| VNone.

(** A keyword-argument dictionary ([**kwargs]): its entries in insertion
    order, under distinct keys. *)
Definition Kwargs := list (string * Value).

End Py.
Export Py.

(** [s.replace(old, new)]: every occurrence of [old] in [s], found from
    left to right without overlap, is replaced by [new]. [skip] counts the
    characters of a matched occurrence still to be passed over. *)
Fixpoint str_replace_go (old new s : string) (skip : nat) : string :=
  match s with
  | EmptyString => EmptyString
  | String c s' =>
      match skip with
      | S k => str_replace_go old new s' k
      | O =>
          if String.prefix old s
          then new +:+ str_replace_go old new s' (String.length old - 1)
          else String c (str_replace_go old new s' 0)
      end
  end.

(** With an empty [old], [new] is put before every character and at the
    end. *)
Fixpoint str_intersperse (new s : string) : string :=
  new +:+ match s with
          | EmptyString => EmptyString
          | String c s' => String c (str_intersperse new s')
          end.

Definition str_replace (s old new : string) : string :=
  match old with
  | EmptyString => str_intersperse new s
  | String _ _ => str_replace_go old new s 0
  end.

(** ** Conversation data (the model service's wire protocol) *)

(** A content block of a model response, with the attributes the code
    reads: [type] always; [text] on a ["text"] block; [name], [input] and
    [id] on a ["tool_use"] block. *)
Record ContentBlock := {
  block_type : string;
  block_text : string;
  block_name : string;
  block_input : Kwargs;
  block_id : string
}.

Definition text_block (t : string) : ContentBlock :=
  {| block_type := "text"; block_text := t; block_name := "";
     block_input := []; block_id := "" |}.

Definition tool_use_block (i n : string) (kw : Kwargs) : ContentBlock :=
  {| block_type := "tool_use"; block_text := ""; block_name := n;
     block_input := kw; block_id := i |}.

(** A model response: [response.content] and [response.stop_reason]. *)
Record Response := {
  resp_content : list ContentBlock;
  resp_stop_reason : string
}.

(** The dictionary [{"type": "tool_result", "tool_use_id": .., "content": ..}]. *)
Record ToolResult := {
  tr_type : string;
  tool_use_id : string;
  tr_content : string
}.

(** The ["content"] of a conversation turn: the query text, the blocks of
    a model response, or a list of tool results. *)
Inductive TurnContent :=
| PlainText (s : string)
| Blocks (bs : list ContentBlock)
| ToolResults (trs : list ToolResult).

(** The dictionary [{"role": .., "content": ..}]. *)
Record Message := {
  msg_role : string;
  msg_content : TurnContent
}.

(** A tool declaration as handed to the model service. *)
Record ToolDefinition := {
  def_name : option string;
  def_description : string;
  def_properties : list (string * (string * string));
  def_required : list string
}.

(** The keyword arguments of [client.messages.create]. *)
Record ApiParams := {
  api_model : string;
  api_temperature : Z;
  api_max_tokens : Z;
  api_messages : list Message;
  api_system : string;
  api_tools : option (list ToolDefinition);
  api_tool_choice : option string
}.

(** One entry of the call trace: a model-service call with its outcome,
    or a call of [tool_manager.execute_tool] for a ["tool_use"] block with
    its outcome. *)
Inductive Event :=
| ApiCall (p : ApiParams) (o : Result Response)
| ToolCall (b : ContentBlock) (o : Result string).

(** The model-service calls of a trace, in order: the mock's
    [call_args_list], each with its outcome. *)
Fixpoint api_calls (tr : list Event) : list (ApiParams * Result Response) :=
  match tr with
  | [] => []
  | ApiCall p o :: tr' => (p, o) :: api_calls tr'
  | ToolCall _ _ :: tr' => api_calls tr'
  end.

(** The tool executions of a trace, in order. *)
Fixpoint tool_calls (tr : list Event) : list (ContentBlock * Result string) :=
  match tr with
  | [] => []
  | ApiCall _ _ :: tr' => tool_calls tr'
  | ToolCall b o :: tr' => (b, o) :: tool_calls tr'
  end.

(** [call_count] of the mocked [client.messages.create]. *)
Definition call_count (tr : list Event) : nat := length (api_calls tr).

(** [call_count] of the mocked [tool_manager.execute_tool]. *)
Definition tool_call_count (tr : list Event) : nat := length (tool_calls tr).

(** ** The state-and-exception monad *)

Section Monad.

Context {W : Type}.

(** The state threaded through a run: the external world (model service,
    tools and their stores) and the trace of calls made so far. *)
Record State := {
  world : W;
  trace : list Event
}.

Definition M (A : Type) : Type := State → Result A * State.

#[global] Instance M_ret : MRet M := λ A (a : A) s, (Ok a, s).

#[global] Instance M_bind : MBind M := λ A B (f : A → M B) (m : M A) s,
  match m s with
  | (Ok a, s') => f a s'
  | (Raise e, s') => (Raise e, s')
  end.

(** [raise e] *)
Definition raise {A} (e : BaseException) : M A := λ s, (Raise e, s).

(** [try: body  except Exception as e: handler(e)]: an exception that is
    not an instance of [Exception] passes through. *)
Definition try_except {A} (body : M A) (handler : BaseException → M A) : M A :=
  λ s,
  match body s with
  | (Ok a, s') => (Ok a, s')
  | (Raise e, s') =>
      if isinstance_Exception e then handler e s' else (Raise e, s')
  end.

End Monad.

Arguments State W : clear implicits.
Arguments M W A : clear implicits.

(** ** [ai_generator.py]: class [AIGenerator] *)

(** What [generate_response] asks of its [tool_manager] argument: an
    [execute_tool(name, **kwargs)] method, which may change the world and
    may raise. *)
Record ToolExecutor (W : Type) := {
  execute_tool_method : string → Kwargs → W → Result string * W
}.
Arguments execute_tool_method {W} _ _ _ _.

Module AIGenerator.

Section WithClient.

Context {W : Type}.

(** [self.client.messages.create]: the model service, an arbitrary
    world-changing operation that returns a response or raises. *)
Variable messages_create : ApiParams → W → Result Response * W.

(** [self._build_system_content]: assembles the system instructions;
    its text plays no part in the round protocol. *)
Variable _build_system_content : option string → Z → string.

(** [self.model] *)
Variable model : string.

Definition FALLBACK : string :=
  "I apologize, but I was unable to generate a complete response. Please try rephrasing your question.".

(** The instrumented call [self.client.messages.create( **api_params )]. *)
Definition client_messages_create (api_params : ApiParams) : M W Response :=
  λ s,
  let '(o, w') := messages_create api_params (world s) in
  (o, {| world := w'; trace := trace s ++ [ApiCall api_params o] |}).

(** The instrumented call
    [tool_manager.execute_tool(content_block.name, **content_block.input)]. *)
Definition call_execute_tool (tool_manager : ToolExecutor W)
    (content_block : ContentBlock) : M W string :=
  λ s,
  let '(o, w') :=
    execute_tool_method tool_manager (block_name content_block)
      (block_input content_block) (world s) in
  (o, {| world := w'; trace := trace s ++ [ToolCall content_block o] |}).

Definition _execute_conversation_round (messages : list Message)
    (system_content : string) (tools : option (list ToolDefinition))
    (tool_manager : option (ToolExecutor W)) : M W (Response * bool) :=
  let api_params :=
    {| api_model := model; api_temperature := 0; api_max_tokens := 800;
       api_messages := messages;
       api_system := system_content;
       api_tools := tools;
       api_tool_choice := if tools is Some _ then Some "auto" else None |} in
  response ← client_messages_create api_params;
  let tool_used := String.eqb (resp_stop_reason response) "tool_use" in
  mret (response, tool_used).

(** [block.type == "text" and block.text.strip()] *)
Definition is_nonblank_text (block : ContentBlock) : bool :=
  String.eqb (block_type block) "text" && truthy (strip (block_text block)).

(** [block.type == "tool_use"] *)
Definition is_tool_use (block : ContentBlock) : bool :=
  String.eqb (block_type block) "tool_use".

Definition _should_continue_rounds (response : Response)
    (current_round max_rounds : Z) : bool :=
  if (current_round >=? max_rounds)%Z then false
  else if negb (String.eqb (resp_stop_reason response) "tool_use") then false
  else
    let has_text := existsb is_nonblank_text (resp_content response) in
    let has_tools := existsb is_tool_use (resp_content response) in
    if has_text && has_tools then false
    else has_tools.

Definition tool_result (tool_use_id content : string) : ToolResult :=
  {| tr_type := "tool_result"; tool_use_id := tool_use_id;
     tr_content := content |}.

(** The [for content_block in response.content] loop of [_execute_tools],
    threading the list [tool_results]. *)
Fixpoint _execute_tools_loop (tool_manager : ToolExecutor W)
    (blocks : list ContentBlock) (tool_results : list ToolResult)
    : M W (list ToolResult) :=
  match blocks with
  | [] => mret tool_results
  | content_block :: rest =>
      tool_results ←
        (if is_tool_use content_block then
           try_except
             (result ← call_execute_tool tool_manager content_block;
              mret (tool_results ++
                      [tool_result (block_id content_block) result]))
             (λ e,
              mret (tool_results ++
                      [tool_result (block_id content_block)
                         ("Tool execution error: " +:+ exc_str e)]))
         else mret tool_results);
      _execute_tools_loop tool_manager rest tool_results
  end.

Definition _execute_tools (response : Response)
    (tool_manager : ToolExecutor W) : M W (option (list ToolResult)) :=
  tool_results ← _execute_tools_loop tool_manager (resp_content response) [];
  mret (match tool_results with
        | [] => None
        | _ :: _ => Some tool_results
        end).

Fixpoint _extract_final_response_loop (blocks : list ContentBlock) : string :=
  match blocks with
  | [] => FALLBACK
  | block :: rest =>
      if is_nonblank_text block then block_text block
      else _extract_final_response_loop rest
  end.

Definition _extract_final_response (response : Response) : string :=
  _extract_final_response_loop (resp_content response).

(** The [while current_round < max_rounds] loop of [generate_response].
    Its local variables are [current_round], [messages] and [response]
    (unbound, [None], until the first round assigns it). Each iteration
    increments [current_round], so [fuel] iterations are enough as soon as
    [max_rounds - current_round <= fuel] (lemma [round_loop_fuel]). *)
Fixpoint round_loop (tools : option (list ToolDefinition))
    (tool_manager : option (ToolExecutor W)) (max_rounds : Z)
    (system_content : string) (fuel : nat) (current_round : Z)
    (messages : list Message) (response : option Response)
    : M W (list Message * option Response) :=
  if (current_round <? max_rounds)%Z then
    match fuel with
    | O => mret (messages, response)
    | S fuel' =>
        let current_round := (current_round + 1)%Z in
        '(response, tool_used) ←
          _execute_conversation_round messages system_content tools
            tool_manager;
        let messages :=
          messages ++
            [{| msg_role := "assistant";
                msg_content := Blocks (resp_content response) |}] in
        if negb (_should_continue_rounds response current_round max_rounds)
        then mret (messages, Some response)
        else
          messages ←
            (if tool_used : bool then
               match tool_manager with
               | Some tm =>
                   tool_results ← _execute_tools response tm;
                   match tool_results with
                   | Some trs =>
                       mret (messages ++
                               [{| msg_role := "user";
                                   msg_content := ToolResults trs |}])
                   | None => mret messages
                   end
               | None => mret messages
               end
             else mret messages);
          round_loop tools tool_manager max_rounds system_content fuel'
            current_round messages (Some response)
    end
  else mret (messages, response).

Definition generate_response (query : string)
    (conversation_history : option string)
    (tools : option (list ToolDefinition))
    (tool_manager : option (ToolExecutor W)) (max_rounds : Z)
    : M W string :=
  let system_content := _build_system_content conversation_history max_rounds in
  let messages := [{| msg_role := "user"; msg_content := PlainText query |}] in
  let current_round := 0%Z in
  '(messages, response) ←
    round_loop tools tool_manager max_rounds system_content
      (Z.to_nat max_rounds) current_round messages None;
  match response with
  | Some response => mret (_extract_final_response response)
  | None => raise (UnboundLocalError "response")
  end.

(** *** Vocabulary for the properties of the round protocol *)

(** The keyword arguments [_execute_conversation_round] passes to the model
    service for the turn sequence [messages]. *)
Definition round_api_params (system_content : string)
    (tools : option (list ToolDefinition)) (messages : list Message)
    : ApiParams :=
  {| api_model := model; api_temperature := 0; api_max_tokens := 800;
     api_messages := messages;
     api_system := system_content;
     api_tools := tools;
     api_tool_choice := if tools is Some _ then Some "auto" else None |}.

Definition assistant_turn (response : Response) : Message :=
  {| msg_role := "assistant"; msg_content := Blocks (resp_content response) |}.

Definition tool_results_turn (trs : list ToolResult) : Message :=
  {| msg_role := "user"; msg_content := ToolResults trs |}.

(** The tool-invocation requests of a response, in order. *)
Definition tool_use_blocks (response : Response) : list ContentBlock :=
  List.filter is_tool_use (resp_content response).

(** The tool result [_execute_tools] builds for a request from the outcome
    of its execution. *)
Definition answer_of (b : ContentBlock) (o : Result string) : ToolResult :=
  tool_result (block_id b)
    match o with
    | Ok result => result
    | Raise e => "Tool execution error: " +:+ exc_str e
    end.

(** A response after which the loop goes on: the model stopped for tool
    use, asks for at least one tool, and has no text block that is
    non-empty once stripped of white space. *)
Definition continuing_response (response : Response) : Prop :=
  resp_stop_reason response = "tool_use" ∧
  existsb is_tool_use (resp_content response) = true ∧
  existsb is_nonblank_text (resp_content response) = false.

(** A tool-use-only response: stop reason ["tool_use"] and no text block
    that is non-empty once stripped of white space. *)
Definition tool_use_only (response : Response) : Prop :=
  resp_stop_reason response = "tool_use" ∧
  existsb is_nonblank_text (resp_content response) = false.

(** The first text block whose stripped text is non-empty. *)
Definition first_nonblank_text (response : Response) : option ContentBlock :=
  List.find is_nonblank_text (resp_content response).

(** [block.type == "text"] *)
Definition is_text (block : ContentBlock) : bool :=
  String.eqb (block_type block) "text".

(** A text block whose text is not the empty string. *)
Definition is_nonempty_text (block : ContentBlock) : bool :=
  is_text block && truthy (block_text block).

(** The first text block. *)
Definition first_text (response : Response) : option ContentBlock :=
  List.find is_text (resp_content response).

(** An outcome of [execute_tool] that [_execute_tools] turns into a tool
    result: a returned text, or a raised instance of [Exception]. *)
Definition handled (o : Result string) : bool :=
  match o with
  | Ok _ => true
  | Raise e => isinstance_Exception e
  end.

(** What the tool phase of a continuing round adds to the trace and to the
    turn sequence when it runs to its end: nothing without a tool manager;
    with one, an execution per request, in order, none of which raised
    outside [Exception], and one user turn holding their results. *)
Definition tool_phase (tool_manager : option (ToolExecutor W))
    (response : Response) (evs : list Event) (turns : list Message) : Prop :=
  match tool_manager with
  | None => evs = [] ∧ turns = []
  | Some _ =>
      ∃ outs : list (Result string),
        length outs = length (tool_use_blocks response) ∧
        evs = zip_with ToolCall (tool_use_blocks response) outs ∧
        turns =
          [tool_results_turn
             (zip_with answer_of (tool_use_blocks response) outs)] ∧
        Forall (λ o, handled o = true) outs
  end.

(** What the tool phase adds to the trace when an execution raises [e]
    outside [Exception]: the executions of the requests before it, none
    of which did, and the execution that raised. The requests after it
    are not executed. *)
Definition tool_phase_aborted (tool_manager : option (ToolExecutor W))
    (response : Response) (evs : list Event) (e : BaseException) : Prop :=
  is_Some tool_manager ∧
  isinstance_Exception e = false ∧
  ∃ (before : list ContentBlock) (b : ContentBlock)
    (outs : list (Result string)),
    (before ++ [b]) `prefix_of` tool_use_blocks response ∧
    length outs = length before ∧
    Forall (λ o, handled o = true) outs ∧
    evs = zip_with ToolCall before outs ++ [ToolCall b (Raise e)].

(** The runs of the round loop, as a relation between the loop's entry
    state ([current_round], [messages], [response]), the events it adds
    to the trace, and its outcome. *)
Inductive loop_run (tools : option (list ToolDefinition))
    (tool_manager : option (ToolExecutor W)) (max_rounds : Z)
    (system_content : string)
    : Z → list Message → option Response → list Event →
      Result (list Message * option Response) → Prop :=
| run_exit current_round messages response :
    ¬ (current_round < max_rounds)%Z →
    loop_run tools tool_manager max_rounds system_content
      current_round messages response [] (Ok (messages, response))
| run_raise current_round messages response e :
    (current_round < max_rounds)%Z →
    loop_run tools tool_manager max_rounds system_content
      current_round messages response
      [ApiCall (round_api_params system_content tools messages) (Raise e)]
      (Raise e)
| run_break current_round messages response r :
    (current_round < max_rounds)%Z →
    _should_continue_rounds r (current_round + 1) max_rounds = false →
    loop_run tools tool_manager max_rounds system_content
      current_round messages response
      [ApiCall (round_api_params system_content tools messages) (Ok r)]
      (Ok (messages ++ [assistant_turn r], Some r))
| run_continue current_round messages response r evs turns rest res :
    (current_round < max_rounds)%Z →
    _should_continue_rounds r (current_round + 1) max_rounds = true →
    tool_phase tool_manager r evs turns →
    loop_run tools tool_manager max_rounds system_content
      (current_round + 1) (messages ++ [assistant_turn r] ++ turns)
      (Some r) rest res →
    loop_run tools tool_manager max_rounds system_content
      current_round messages response
      (ApiCall (round_api_params system_content tools messages) (Ok r)
         :: evs ++ rest)
      res
| run_abort current_round messages response r evs e :
    (current_round < max_rounds)%Z →
    _should_continue_rounds r (current_round + 1) max_rounds = true →
    tool_phase_aborted tool_manager r evs e →
    loop_run tools tool_manager max_rounds system_content
      current_round messages response
      (ApiCall (round_api_params system_content tools messages) (Ok r) :: evs)
      (Raise e).

(** The value [generate_response] makes of the loop's outcome. *)
Definition final_result (res : Result (list Message * option Response))
    : Result string :=
  match res with
  | Ok (_, Some response) => Ok (_extract_final_response response)
  | Ok (_, None) => Raise (UnboundLocalError "response")
  | Raise e => Raise e
  end.

(** The events a run adds to the trace, between its entry state [s] and
    its exit state [s']. *)
Definition events_since (s s' : State W) : list Event :=
  drop (length (trace s)) (trace s').

(** The round budget: at most [max_rounds] model-service calls, and when
    that many occur each response before the last was tool-use-only. *)
Definition within_budget (max_rounds : Z) (evs : list Event) : Prop :=
  (call_count evs ≤ Z.to_nat max_rounds)%nat ∧
  (call_count evs = Z.to_nat max_rounds →
   ∀ i, (S i < Z.to_nat max_rounds)%nat →
     ∃ p r, api_calls evs !! i = Some (p, Ok r) ∧ tool_use_only r).

(** A response that has a text block, non-empty once stripped, and a
    tool request ends the run: its model-service call is the last event of
    the trace (no tool execution and no model call follow) and the result
    is the text of its first such text block. *)
Definition mixed_response_ends_run (evs : list Event) (res : Result string)
    : Prop :=
  ∀ i p r,
    evs !! i = Some (ApiCall p (Ok r)) →
    existsb is_nonblank_text (resp_content r) = true →
    existsb is_tool_use (resp_content r) = true →
    S i = length evs ∧
    ∃ b, first_nonblank_text r = Some b ∧ res = Ok (block_text b).

(** Between two consecutive model-service calls, the turn sequence grows
    by the assistant turn of the response and one user turn of tool
    results, one per tool request of the response, with the request's id,
    in the order of the requests. *)
Definition requests_answered (evs : list Event) : Prop :=
  ∀ i p r p' o',
    api_calls evs !! i = Some (p, Ok r) →
    api_calls evs !! S i = Some (p', o') →
    ∃ trs,
      api_messages p' =
        api_messages p ++ [assistant_turn r; tool_results_turn trs] ∧
      map tool_use_id trs = map block_id (tool_use_blocks r) ∧
      Forall (λ tr, tr_type tr = "tool_result") trs.

(** The result of a run is decided by its last event. When that is a
    model-service call that returned a response, the result is the text of
    the first text block of that response that is non-empty once stripped,
    or the fallback message when it has none. When the call raised, so
    does the run. When the last event is a tool execution, it raised
    outside [Exception], and so does the run. When there is no event,
    [response] is unbound. *)
Definition answer_from_last_response (evs : list Event) (res : Result string)
    : Prop :=
  match last evs with
  | Some (ApiCall _ (Ok r)) =>
      res = Ok (match first_nonblank_text r with
                | Some b => block_text b
                | None => FALLBACK
                end)
  | Some (ApiCall _ (Raise e)) => res = Raise e
  | Some (ToolCall _ o) =>
      ∃ e, o = Raise e ∧ isinstance_Exception e = false ∧ res = Raise e
  | None => res = Raise (UnboundLocalError "response")
  end.

(** A tool manager whose [execute_tool] raises nothing outside
    [Exception]. *)
Definition raises_only_Exception (tool_manager : ToolExecutor W) : Prop :=
  ∀ name input w e w',
    execute_tool_method tool_manager name input w = (Raise e, w') →
    isinstance_Exception e = true.




(** *** The same properties, read with "non-empty text" and "first text
    block" taken literally *)

(** Tool-use-only, literally: stop reason ["tool_use"] and no text block
    whose text differs from the empty string. *)
Definition tool_use_only_as_stated (response : Response) : Prop :=
  resp_stop_reason response = "tool_use" ∧
  existsb is_nonempty_text (resp_content response) = false.

Definition within_budget_as_stated (max_rounds : Z) (evs : list Event) : Prop :=
  (call_count evs ≤ Z.to_nat max_rounds)%nat ∧
  (call_count evs = Z.to_nat max_rounds →
   ∀ i, (S i < Z.to_nat max_rounds)%nat →
     ∃ p r, api_calls evs !! i = Some (p, Ok r) ∧ tool_use_only_as_stated r).

Definition mixed_response_ends_run_as_stated (evs : list Event)
    (res : Result string) : Prop :=
  ∀ i p r,
    evs !! i = Some (ApiCall p (Ok r)) →
    existsb is_nonempty_text (resp_content r) = true →
    existsb is_tool_use (resp_content r) = true →
    S i = length evs ∧
    ∃ b, List.find is_nonempty_text (resp_content r) = Some b ∧
         res = Ok (block_text b).

Definition answer_from_last_response_as_stated (evs : list Event)
    (res : Result string) : Prop :=
  match last evs with
  | Some (ApiCall _ (Ok r)) =>
      res = Ok (match first_text r with
                | Some b => block_text b
                | None => FALLBACK
                end)
  | Some (ApiCall _ (Raise e)) => res = Raise e
  | Some (ToolCall _ o) =>
      ∃ e, o = Raise e ∧ isinstance_Exception e = false ∧ res = Raise e
  | None => res = Raise (UnboundLocalError "response")
  end.

End WithClient.

(** *** The system instructions *)

Definition dquote : string := String (ascii_of_nat 34) EmptyString.

(** The class attribute [SYSTEM_PROMPT], line by line. Texts are
    sequences of bytes: the dash of the "No meta-commentary" item stands
    as the three bytes of its UTF-8 encoding. *)
Definition SYSTEM_PROMPT : string :=
  join newline
    [" You are an AI assistant specialized in course materials and educational content with access to comprehensive search tools for course information.";
     "";
     "Tool Usage Guidelines:";
     "- **Content Search Tool**: Use `search_course_content` for questions about specific course content, lessons, or detailed educational materials";
     "- **Course Outline Tool**: Use `get_course_outline` for questions about course structure, lesson lists, course overview, or complete course outlines";
     "- **Sequential Tool Calling**: You can make up to 2 tool calls across separate rounds to gather comprehensive information";
     "- After each tool call, you'll see the results and can decide if additional searches are needed";
     "- Use multiple rounds for complex queries requiring information from different courses or lessons";
     "- Synthesize tool results into accurate, fact-based responses";
     "- If search yields no results, state this clearly without offering alternatives";
     "";
     "Response Protocol:";
     "- **General knowledge questions**: Answer using existing knowledge without using tools";
     "- **Course content questions**: Use content search tool first, then answer";
     "- **Course outline/structure questions**: Use outline tool first, then answer - include course title, course link, and complete lesson list with numbers and titles";
     "- **No meta-commentary**:";
     " - Provide direct answers only — no reasoning process, tool explanations, or question-type analysis";
     (" - Do not mention " +:+ dquote +:+ "based on the search results" +:+ dquote +:+ " or " +:+ dquote +:+ "using the tool" +:+ dquote);
     "";
     "All responses must be:";
     "1. **Brief, Concise and focused** - Get to the point quickly";
     "2. **Educational** - Maintain instructional value";
     "3. **Clear** - Use accessible language";
     "4. **Example-supported** - Include relevant examples when they aid understanding";
     "Provide only the direct answer to what was asked.";
     ""].

(** The f-string [multi_round_instructions] of [_build_system_content],
    line by line. *)
Definition multi_round_instructions (max_rounds : Z) : string :=
  join newline
    ["";
     "Tool Usage Protocol (Sequential):";
     "- You can make up to " +:+ str_int max_rounds +:+ " tool calls across separate rounds";
     "- After each tool call, you'll see the results and can decide next actions";
     "- Use additional tool calls to gather more specific information if needed";
     "- Provide your final response when you have sufficient information";
     "- Include reasoning about why additional searches might be helpful";
     "";
     "Multi-Round Strategy:";
     "- Round 1: Use tools for initial information gathering";
     "- Round 2: Use tools for follow-up questions or specific details if needed";
     "- Always synthesize information from all rounds in your final response";
     ""].

(** The line of [SYSTEM_PROMPT] that [_build_system_content] replaces. *)
Definition SEQUENTIAL_LINE : string :=
  "- **Sequential Tool Calling**: You can make up to 2 tool calls across separate rounds to gather comprehensive information".

Definition _build_system_content (conversation_history : option string)
    (max_rounds : Z) : string :=
  let base_prompt :=
    str_replace SYSTEM_PROMPT SEQUENTIAL_LINE
      (multi_round_instructions max_rounds) in
  match conversation_history with
  | Some history =>
      if truthy history
      then base_prompt +:+ newline +:+ newline +:+ "Previous conversation:"
           +:+ newline +:+ history
      else base_prompt
  | None => base_prompt
  end.


(** The text of [SYSTEM_PROMPT] before and after the replaced line. *)
Definition SYSTEM_PROMPT_HEAD : string :=
  join newline
    [" You are an AI assistant specialized in course materials and educational content with access to comprehensive search tools for course information.";
     "";
     "Tool Usage Guidelines:";
     "- **Content Search Tool**: Use `search_course_content` for questions about specific course content, lessons, or detailed educational materials";
     "- **Course Outline Tool**: Use `get_course_outline` for questions about course structure, lesson lists, course overview, or complete course outlines"] +:+ newline.

Definition SYSTEM_PROMPT_TAIL : string :=
  newline +:+
  join newline
    ["- After each tool call, you'll see the results and can decide if additional searches are needed";
     "- Use multiple rounds for complex queries requiring information from different courses or lessons";
     "- Synthesize tool results into accurate, fact-based responses";
     "- If search yields no results, state this clearly without offering alternatives";
     "";
     "Response Protocol:";
     "- **General knowledge questions**: Answer using existing knowledge without using tools";
     "- **Course content questions**: Use content search tool first, then answer";
     "- **Course outline/structure questions**: Use outline tool first, then answer - include course title, course link, and complete lesson list with numbers and titles";
     "- **No meta-commentary**:";
     " - Provide direct answers only — no reasoning process, tool explanations, or question-type analysis";
     (" - Do not mention " +:+ dquote +:+ "based on the search results" +:+ dquote +:+ " or " +:+ dquote +:+ "using the tool" +:+ dquote);
     "";
     "All responses must be:";
     "1. **Brief, Concise and focused** - Get to the point quickly";
     "2. **Educational** - Maintain instructional value";
     "3. **Clear** - Use accessible language";
     "4. **Example-supported** - Include relevant examples when they aid understanding";
     "Provide only the direct answer to what was asked.";
     ""].

(** The section [_build_system_content] appends for a conversation
    history that is neither [None] nor empty. *)
Definition history_section (conversation_history : option string) : string :=
  if truthy_opt conversation_history
  then newline +:+ newline +:+ "Previous conversation:" +:+ newline
       +:+ default "" conversation_history
  else "".

(** The budget clause of the system instructions. *)
Definition budget_clause (max_rounds : Z) : string :=
  "- You can make up to " +:+ str_int max_rounds
  +:+ " tool calls across separate rounds".

(** *** Vocabulary for further properties of the round protocol *)

Definition user_turn (query : string) : Message :=
  {| msg_role := "user"; msg_content := PlainText query |}.

(** Every model-service call of a run is made with the same model,
    sampling settings, system instructions and tool declarations, and
    with automatic tool choice exactly when declarations are given. *)
Definition same_request_settings (model system_content : string)
    (tools : option (list ToolDefinition)) (evs : list Event) : Prop :=
  ∀ i p o,
    api_calls evs !! i = Some (p, o) →
    api_model p = model ∧ api_temperature p = 0%Z ∧
    api_max_tokens p = 800%Z ∧ api_system p = system_content ∧
    api_tools p = tools ∧
    api_tool_choice p = (if tools is Some _ then Some "auto" else None).

(** The first model-service call is made with the query as its only
    turn, and the turn sequence of a call extends that of every earlier
    call. *)
Definition turns_only_grow (query : string) (evs : list Event) : Prop :=
  (∀ p o, api_calls evs !! 0%nat = Some (p, o) →
          api_messages p = [user_turn query]) ∧
  ∀ i j p o p' o',
    (i ≤ j)%nat →
    api_calls evs !! i = Some (p, o) →
    api_calls evs !! j = Some (p', o') →
    api_messages p `prefix_of` api_messages p'.

(** The roles of the turns sent with the [i]-th model-service call: a
    user turn, then [i] pairs of an assistant turn and a user turn. *)
Definition roles_alternate (evs : list Event) : Prop :=
  ∀ i p o,
    api_calls evs !! i = Some (p, o) →
    msg_role <$> api_messages p =
      "user" :: mjoin (replicate i ["assistant"; "user"]).

Definition ok_response (c : ApiParams * Result Response) : option Response :=
  match c.2 with
  | Ok r => Some r
  | Raise _ => None
  end.

(** The responses of the model-service calls of a trace but the last. *)
Definition earlier_responses (evs : list Event) : list Response :=
  omap ok_response (take (call_count evs - 1) (api_calls evs)).

(** The tool requests executed in a run are those of the responses before
    the last, each once, in the order of the responses and of their
    blocks. The requests of the last response are not executed, unless the
    run ends with a tool execution (one that raised outside [Exception],
    see [answer_from_last_response]): then the requests of the last
    response up to that one have been executed as well. *)
Definition requests_executed_in_order (evs : list Event) : Prop :=
  ∃ interrupted : list ContentBlock,
    (tool_calls evs).*1 =
      mjoin (tool_use_blocks <$> earlier_responses evs) ++ interrupted ∧
    match last evs with
    | Some (ToolCall b _) =>
        ∃ p r,
          last (api_calls evs) = Some (p, Ok r) ∧
          interrupted `prefix_of` tool_use_blocks r ∧
          last interrupted = Some b
    | _ => interrupted = []
    end.

(** A model-service call that raises is the last event of the run, and
    the run raises the same exception. *)
Definition failure_ends_run (evs : list Event) (res : Result string) : Prop :=
  ∀ i p e,
    evs !! i = Some (ApiCall p (Raise e)) →
    S i = length evs ∧ res = Raise e.

(** A response that did not stop for tool use, or holds no tool request,
    is the last event of the run, and the run returns the text of its
    first text block that is non-empty once stripped of white space, or
    the fallback message when it has none. *)
Definition direct_answer_ends_run (evs : list Event) (res : Result string)
    : Prop :=
  ∀ i p r,
    evs !! i = Some (ApiCall p (Ok r)) →
    resp_stop_reason r ≠ "tool_use" ∨
      existsb is_tool_use (resp_content r) = false →
    S i = length evs ∧
    res = Ok (match first_nonblank_text r with
              | Some b => block_text b
              | None => FALLBACK
              end).

Section Outcomes.

Context {W : Type}.

(** An event records what its collaborator answered: the outcome of a
    model-service call is the one [messages_create] gave for its
    arguments in some world, and the outcome of a tool execution is the
    one the tool manager gave for the block's name and input. *)
Definition recorded_faithfully
    (messages_create : ApiParams → W → Result Response * W)
    (tool_manager : option (ToolExecutor W)) (ev : Event) : Prop :=
  match ev with
  | ApiCall p o => ∃ w, (messages_create p w).1 = o
  | ToolCall b o =>
      ∃ tm w,
        tool_manager = Some tm ∧
        (execute_tool_method tm (block_name b) (block_input b) w).1 = o
  end.

(** A model service that always answers, and always asks for tools
    without giving text. *)
Definition always_asks_for_tools
    (messages_create : ApiParams → W → Result Response * W) : Prop :=
  ∀ p w, ∃ r w', messages_create p w = (Ok r, w') ∧ continuing_response r.

End Outcomes.

End AIGenerator.

(** ** [search_tools.py] *)

(** A Python dictionary entry read with [d.get(key, default)]: [None] when
    the key is missing, [Some v] when it is bound to [v]. *)
Definition dict_get {A} (entry : option A) (dflt : A) : A :=
  match entry with
  | Some v => v
  | None => dflt
  end.

(** Formatting of an [Optional[str]] inside an f-string. *)
Definition fmt_opt_str (o : option string) : string :=
  match o with
  | Some s => s
  | None => "None"
  end.

(** The metadata dictionary of a matched passage. *)
Record Meta := {
  meta_course_title : option string;
  meta_lesson_number : option Z
}.

(** The [SearchResults] object returned by the retrieval backend, with
    the attributes and the [is_empty()] answer the tools read. *)
Record SearchResults := {
  documents : list string;
  metadata : list Meta;
  error : option string;
  is_empty : bool
}.

(** A lesson dictionary of the course catalog. *)
Record Lesson := {
  lesson_number : option Z;
  lesson_title : option (option string)
}.

(** A course dictionary of the course catalog. Every key may be missing;
    a bound text value may be [None]. *)
Record CourseData := {
  cd_title : option (option string);
  cd_instructor : option (option string);
  cd_course_link : option (option string);
  cd_lessons : option (list Lesson)
}.

(** The retrieval backend ([VectorStore]), consumed through the five
    operations the tools call. *)
Record VectorStore := {
  search : string → option string → option Z → SearchResults;
  get_lesson_link : string → Z → option string;
  _resolve_course_name : string → option string;
  get_all_courses_metadata : list CourseData;
  get_existing_course_titles : list string
}.

(** A citation dictionary [{"title": .., "url": ..}]; [url] may be absent. *)
Record Source := {
  title : string;
  url : option string
}.

Module CourseSearchTool.

(** The tool object: its store and its mutable [last_sources]. *)
Record t := {
  store : VectorStore;
  last_sources : list Source
}.

Definition __init__ (vector_store : VectorStore) : t :=
  {| store := vector_store; last_sources := [] |}.

Definition get_tool_definition : ToolDefinition :=
  {| def_name := Some "search_course_content";
     def_description :=
       "Search course materials with smart course name matching and lesson filtering";
     def_properties :=
       [("query", ("string", "What to search for in the course content"));
        ("course_name",
         ("string",
          "Course title (partial matches work, e.g. 'MCP', 'Introduction')"));
        ("lesson_number",
         ("integer",
          "Specific lesson number to search within (e.g. 1, 2, 3)"))];
     def_required := ["query"] |}.

(** The header [f"[{course_title}"], then [f" - Lesson {lesson_num}"] when
    the lesson number is not [None], then ["]"]. *)
Definition header_of (course_title : string) (lesson_num : option Z) : string :=
  let header := "[" +:+ course_title in
  let header :=
    match lesson_num with
    | Some n => header +:+ " - Lesson " +:+ str_int n
    | None => header
    end in
  header +:+ "]".

(** The citation built for one passage in [_format_results]. *)
Definition source_info_of (vector_store : VectorStore) (meta : Meta)
    : Source :=
  let course_title := dict_get (meta_course_title meta) "unknown" in
  let lesson_num := meta_lesson_number meta in
  let source_title :=
    match lesson_num with
    | Some n => course_title +:+ " - Lesson " +:+ str_int n
    | None => course_title
    end in
  let lesson_url :=
    match lesson_num with
    | Some n =>
        if negb (String.eqb course_title "unknown")
        then get_lesson_link vector_store course_title n
        else None
    | None => None
    end in
  {| title := source_title;
     url := if truthy_opt lesson_url then lesson_url else None |}.

(** The [for doc, meta in zip(..)] loop of [_format_results], threading
    the lists [formatted] and [sources]. *)
Fixpoint _format_results_loop (self : t) (pairs : list (string * Meta))
    (formatted : list string) (sources : list Source)
    : list string * list Source :=
  match pairs with
  | [] => (formatted, sources)
  | (doc, meta) :: rest =>
      let course_title := dict_get (meta_course_title meta) "unknown" in
      let lesson_num := meta_lesson_number meta in
      let header := header_of course_title lesson_num in
      let sources := sources ++ [source_info_of (store self) meta] in
      let formatted := formatted ++ [header +:+ newline +:+ doc] in
      _format_results_loop self rest formatted sources
  end.

Definition _format_results (self : t) (results : SearchResults) : string * t :=
  let '(formatted, sources) :=
    _format_results_loop self (zip (documents results) (metadata results))
      [] [] in
  let self := {| store := store self; last_sources := sources |} in
  (join (newline +:+ newline) formatted, self).

(** [execute] returns the text and the tool object after the call. *)
Definition execute (self : t) (query : string) (course_name : option string)
    (lesson_number : option Z) : string * t :=
  let results := search (store self) query course_name lesson_number in
  if truthy_opt (error results) then (fmt_opt_str (error results), self)
  else if is_empty results then
    let filter_info := "" in
    let filter_info :=
      if truthy_opt course_name
      then filter_info +:+ " in course '" +:+ fmt_opt_str course_name +:+ "'"
      else filter_info in
    let filter_info :=
      if truthy_int lesson_number
      then filter_info +:+ " in lesson " +:+ str_opt_int lesson_number
      else filter_info in
    ("No relevant content found" +:+ filter_info +:+ ".", self)
  else _format_results self results.

(** *** Vocabulary for the properties of the stored citations *)

(** The citation list built for a result set: one citation per
    (passage, metadata) pair, in order. *)
Definition sources_for (vector_store : VectorStore) (results : SearchResults)
    : list Source :=
  source_info_of vector_store <$> (zip (documents results) (metadata results)).*2.

(** Whether a call of [execute] reaches [_format_results]: its search
    reports no error and is not empty. *)
Definition formats_results (results : SearchResults) : bool :=
  negb (truthy_opt (error results)) && negb (is_empty results).

(** The stored citations after a call, read literally: the list built for
    the call, empty when the search reports an error or no passage. *)
Definition last_sources_replaced_as_stated (self : t) (query : string)
    (course_name : option string) (lesson_number : option Z) : Prop :=
  let results := search (store self) query course_name lesson_number in
  last_sources (execute self query course_name lesson_number).2 =
    if formats_results results then sources_for (store self) results else [].

(** The text of one passage: the title of its citation in brackets, a
    line break, the passage. *)
Definition passage_text (doc : string) (source : Source) : string :=
  "[" +:+ title source +:+ "]" +:+ newline +:+ doc.

End CourseSearchTool.

Module CourseOutlineTool.

Record t := {
  store : VectorStore;
  last_sources : list Source
}.

Definition __init__ (vector_store : VectorStore) : t :=
  {| store := vector_store; last_sources := [] |}.

Definition get_tool_definition : ToolDefinition :=
  {| def_name := Some "get_course_outline";
     def_description :=
       "Get complete course outline including title, course link, and all lessons";
     def_properties :=
       [("course_title",
         ("string", "Course title to get outline for (partial matches work)"))];
     def_required := ["course_title"] |}.

(** The [for lesson in lessons] loop of [_format_outline], threading
    [outline_parts]. *)
Fixpoint lesson_lines_loop (lessons : list Lesson) (outline_parts : list string)
    : list string :=
  match lessons with
  | [] => outline_parts
  | lesson :: rest =>
      let lesson_num := lesson_number lesson in
      let lesson_title := dict_get (lesson_title lesson) (Some "Untitled") in
      let lesson_line :=
        "  " +:+ str_opt_int lesson_num +:+ ". " +:+ fmt_opt_str lesson_title in
      lesson_lines_loop rest (outline_parts ++ [lesson_line])
  end.

(** The list [outline_parts] at the end of [_format_outline]. *)
Definition outline_parts_of (course_data : CourseData) : list string :=
  let title := dict_get (cd_title course_data) (Some "Unknown Course") in
  let instructor :=
    dict_get (cd_instructor course_data) (Some "Unknown Instructor") in
  let course_link := dict_get (cd_course_link course_data) None in
  let lessons := dict_get (cd_lessons course_data) [] in
  let outline_parts := ["**" +:+ fmt_opt_str title +:+ "**"] in
  let outline_parts :=
    if truthy_opt instructor
    then outline_parts ++ ["Instructor: " +:+ fmt_opt_str instructor]
    else outline_parts in
  let outline_parts :=
    if truthy_opt course_link
    then outline_parts ++ ["Course Link: " +:+ fmt_opt_str course_link]
    else outline_parts in
  match lessons with
  | _ :: _ =>
      let outline_parts :=
        outline_parts ++
          [newline +:+ "Lessons (" +:+ str_int (Z.of_nat (length lessons))
           +:+ " total):"] in
      lesson_lines_loop lessons outline_parts
  | [] =>
      outline_parts ++ [newline +:+ "No lessons found for this course."]
  end.

Definition _format_outline (self : t) (course_data : CourseData) : string * t :=
  let title := dict_get (cd_title course_data) (Some "Unknown Course") in
  let course_link := dict_get (cd_course_link course_data) None in
  let outline_parts := outline_parts_of course_data in
  let source_info :=
    {| title := fmt_opt_str title +:+ " - Course Outline";
       url := if truthy_opt course_link then course_link else None |} in
  let self := {| store := store self; last_sources := [source_info] |} in
  (join newline outline_parts, self).

(** The [for course in all_courses] search of [execute]. *)
Fixpoint find_course (all_courses : list CourseData) (resolved_title : string)
    : option CourseData :=
  match all_courses with
  | [] => None
  | course :: rest =>
      if bool_decide (dict_get (cd_title course) None = Some resolved_title)
      then Some course
      else find_course rest resolved_title
  end.

Definition execute (self : t) (course_title : string) : string * t :=
  let resolved_title := _resolve_course_name (store self) course_title in
  match resolved_title with
  | Some resolved_title =>
      if truthy resolved_title then
        match find_course (get_all_courses_metadata (store self)) resolved_title with
        | Some course_data => _format_outline self course_data
        | None =>
            ("Course metadata not found for '" +:+ resolved_title +:+ "'", self)
        end
      else
        ("No course found matching '" +:+ course_title
         +:+ "'. Available courses: "
         +:+ join ", " (get_existing_course_titles (store self)), self)
  | None =>
      ("No course found matching '" +:+ course_title
       +:+ "'. Available courses: "
       +:+ join ", " (get_existing_course_titles (store self)), self)
  end.

(** *** Vocabulary for the line count of an outline *)

(** The lessons of a course record. *)
Definition lessons_of (course_data : CourseData) : list Lesson :=
  dict_get (cd_lessons course_data) [].

(** Whether [_format_outline] emits an instructor line: the instructor
    value, ["Unknown Instructor"] when the key is missing, is neither
    [None] nor empty. *)
Definition has_instructor_line (course_data : CourseData) : bool :=
  truthy_opt (dict_get (cd_instructor course_data) (Some "Unknown Instructor")).

(** Whether [_format_outline] emits a link line. *)
Definition has_link_line (course_data : CourseData) : bool :=
  truthy_opt (dict_get (cd_course_link course_data) None).

(** Whether the record holds an instructor. *)
Definition instructor_present (course_data : CourseData) : bool :=
  truthy_opt (dict_get (cd_instructor course_data) None).

Definition single_line (s : string) : Prop := count_newlines s = 0%nat.

Definition single_line_opt (o : option string) : Prop :=
  single_line (fmt_opt_str o).

(** The texts of the record (title, instructor, link, lesson titles)
    hold no line break. *)
Definition single_line_fields (course_data : CourseData) : Prop :=
  single_line_opt (dict_get (cd_title course_data) (Some "Unknown Course")) ∧
  single_line_opt
    (dict_get (cd_instructor course_data) (Some "Unknown Instructor")) ∧
  single_line_opt (dict_get (cd_course_link course_data) None) ∧
  Forall (λ lesson,
            single_line_opt (dict_get (lesson_title lesson) (Some "Untitled")))
    (lessons_of course_data).

Definition bool_to_nat (b : bool) : nat := if b then 1%nat else 0%nat.

(** The line count of an outline, as stated: title, instructor if
    present, link if present, header and one line per lesson, or one line
    in place of header and lessons when there is no lesson. *)
Definition outline_line_count_as_stated (course_data : CourseData) : nat :=
  (1 + bool_to_nat (instructor_present course_data)
   + bool_to_nat (has_link_line course_data)
   + match lessons_of course_data with
     | [] => 1
     | _ :: _ => 1 + length (lessons_of course_data)
     end)%nat.

End CourseOutlineTool.

(** The abstract class [Tool]: a declaration and an [execute( **kwargs )]
    that may change the world and may raise. *)
Record Tool (W : Type) := {
  get_tool_definition : ToolDefinition;
  execute : Kwargs → W → Result string * W
}.
Arguments get_tool_definition {W} _.
Arguments execute {W} _ _ _.

Module ToolManager.

Section WithWorld.

Context {W : Type}.

(** The manager object: its dictionary [self.tools]. Registration and
    dispatch by name are embedded; they do not depend on the order of the
    dictionary. *)
Record t := {
  tools : gmap string (Tool W)
}.

Definition __init__ : t := {| tools := ∅ |}.

Definition ValueError (msg : string) : BaseException :=
  {| exc_class := "ValueError"; exc_str := msg;
     isinstance_Exception := true |}.

Definition register_tool (self : t) (tool : Tool W) : Result t :=
  let tool_def := get_tool_definition tool in
  let tool_name := def_name tool_def in
  if negb (truthy_opt tool_name)
  then Raise (ValueError "Tool must have a 'name' in its definition")
  else Ok {| tools := <[fmt_opt_str tool_name := tool]> (tools self) |}.

(** The body of [execute_tool], for parameters already bound. *)
Definition execute_tool (self : t) (tool_name : string) (kwargs : Kwargs)
    : W → Result string * W :=
  match tools self !! tool_name with
  | None => λ w, (Ok ("Tool '" +:+ tool_name +:+ "' not found"), w)
  | Some tool => execute tool kwargs
  end.

(** The first keyword of [kwargs] that is also a parameter of
    [execute_tool(self, tool_name, **kwargs)] filled by position. *)
Definition colliding_keyword (kwargs : Kwargs) : option string :=
  fst <$>
    List.find (λ entry, String.eqb entry.1 "self"
                        || String.eqb entry.1 "tool_name") kwargs.

(** The [TypeError] of a call that gives a parameter twice, with the
    text of Python 3.10 and later, which names the method by its
    qualified name. *)
Definition multiple_values (key : string) : BaseException :=
  TypeError ("ToolManager.execute_tool() got multiple values for argument '"
             +:+ key +:+ "'").

(** The call [self.execute_tool(tool_name, **kwargs)]: the arguments are
    bound to the parameters first, which raises [TypeError] when a
    keyword names [self] or [tool_name], and then the body runs. *)
Definition call_execute_tool (self : t) (tool_name : string) (kwargs : Kwargs)
    : W → Result string * W :=
  match colliding_keyword kwargs with
  | Some key => λ w, (Raise (multiple_values key), w)
  | None => execute_tool self tool_name kwargs
  end.

(** A [ToolManager] passed as the [tool_manager] of [generate_response],
    which calls [tool_manager.execute_tool(name, **input)]. *)
Definition as_executor (self : t) : ToolExecutor W :=
  {| execute_tool_method := call_execute_tool self |}.

End WithWorld.

Arguments t W : clear implicits.

End ToolManager.

(** ** [ToolManager] and the citations of its tools

    The methods of [ToolManager] that walk over [self.tools] read two
    things of a tool: its declaration and, when it has one, its
    [last_sources] attribute. Here the dictionary is an association list
    in insertion order, as a Python [dict] keeps it. *)

Module SourceTracking.

(** A registered tool, as far as [ToolManager] looks at it: what
    [get_tool_definition()] returns and the [last_sources] attribute,
    [None] for a tool that has no such attribute. *)
Record TrackedTool := {
  tracked_definition : ToolDefinition;
  tracked_sources : option (list Source)
}.

(** The views of the two tools of [search_tools.py]. *)
Definition of_search_tool (tool : CourseSearchTool.t) : TrackedTool :=
  {| tracked_definition := CourseSearchTool.get_tool_definition;
     tracked_sources := Some (CourseSearchTool.last_sources tool) |}.

Definition of_outline_tool (tool : CourseOutlineTool.t) : TrackedTool :=
  {| tracked_definition := CourseOutlineTool.get_tool_definition;
     tracked_sources := Some (CourseOutlineTool.last_sources tool) |}.

(** [d[key] = value] on a dictionary in insertion order: a bound key keeps
    its place and takes the new value, a new key goes to the end. *)
Fixpoint dict_set {V} (key : string) (value : V) (d : list (string * V))
    : list (string * V) :=
  match d with
  | [] => [(key, value)]
  | (k, v) :: d' =>
      if String.eqb k key then (key, value) :: d'
      else (k, v) :: dict_set key value d'
  end.

(** [d.get(key)] *)
Fixpoint dict_lookup {V} (key : string) (d : list (string * V)) : option V :=
  match d with
  | [] => None
  | (k, v) :: d' => if String.eqb k key then Some v else dict_lookup key d'
  end.

(** The manager object: its dictionary [self.tools]. *)
Record t := {
  tools : list (string * TrackedTool)
}.

Definition __init__ : t := {| tools := [] |}.

(** The keys of [self.tools], in order. *)
Definition names (self : t) : list string := (tools self).*1.

Definition register_tool (self : t) (tool : TrackedTool) : Result t :=
  let tool_def := tracked_definition tool in
  let tool_name := def_name tool_def in
  match tool_name with
  | Some tool_name =>
      if truthy tool_name
      then Ok {| tools := dict_set tool_name tool (tools self) |}
      else Raise (ToolManager.ValueError
                    "Tool must have a 'name' in its definition")
  | None =>
      Raise (ToolManager.ValueError "Tool must have a 'name' in its definition")
  end.

Definition get_tool_definitions (self : t) : list ToolDefinition :=
  tracked_definition <$> (tools self).*2.

(** The [for tool in self.tools.values()] loop of [get_last_sources]. *)
Fixpoint get_last_sources_loop (values : list TrackedTool) : list Source :=
  match values with
  | [] => []
  | tool :: rest =>
      match tracked_sources tool with
      | Some (source :: sources) => source :: sources
      | Some [] => get_last_sources_loop rest
      | None => get_last_sources_loop rest
      end
  end.

Definition get_last_sources (self : t) : list Source :=
  get_last_sources_loop (tools self).*2.

(** [tool.last_sources = []] for a tool that has the attribute. *)
Definition reset_tool (tool : TrackedTool) : TrackedTool :=
  match tracked_sources tool with
  | Some _ =>
      {| tracked_definition := tracked_definition tool;
         tracked_sources := Some [] |}
  | None => tool
  end.

Definition reset_sources (self : t) : t :=
  {| tools := prod_map id reset_tool <$> tools self |}.

(** A tool that has nothing to cite: no [last_sources] attribute, or an
    empty list. *)
Definition nothing_to_cite (tool : TrackedTool) : Prop :=
  tracked_sources tool = None ∨ tracked_sources tool = Some [].

End SourceTracking.

(** ** [tests/conftest.py]: the query endpoint of the test application *)

Module TestApp.

(** The request model [QueryRequest]. *)
Record QueryRequest := {
  request_query : string;
  request_session_id : option string
}.

(** The response models [SourceInfo] and [QueryResponse]. *)
Record SourceInfo := {
  info_title : string;
  info_url : option string
}.

Record QueryResponse := {
  answer : string;
  sources : list SourceInfo;
  session_id : string
}.

(** [HTTPException(status_code=.., detail=..)] *)
Record HTTPException := {
  status_code : Z;
  detail : string
}.

(** A source as the RAG system hands it over: a dictionary, whose
    ['title'] and ['url'] keys may be missing, or a plain string. The
    values are those of the declared types: the request has passed the
    validation of the framework, the title and the link of a dictionary
    are strings, and so are the answer and the session. What the response
    models do with values of other types is not embedded. *)
Inductive RawSource :=
| DictSource (title_entry : option string) (url_entry : option string)
| TextSource (text : string).

(** [str(KeyError(key))] *)
Definition KeyError (key : string) : BaseException :=
  {| exc_class := "KeyError"; exc_str := "'" +:+ key +:+ "'";
     isinstance_Exception := true |}.

Section WithRag.

Context {W : Type}.

(** [mock_rag_system.session_manager.create_session()] *)
Variable create_session : W → Result string * W.

(** [mock_rag_system.query(query, session_id)] *)
Variable rag_query : string → string → W → Result (string * list RawSource) * W.

(** The [for source in sources] loop of [query_documents], threading
    [source_objects]; [source['title']] raises [KeyError] on a dictionary
    without that key. *)
Fixpoint source_objects_loop (sources : list RawSource)
    (source_objects : list SourceInfo) : Result (list SourceInfo) :=
  match sources with
  | [] => Ok source_objects
  | source :: rest =>
      match source with
      | DictSource title_entry url_entry =>
          match title_entry with
          | Some source_title =>
              source_objects_loop rest
                (source_objects ++
                   [{| info_title := source_title; info_url := url_entry |}])
          | None => Raise (KeyError "title")
          end
      | TextSource text =>
          source_objects_loop rest
            (source_objects ++ [{| info_title := text; info_url := None |}])
      end
  end.

(** The body of the [try] block of [query_documents]. *)
Definition query_documents_body (request : QueryRequest)
    : W → Result QueryResponse * W :=
  λ w,
  let '(session, w) :=
    match request_session_id request with
    | Some session_id =>
        if truthy session_id then (Ok session_id, w) else create_session w
    | None => create_session w
    end in
  match session with
  | Raise e => (Raise e, w)
  | Ok session_id =>
      let '(queried, w) := rag_query (request_query request) session_id w in
      match queried with
      | Raise e => (Raise e, w)
      | Ok (answer, sources) =>
          match source_objects_loop sources [] with
          | Raise e => (Raise e, w)
          | Ok source_objects =>
              (Ok {| answer := answer; sources := source_objects;
                     session_id := session_id |}, w)
          end
      end
  end.

(** The endpoint: its response, the [HTTPException] its
    [except Exception] clause raises for an instance of [Exception], or
    the exception the clause lets through. *)
Definition query_documents (request : QueryRequest)
    : W → (QueryResponse + (HTTPException + BaseException)) * W :=
  λ w,
  match query_documents_body request w with
  | (Ok response, w') => (inl response, w')
  | (Raise e, w') =>
      if isinstance_Exception e
      then (inr (inl {| status_code := 500; detail := exc_str e |}), w')
      else (inr (inr e), w')
  end.

(** The [SourceInfo] made of a source that has a title. *)
Definition source_info_of (source : RawSource) : option SourceInfo :=
  match source with
  | DictSource (Some source_title) url_entry =>
      Some {| info_title := source_title; info_url := url_entry |}
  | DictSource None _ => None
  | TextSource text => Some {| info_title := text; info_url := None |}
  end.

End WithRag.

End TestApp.

(** ** Test doubles (after [tests/test_ai_generator.py]) *)

Module Mock.

(** The world of a mocked run: the [side_effect] list of the mocked
    [client.messages.create], consumed one outcome per call. *)
Record World := { side_effect : list (Result Response) }.

Definition StopIteration : BaseException :=
  {| exc_class := "StopIteration"; exc_str := "";
     isinstance_Exception := true |}.

Definition messages_create (p : ApiParams) (w : World)
    : Result Response * World :=
  match side_effect w with
  | [] => (Raise StopIteration, w)
  | o :: rest => (o, {| side_effect := rest |})
  end.

(** [tool_manager.execute_tool.return_value = "Mock tool result"] *)
Definition mock_tool_manager : ToolExecutor World :=
  {| execute_tool_method := λ _ _ w, (Ok "Mock tool result", w) |}.

(** [tool_manager.execute_tool.side_effect = Exception("Tool failed")] *)
Definition failing_tool_manager : ToolExecutor World :=
  {| execute_tool_method := λ _ _ w,
       (Raise (Exception "Tool failed"), w) |}.

Definition initial (script : list (Result Response)) : State World :=
  {| world := {| side_effect := script |}; trace := [] |}.

Definition sample_tools : list ToolDefinition :=
  [{| def_name := Some "search_course_content";
      def_description := "Search course content";
      def_properties := [("query", ("string", ""))];
      def_required := ["query"] |}].

(** [ai_generator.generate_response("What is Python?", tools=sample_tools,
    tool_manager=.., max_rounds=..)] against the scripted client. *)
Definition generate (script : list (Result Response))
    (tool_manager : option (ToolExecutor World)) (max_rounds : Z)
    : Result string * State World :=
  AIGenerator.generate_response messages_create (λ _ _, "system")
    "claude-3-sonnet-20241022" "What is Python?" None (Some sample_tools)
    tool_manager max_rounds (initial script).

(** The events and the result of a mocked run. *)
Definition events_of (run : Result string * State World) : list Event :=
  trace run.2.

Definition result_of (run : Result string * State World) : Result string :=
  run.1.

Definition search_request : ContentBlock :=
  tool_use_block "call_1" "search_course_content" [("query", VStr "Python")].

(** A tool-use-only response. *)
Definition tool_response : Response :=
  {| resp_content := [search_request]; resp_stop_reason := "tool_use" |}.

(** A plain text answer. *)
Definition text_response : Response :=
  {| resp_content := [text_block "Python is a programming language."];
     resp_stop_reason := "end_turn" |}.

(** Text and a tool request in one response. *)
Definition mixed_response : Response :=
  {| resp_content := [text_block "Let me search for more info"; search_request];
     resp_stop_reason := "tool_use" |}.

(** A text block holding one space, and a tool request. *)
Definition blank_text_response : Response :=
  {| resp_content := [text_block " "; search_request];
     resp_stop_reason := "tool_use" |}.

(** A text block holding one space before the text block of the answer. *)
Definition padded_response : Response :=
  {| resp_content := [text_block " "; text_block "Answer"];
     resp_stop_reason := "end_turn" |}.

(** A tool round followed by a text answer, with a tool manager that
    succeeds, with one that fails, and with none. *)
Definition two_round_run : Result string * State World :=
  generate [Ok tool_response; Ok text_response] (Some mock_tool_manager) 2.

Definition failing_tool_run : Result string * State World :=
  generate [Ok tool_response; Ok text_response] (Some failing_tool_manager) 2.

Definition no_manager_run : Result string * State World :=
  generate [Ok tool_response; Ok text_response] None 2.

(** A first response with text and a tool request. *)
Definition mixed_run : Result string * State World :=
  generate [Ok mixed_response; Ok text_response] (Some mock_tool_manager) 2.

(** A first response with a blank text block and a tool request. *)
Definition blank_text_run : Result string * State World :=
  generate [Ok blank_text_response; Ok text_response]
    (Some mock_tool_manager) 2.

(** A single response with a blank text block before the answer. *)
Definition padded_run : Result string * State World :=
  generate [Ok padded_response] (Some mock_tool_manager) 2.

(** A text block that holds U+00A0, the no-break space, and the runs on a
    response that has it before a text and a tool request, and on one that
    has it before a tool request only. *)
Definition nbsp_block : ContentBlock :=
  text_block (String (ascii_of_nat 194) (String (ascii_of_nat 160) EmptyString)).

Definition nbsp_mixed_run : Result string * State World :=
  generate
    [Ok {| resp_content :=
             [nbsp_block; text_block "Let me search"; search_request];
           resp_stop_reason := "tool_use" |};
     Ok text_response]
    (Some mock_tool_manager) 2.

Definition nbsp_only_run : Result string * State World :=
  generate
    [Ok {| resp_content := [nbsp_block; search_request];
           resp_stop_reason := "tool_use" |};
     Ok text_response]
    (Some mock_tool_manager) 2.

(** [tool_manager.execute_tool.side_effect = KeyboardInterrupt()] *)
Definition interrupted_tool_manager : ToolExecutor World :=
  {| execute_tool_method := λ _ _ w, (Raise KeyboardInterrupt, w) |}.

Definition interrupted_run : Result string * State World :=
  generate [Ok tool_response; Ok text_response]
    (Some interrupted_tool_manager) 2.

(** A tool whose [execute] raises, and a manager it is registered with. *)
Definition failing_tool : Tool World :=
  {| get_tool_definition := CourseSearchTool.get_tool_definition;
     execute := λ _ w,
       (Raise (Exception "Tool failed"), w) |}.

Definition failing_registry : ToolManager.t World :=
  {| ToolManager.tools := {["search_course_content" := failing_tool]} |}.

(** [client.messages.create.return_value = response]: a client that
    answers every call with the same response. *)
Definition constant_create (response : Response) (p : ApiParams) (w : World)
    : Result Response * World :=
  (Ok response, w).

(** A run against the constant client. *)
Definition generate_constant (response : Response)
    (tool_manager : option (ToolExecutor World)) (max_rounds : Z)
    : Result string * State World :=
  AIGenerator.generate_response (constant_create response) (λ _ _, "system")
    "claude-3-sonnet-20241022" "What is Python?" None (Some sample_tools)
    tool_manager max_rounds (initial []).

(** A plain answer in the first round. *)
Definition direct_run : Result string * State World :=
  generate [Ok text_response; Ok tool_response] (Some mock_tool_manager) 2.

(** A client that keeps asking for the search tool, under a budget of
    three. *)
Definition insistent_run : Result string * State World :=
  generate_constant tool_response (Some mock_tool_manager) 3.

(** A model-service failure in the second round. *)
Definition overloaded : BaseException :=
  {| exc_class := "APIStatusError"; exc_str := "Overloaded";
     isinstance_Exception := true |}.

Definition failing_service_run : Result string * State World :=
  generate [Ok tool_response; Raise overloaded; Ok text_response]
    (Some mock_tool_manager) 3.

(** A course catalog that lists the title "Intro" twice, and a backend
    that resolves every name to it. *)
Definition second_intro : CourseData :=
  {| cd_title := Some (Some "Intro");
     cd_instructor := Some (Some "Grace");
     cd_course_link := Some (Some "https://example.com/intro-2");
     cd_lessons := Some [] |}.

Definition other_course : CourseData :=
  {| cd_title := Some (Some "Advanced");
     cd_instructor := None;
     cd_course_link := None;
     cd_lessons := None |}.

(** A retrieval backend whose search finds nothing. *)
Definition empty_store : VectorStore :=
  {| search := λ _ _ _,
       {| documents := []; metadata := []; error := None; is_empty := true |};
     get_lesson_link := λ _ _, None;
     _resolve_course_name := λ _, None;
     get_all_courses_metadata := [];
     get_existing_course_titles := [] |}.

(** A retrieval backend whose search fails. *)
Definition failing_store : VectorStore :=
  {| search := λ _ _ _,
       {| documents := []; metadata := [];
          error := Some "Search error: index unavailable"; is_empty := true |};
     get_lesson_link := λ _ _, None;
     _resolve_course_name := λ _, None;
     get_all_courses_metadata := [];
     get_existing_course_titles := [] |}.

(** A retrieval backend whose search finds one passage of lesson 1 of
    the course "Intro". *)
Definition intro_store : VectorStore :=
  {| search := λ _ _ _,
       {| documents := ["Variables store values."];
          metadata := [{| meta_course_title := Some "Intro";
                          meta_lesson_number := Some 1 |}];
          error := None; is_empty := false |};
     get_lesson_link := λ _ _, Some "https://example.com/lesson1";
     _resolve_course_name := λ _, Some "Intro";
     get_all_courses_metadata :=
       [{| cd_title := Some (Some "Intro");
           cd_instructor := Some (Some "Ada");
           cd_course_link := Some (Some "https://example.com/intro");
           cd_lessons :=
             Some [{| lesson_number := Some 0;
                      lesson_title := Some (Some "Welcome") |};
                   {| lesson_number := Some 1;
                      lesson_title := Some (Some "Variables") |}] |}];
     get_existing_course_titles := ["Intro"] |}.

Definition intro_citation : Source :=
  {| title := "Intro - Lesson 1"; url := Some "https://example.com/lesson1" |}.

(** A search tool that has already answered one query with a citation. *)
Definition used_search_tool (vector_store : VectorStore) : CourseSearchTool.t :=
  {| CourseSearchTool.store := vector_store;
     CourseSearchTool.last_sources := [intro_citation] |}.

Definition intro_course : CourseData :=
  {| cd_title := Some (Some "Intro");
     cd_instructor := Some (Some "Ada");
     cd_course_link := None;
     cd_lessons :=
       Some [{| lesson_number := Some 1;
                lesson_title := Some (Some "Variables") |}] |}.

(** A backend that resolves every name to "Intro", over a catalog that
    lists that title twice, after another course. *)
Definition duplicate_store : VectorStore :=
  {| search := search empty_store;
     get_lesson_link := λ _ _, None;
     _resolve_course_name := λ _, Some "Intro";
     get_all_courses_metadata := [other_course; intro_course; second_intro];
     get_existing_course_titles := ["Advanced"; "Intro"] |}.

(** A backend that resolves no name. *)
Definition unresolving_store : VectorStore :=
  {| search := search empty_store;
     get_lesson_link := λ _ _, None;
     _resolve_course_name := λ _, None;
     get_all_courses_metadata := [other_course; intro_course];
     get_existing_course_titles := ["Advanced"; "Intro"] |}.

(** A backend that resolves every name to "Intro", which its catalog
    does not list. *)
Definition uncatalogued_store : VectorStore :=
  {| search := search empty_store;
     get_lesson_link := λ _ _, None;
     _resolve_course_name := λ _, Some "Intro";
     get_all_courses_metadata := [other_course];
     get_existing_course_titles := ["Advanced"] |}.

Definition outline_citation : Source :=
  {| title := "Intro - Course Outline"; url := None |}.

(** A run whose tool manager is a [ToolManager] that knows one tool,
    against a model that asks for that tool and for an unknown one. *)
Definition unknown_request : ContentBlock :=
  tool_use_block "call_2" "get_weather" [("city", VStr "Paris")].

Definition two_requests_response : Response :=
  {| resp_content := [search_request; unknown_request];
     resp_stop_reason := "tool_use" |}.

Definition registry_run : Result string * State World :=
  generate [Ok two_requests_response; Ok text_response]
    (Some (ToolManager.as_executor failing_registry)) 2.

(** A request whose input has a key named like a parameter of
    [execute_tool], and the run on it. *)
Definition colliding_request : ContentBlock :=
  tool_use_block "call_3" "search_course_content"
    [("query", VStr "Python"); ("tool_name", VStr "get_weather")].

Definition colliding_run : Result string * State World :=
  generate
    [Ok {| resp_content := [colliding_request];
           resp_stop_reason := "tool_use" |};
     Ok text_response]
    (Some (ToolManager.as_executor failing_registry)) 2.

(** A manager whose outline tool, registered first, holds no citation and
    whose search tool holds one. *)
Definition tracked_manager : SourceTracking.t :=
  {| SourceTracking.tools :=
       [("get_course_outline",
         SourceTracking.of_outline_tool (CourseOutlineTool.__init__ intro_store));
        ("search_course_content",
         SourceTracking.of_search_tool (used_search_tool intro_store))] |}.

(** The mocked RAG system of [conftest.py]: a session manager that hands
    out ["test_session_123"], and a query that answers with the given
    sources or raises. *)
Definition create_session (w : World) : Result string * World :=
  (Ok "test_session_123", w).

Definition rag_query (sources : list TestApp.RawSource) (query session : string)
    (w : World) : Result (string * list TestApp.RawSource) * World :=
  (Ok ("Test response", sources), w).

Definition failing_rag_query (query session : string) (w : World)
    : Result (string * list TestApp.RawSource) * World :=
  (Raise (Exception "RAG system error"), w).

Definition mixed_sources : list TestApp.RawSource :=
  [TestApp.DictSource (Some "Course 1") (Some "http://example.com/1");
   TestApp.TextSource "String Source";
   TestApp.DictSource (Some "Course 2") None].

End Mock.

(** * Properties *)

(** ** Python string primitives *)

Lemma append_nil_l (s : string) : "" +:+ s = s.
Proof. reflexivity. Qed.

Lemma append_cons (c : ascii) (s1 s2 : string) :
  String c s1 +:+ s2 = String c (s1 +:+ s2).
Proof. reflexivity. Qed.

Lemma append_assoc (s1 s2 s3 : string) :
  (s1 +:+ s2) +:+ s3 = s1 +:+ s2 +:+ s3.
Proof.
  induction s1 as [|c s1 IH]; [done|].
  rewrite !append_cons. by rewrite IH.
Qed.

Lemma count_newlines_append (s1 s2 : string) :
  count_newlines (s1 +:+ s2) = (count_newlines s1 + count_newlines s2)%nat.
Proof.
  induction s1 as [|c s1 IH]; [done|].
  rewrite append_cons. simpl. rewrite IH. lia.
Qed.

(** [s.strip()] of the empty text is empty, so a text that is non-empty
    once stripped is non-empty. *)
Lemma truthy_strip_truthy (s : string) :
  truthy (strip s) = true → truthy s = true.
Proof. by destruct s. Qed.

Example str_int_examples :
  str_int 0 = "0" ∧ str_int 12 = "12" ∧ str_int (-3) = "-3".
Proof. by vm_compute. Qed.

Example strip_both_ends :
  strip (newline +:+ "  a b " +:+ newline) = "a b".
Proof. reflexivity. Qed.

Example strip_blank : strip "  " = "".
Proof. reflexivity. Qed.

(** U+00A0, the no-break space, and U+2003, the em space. *)
Local Abbreviation nbsp :=
  (String (ascii_of_nat 194) (String (ascii_of_nat 160) EmptyString)).
Local Abbreviation emsp :=
  (String (ascii_of_nat 226)
     (String (ascii_of_nat 128) (String (ascii_of_nat 131) EmptyString))).

Example strip_unicode_blank :
  strip nbsp = "" ∧ strip (emsp +:+ " " +:+ nbsp) = "".
Proof. by vm_compute. Qed.

Example strip_unicode_both_ends :
  strip (nbsp +:+ "a" +:+ emsp +:+ "b" +:+ emsp +:+ newline)
  = "a" +:+ emsp +:+ "b".
Proof. by vm_compute. Qed.

(** U+00E0 (C3 A0) ends with the byte A0 and is no white space, and
    neither is U+200B, the zero-width space (E2 80 8B). *)
Example strip_keeps_other_characters :
  strip (String (ascii_of_nat 195) (String (ascii_of_nat 160) EmptyString))
  = String (ascii_of_nat 195) (String (ascii_of_nat 160) EmptyString) ∧
  strip (String (ascii_of_nat 226)
           (String (ascii_of_nat 128) (String (ascii_of_nat 139) EmptyString)))
  = String (ascii_of_nat 226)
      (String (ascii_of_nat 128) (String (ascii_of_nat 139) EmptyString)).
Proof. by vm_compute. Qed.

Lemma prefix_refl (x : string) : String.prefix x x = true.
Proof.
  induction x as [|c x IH]; simpl; [done|].
  by destruct (ascii_dec c c).
Qed.

Lemma contains_self (x : string) : contains x x = true.
Proof.
  destruct x as [|a x]; [done|].
  change (contains (String a x) (String a x))
    with (String.prefix (String a x) (String a x)
          || contains (String a x) x).
  by rewrite prefix_refl.
Qed.


(** ** The round protocol of [AIGenerator.generate_response] *)

Import AIGenerator.

Section RoundProtocol.

Context {W : Type}.
Variable messages_create : ApiParams → W → Result Response * W.
Variable _build_system_content : option string → Z → string.
Variable model : string.

Ltac unfold_monad :=
  unfold mbind, M_bind, mret, M_ret, raise, try_except,
    call_execute_tool, client_messages_create in *.

(** The tool loop either runs to its end, with an outcome per request
    that it turned into a tool result, or stops at the first execution
    that raises outside [Exception]. *)
Lemma _execute_tools_loop_spec (tm : ToolExecutor W) blocks acc s :
  (∃ outs s',
     length outs = length (List.filter is_tool_use blocks) ∧
     Forall (λ o, handled o = true) outs ∧
     _execute_tools_loop tm blocks acc s =
       (Ok (acc ++ zip_with answer_of (List.filter is_tool_use blocks) outs),
        s') ∧
     trace s' =
       trace s ++ zip_with ToolCall (List.filter is_tool_use blocks) outs) ∨
  (∃ before b outs e s',
     (before ++ [b]) `prefix_of` List.filter is_tool_use blocks ∧
     length outs = length before ∧
     Forall (λ o, handled o = true) outs ∧
     isinstance_Exception e = false ∧
     _execute_tools_loop tm blocks acc s = (Raise e, s') ∧
     trace s' =
       trace s ++ zip_with ToolCall before outs ++ [ToolCall b (Raise e)]).
Proof.
  revert acc s. induction blocks as [|b rest IH]; intros acc s.
  - left. exists [], s. simpl. unfold_monad. by rewrite !app_nil_r.
  - simpl. unfold_monad. destruct (is_tool_use b) eqn:Hb.
    + destruct (execute_tool_method tm (block_name b) (block_input b) (world s))
        as [o w'] eqn:Hcall.
      destruct o as [result|e]; [|destruct (isinstance_Exception e) eqn:He].
      * destruct (IH (acc ++ [tool_result (block_id b) result])
                    {| world := w'; trace := trace s ++ [ToolCall b (Ok result)] |})
          as [(outs & s' & Hlen & Hall & Hrun & Htr)
             |(before & b' & outs & e' & s' & Hpre & Hlen & Hall & He' & Hrun & Htr)].
        -- left. exists (Ok result :: outs), s'. simpl. rewrite Hrun, Htr. simpl.
           rewrite <- !app_assoc, Hlen. repeat split; try done.
           by constructor.
        -- right. exists (b :: before), b', (Ok result :: outs), e', s'.
           simpl. rewrite Hrun, Htr. simpl. rewrite <- !app_assoc, Hlen.
           repeat split; try done; [by apply prefix_cons | by constructor].
      * destruct (IH (acc ++ [tool_result (block_id b)
                                ("Tool execution error: " +:+ exc_str e)])
                    {| world := w'; trace := trace s ++ [ToolCall b (Raise e)] |})
          as [(outs & s' & Hlen & Hall & Hrun & Htr)
             |(before & b' & outs & e' & s' & Hpre & Hlen & Hall & He' & Hrun & Htr)].
        -- left. exists (Raise e :: outs), s'. simpl. rewrite Hrun, Htr. simpl.
           rewrite <- !app_assoc, Hlen. repeat split; try done.
           by constructor.
        -- right. exists (b :: before), b', (Raise e :: outs), e', s'.
           simpl. rewrite Hrun, Htr. simpl. rewrite <- !app_assoc, Hlen.
           repeat split; try done; [by apply prefix_cons | by constructor].
      * right. exists [], b, [], e, {| world := w'; trace := trace s ++ [ToolCall b (Raise e)] |}.
        simpl. repeat split; try done.
        apply prefix_cons, prefix_nil.
    + destruct (IH acc s)
        as [(outs & s' & Hlen & Hall & Hrun & Htr)
           |(before & b' & outs & e' & s' & Hpre & Hlen & Hall & He' & Hrun & Htr)].
      * left. exists outs, s'. auto.
      * right. exists before, b', outs, e', s'. auto 10.
Qed.

Lemma _execute_tools_spec (tm : ToolExecutor W) response s :
  (∃ outs s',
     length outs = length (tool_use_blocks response) ∧
     Forall (λ o, handled o = true) outs ∧
     _execute_tools response tm s =
       (Ok (match zip_with answer_of (tool_use_blocks response) outs with
            | [] => None
            | trs => Some trs
            end), s') ∧
     trace s' = trace s ++ zip_with ToolCall (tool_use_blocks response) outs) ∨
  (∃ before b outs e s',
     (before ++ [b]) `prefix_of` tool_use_blocks response ∧
     length outs = length before ∧
     Forall (λ o, handled o = true) outs ∧
     isinstance_Exception e = false ∧
     _execute_tools response tm s = (Raise e, s') ∧
     trace s' =
       trace s ++ zip_with ToolCall before outs ++ [ToolCall b (Raise e)]).
Proof.
  destruct (_execute_tools_loop_spec tm (resp_content response) [] s)
    as [(outs & s' & Hlen & Hall & Hrun & Htr)
       |(before & b & outs & e & s' & Hpre & Hlen & Hall & He & Hrun & Htr)].
  - left. exists outs, s'. unfold _execute_tools, tool_use_blocks.
    unfold mbind, M_bind. rewrite Hrun. simpl.
    split; [done|]. split; [done|]. split; [|done].
    unfold mret, M_ret. by destruct (zip_with answer_of _ outs).
  - right. exists before, b, outs, e, s'. unfold _execute_tools, tool_use_blocks.
    unfold mbind, M_bind. rewrite Hrun. auto 10.
Qed.

Lemma should_continue_inv response current_round max_rounds :
  _should_continue_rounds response current_round max_rounds = true →
  (current_round < max_rounds)%Z ∧ continuing_response response.
Proof.
  unfold _should_continue_rounds, continuing_response.
  destruct (current_round >=? max_rounds)%Z eqn:Hge; [done|].
  destruct (String.eqb (resp_stop_reason response) "tool_use") eqn:Hstop;
    simpl; [|done].
  apply String.eqb_eq in Hstop.
  destruct (existsb is_nonblank_text (resp_content response));
    destruct (existsb is_tool_use (resp_content response)); simpl; try done.
  intros _. split; [lia | done].
Qed.

Lemma tool_use_blocks_nonempty response :
  existsb is_tool_use (resp_content response) = true →
  tool_use_blocks response ≠ [].
Proof.
  unfold tool_use_blocks. intros Hex Hnil.
  apply existsb_exists in Hex as (b & Hin & Hb).
  assert (In b (List.filter is_tool_use (resp_content response)))
    by (apply filter_In; auto).
  rewrite Hnil in H. contradiction.
Qed.

Lemma round_loop_sound tools tool_manager max_rounds system_content
    fuel current_round messages response s res s' :
  (Z.to_nat (max_rounds - current_round) ≤ fuel)%nat →
  round_loop messages_create model tools tool_manager max_rounds
    system_content fuel current_round messages response s = (res, s') →
  ∃ evs,
    trace s' = trace s ++ evs ∧
    loop_run model tools tool_manager max_rounds system_content
      current_round messages response evs res.
Proof.
  revert current_round messages response s.
  induction fuel as [|fuel IH]; intros current_round messages response s Hfuel Hrun.
  - assert (¬ (current_round < max_rounds)%Z) by lia.
    simpl in Hrun. destruct (current_round <? max_rounds)%Z;
      unfold mret, M_ret in Hrun; inversion Hrun; subst;
      exists []; rewrite app_nil_r; split; auto; by constructor.
  - simpl in Hrun. destruct (current_round <? max_rounds)%Z eqn:Hlt.
    2:{ unfold mret, M_ret in Hrun; inversion Hrun; subst.
        exists []; rewrite app_nil_r; split; auto. constructor. lia. }
    apply Z.ltb_lt in Hlt.
    unfold _execute_conversation_round in Hrun.
    unfold mbind, M_bind, client_messages_create in Hrun.
    fold (round_api_params model system_content tools messages) in Hrun.
    destruct (messages_create (round_api_params model system_content tools messages) (world s))
      as [[r|e] w'] eqn:Hcall.
    2:{ inversion Hrun; subst. simpl. eexists; split; [done|]. by constructor. }
    unfold mret at 1, M_ret at 1 in Hrun.
    destruct (_should_continue_rounds r (current_round + 1) max_rounds) eqn:Hcont; simpl in Hrun.
    2:{ unfold mret, M_ret in Hrun. inversion Hrun; subst. simpl.
        eexists; split; [done|]. by constructor. }
    destruct (should_continue_inv _ _ _ Hcont) as (Hlt' & Hstop & Htools & Htext).
    rewrite Hstop in Hrun. simpl in Hrun.
    destruct tool_manager as [tm|].
    + match type of Hrun with
      | context [_execute_tools r tm ?s0] =>
          destruct (_execute_tools_spec tm r s0)
            as [(outs & s1 & Hlen & Hall & Hexec & Htr)
               |(before & b & outs & e & s1 & Hpre & Hlen & Hall & He
                 & Hexec & Htr)]
      end; rewrite Hexec in Hrun.
      2:{ inversion Hrun; subst res s'; clear Hrun.
          exists (ApiCall (round_api_params model system_content tools messages)
                    (Ok r)
                    :: zip_with ToolCall before outs ++ [ToolCall b (Raise e)]).
          split; [rewrite Htr; simpl; by rewrite <- !app_assoc|].
          eapply run_abort; try done.
          split; [done|]. split; [done|]. by exists before, b, outs. }
      destruct (zip_with answer_of (tool_use_blocks r) outs) as [|tr trs] eqn:Hzip.
      { exfalso. apply (tool_use_blocks_nonempty r Htools).
        destruct (tool_use_blocks r); [done|].
        destruct outs; simpl in *; [lia | done]. }
      unfold mret at 1, M_ret at 1 in Hrun.
      apply IH in Hrun as (rest & Htr' & Hrest); [|lia].
      exists (ApiCall (round_api_params model system_content tools messages) (Ok r)
                :: zip_with ToolCall (tool_use_blocks r) outs ++ rest).
      split.
      * rewrite Htr', Htr. simpl. by rewrite <- !app_assoc.
      * eapply run_continue; try done.
        -- simpl. exists outs. split; [done|]. split; [done|].
           split; [reflexivity | done].
        -- simpl. rewrite Hzip. rewrite <- app_assoc in Hrest. apply Hrest.
    + unfold mret at 1, M_ret at 1 in Hrun.
      apply IH in Hrun as (rest & Htr' & Hrest); [|lia].
      exists (ApiCall (round_api_params model system_content tools messages) (Ok r)
                :: [] ++ rest).
      split.
      * rewrite Htr'. simpl. by rewrite <- !app_assoc.
      * eapply run_continue; try done.
Qed.

Lemma generate_response_run query conversation_history tools tool_manager
    max_rounds s res s' :
  generate_response messages_create _build_system_content model query
    conversation_history tools tool_manager max_rounds s = (res, s') →
  ∃ evs lres,
    trace s' = trace s ++ evs ∧
    loop_run model tools tool_manager max_rounds
      (_build_system_content conversation_history max_rounds) 0
      [{| msg_role := "user"; msg_content := PlainText query |}] None evs lres ∧
    res = final_result lres.
Proof.
  unfold generate_response. unfold mbind at 1, M_bind at 1.
  destruct (round_loop _ _ _ _ _ _ _ _ _ _ s) as [lres s1] eqn:Hloop.
  apply round_loop_sound in Hloop as (evs & Htr & Hrun); [|lia].
  intros Hres. exists evs, lres.
  destruct lres as [[msgs [r|]]|e]; unfold mret, M_ret, raise in Hres;
    inversion Hres; subst; auto.
Qed.


Lemma api_calls_app tr1 tr2 : api_calls (tr1 ++ tr2) = api_calls tr1 ++ api_calls tr2.
Proof.
  induction tr1 as [|[p o|b o] tr1 IH]; simpl; [done| |done].
  by rewrite IH.
Qed.

Lemma api_calls_tool_calls bs (outs : list (Result string)) :
  api_calls (zip_with ToolCall bs outs) = [].
Proof.
  revert outs. induction bs as [|b bs IH]; intros [|o outs]; simpl; auto.
Qed.

Lemma tool_phase_api_calls (tool_manager : option (ToolExecutor W)) r evs turns :
  tool_phase tool_manager r evs turns → api_calls evs = [].
Proof.
  destruct tool_manager; simpl.
  - intros (outs & _ & -> & _). apply api_calls_tool_calls.
  - by intros [-> _].
Qed.

Lemma tool_phase_aborted_api_calls (tool_manager : option (ToolExecutor W))
    r evs e :
  tool_phase_aborted tool_manager r evs e → api_calls evs = [].
Proof.
  intros (_ & _ & before & b & outs & _ & _ & _ & ->).
  by rewrite api_calls_app, api_calls_tool_calls.
Qed.

Lemma tool_phase_aborted_lookup (tool_manager : option (ToolExecutor W))
    r evs e i ev :
  tool_phase_aborted tool_manager r evs e → evs !! i = Some ev →
  ∃ b o, ev = ToolCall b o.
Proof.
  intros (_ & _ & before & b & outs & _ & _ & _ & ->) Hi.
  apply lookup_app_Some in Hi as [Hi|[_ Hi]].
  - apply lookup_zip_with_Some in Hi as (b' & o & -> & _). eauto.
  - apply list_lookup_singleton_Some in Hi as [_ <-]. eauto.
Qed.

Lemma tool_phase_aborted_last (tool_manager : option (ToolExecutor W))
    r evs e :
  tool_phase_aborted tool_manager r evs e →
  ∃ b, last evs = Some (ToolCall b (Raise e)).
Proof.
  intros (_ & _ & before & b & outs & _ & _ & _ & ->).
  exists b. by rewrite last_snoc.
Qed.


Section Runs.

Variable tools : option (list ToolDefinition).
Variable tool_manager : option (ToolExecutor W).
Variable max_rounds : Z.
Variable system_content : string.

Local Abbreviation run := (loop_run model tools tool_manager max_rounds system_content).

Lemma run_call_count current_round messages response evs res :
  run current_round messages response evs res →
  (call_count evs ≤ Z.to_nat (max_rounds - current_round))%nat.
Proof.
  unfold call_count.
  induction 1 as [| | |cr msgs resp r evs turns rest res Hlt Hcont Hphase Hrun IH
                 |cr msgs resp r evs e Hlt Hcont Habort];
    simpl; try lia.
  - rewrite api_calls_app, (tool_phase_api_calls _ _ _ _ Hphase). simpl. lia.
  - rewrite (tool_phase_aborted_api_calls _ _ _ _ Habort). simpl. lia.
Qed.

Lemma run_head current_round messages response evs res :
  run current_round messages response evs res →
  (current_round < max_rounds)%Z →
  ∃ o rest,
    evs = ApiCall (round_api_params model system_content tools messages) o :: rest.
Proof. destruct 1; intros; try lia; eauto. Qed.

Lemma run_earlier_responses current_round messages response evs res i :
  run current_round messages response evs res →
  (S i < call_count evs)%nat →
  ∃ p r, api_calls evs !! i = Some (p, Ok r) ∧ tool_use_only r.
Proof.
  unfold call_count. intros Hrun. revert i.
  induction Hrun as [| | |cr msgs resp r evs turns rest res Hlt Hcont Hphase Hrun IH
                    |cr msgs resp r evs e Hlt Hcont Habort];
    intros i; simpl; try lia.
  - rewrite api_calls_app, (tool_phase_api_calls _ _ _ _ Hphase). simpl.
    intros Hi. destruct i as [|i]; simpl.
    + eexists _, r. split; [done|].
      by apply should_continue_inv in Hcont as (_ & ? & _ & ?).
    + apply IH. lia.
  - rewrite (tool_phase_aborted_api_calls _ _ _ _ Habort). simpl. lia.
Qed.


(** How a run ends: with a response, with a failure of the model
    service, with a tool execution that raised outside [Exception], or
    without any round. *)
Lemma run_last_event current_round messages response evs res :
  run current_round messages response evs res →
  match last evs with
  | Some (ApiCall _ (Ok r)) => ∃ msgs, res = Ok (msgs, Some r)
  | Some (ApiCall _ (Raise e)) => res = Raise e
  | Some (ToolCall _ o) =>
      ∃ e, o = Raise e ∧ isinstance_Exception e = false ∧ res = Raise e
  | None => res = Ok (messages, response) ∧ ¬ (current_round < max_rounds)%Z
  end.
Proof.
  induction 1 as [| | |cr msgs resp r evs turns rest res Hlt Hcont Hphase Hrun IH
                 |cr msgs resp r evs e Hlt Hcont Habort];
    simpl; eauto.
  - apply should_continue_inv in Hcont as [Hlt' _].
    destruct (run_head _ _ _ _ _ Hrun Hlt') as (o & rest' & ->).
    rewrite last_cons, last_app. rewrite last_cons in *.
    destruct (last rest') as [ev|]; done.
  - pose proof Habort as (_ & He & _).
    destruct (tool_phase_aborted_last _ _ _ _ Habort) as [b Hlast].
    rewrite last_cons, Hlast. eauto.
Qed.

Lemma lookup_tool_calls bs (outs : list (Result string)) i ev :
  zip_with ToolCall bs outs !! i = Some ev →
  ∃ b o, bs !! i = Some b ∧ outs !! i = Some o ∧ ev = ToolCall b o.
Proof.
  intros H. apply lookup_zip_with_Some in H as (b & o & -> & ? & ?). eauto.
Qed.

Lemma tool_phase_lookup r evs turns i ev :
  tool_phase tool_manager r evs turns → evs !! i = Some ev →
  ∃ b o, ev = ToolCall b o.
Proof.
  destruct tool_manager; simpl.
  - intros (outs & _ & -> & _) H.
    apply lookup_tool_calls in H as (b & o & _ & _ & ->). eauto.
  - by intros [-> _].
Qed.

Lemma run_mixed_is_last current_round messages response evs res i p r :
  run current_round messages response evs res →
  evs !! i = Some (ApiCall p (Ok r)) →
  existsb is_nonblank_text (resp_content r) = true →
  S i = length evs ∧ ∃ msgs, res = Ok (msgs, Some r).
Proof.
  intros Hrun. revert i.
  induction Hrun as [| | |cr msgs resp r0 evs turns rest res Hlt Hcont Hphase Hrun IH
                    |cr msgs resp r0 evs e Hlt Hcont Habort];
    intros i Hi Htext.
  - done.
  - destruct i; simpl in Hi; [congruence | done].
  - destruct i; simpl in Hi; [|done]. inversion Hi; subst. simpl. eauto.
  - destruct i as [|i]; simpl in Hi.
    + inversion Hi; subst.
      apply should_continue_inv in Hcont as (_ & _ & _ & Hno). congruence.
    + destruct (decide (i < length evs)%nat) as [Hin|Hout].
      * rewrite lookup_app_l in Hi by done.
        eapply tool_phase_lookup in Hi as (b & o & ?); [done | apply Hphase].
      * rewrite lookup_app_r in Hi by lia.
        apply IH in Hi as [Hlen Hres]; [|done].
        split; [|done]. simpl. rewrite length_app. lia.
  - destruct i as [|i]; simpl in Hi.
    + inversion Hi; subst.
      apply should_continue_inv in Hcont as (_ & _ & _ & Hno). congruence.
    + eapply tool_phase_aborted_lookup in Hi as (b & o & ?);
        [done | apply Habort].
Qed.


Lemma answer_of_ids bs (outs : list (Result string)) :
  length outs = length bs →
  map tool_use_id (zip_with answer_of bs outs) = map block_id bs ∧
  Forall (λ tr, tr_type tr = "tool_result") (zip_with answer_of bs outs).
Proof.
  revert outs. induction bs as [|b bs IH]; intros [|o outs]; simpl; try done.
  intros [= Hlen]. destruct (IH _ Hlen) as [-> ?]. split; [done|].
  by constructor.
Qed.

Lemma run_first_call current_round messages response evs res p o :
  run current_round messages response evs res →
  api_calls evs !! 0%nat = Some (p, o) →
  p = round_api_params model system_content tools messages.
Proof. destruct 1; simpl; intros; simplify_eq; done. Qed.

Lemma run_next_call tm current_round messages response evs res i p r p' o' :
  tool_manager = Some tm →
  run current_round messages response evs res →
  api_calls evs !! i = Some (p, Ok r) →
  api_calls evs !! S i = Some (p', o') →
  ∃ trs,
    api_messages p' =
      api_messages p ++ [assistant_turn r; tool_results_turn trs] ∧
    map tool_use_id trs = map block_id (tool_use_blocks r) ∧
    Forall (λ tr, tr_type tr = "tool_result") trs.
Proof.
  intros Htm Hrun. revert i.
  induction Hrun as [| | |cr msgs resp r0 evs turns rest res Hlt Hcont Hphase Hrun IH
                    |cr msgs resp r0 evs e Hlt Hcont Habort];
    intros i Hi Hnext; try done.
  2:{ simpl in Hnext.
      by rewrite (tool_phase_aborted_api_calls _ _ _ _ Habort) in Hnext. }
  simpl in Hi, Hnext.
  rewrite api_calls_app, (tool_phase_api_calls _ _ _ _ Hphase) in Hi, Hnext.
  simpl in Hi, Hnext.
  destruct i as [|i]; simpl in Hi; [|by eapply IH].
  inversion Hi; subst p r0; clear Hi.
  apply (run_first_call _ _ _ _ _ _ _ Hrun) in Hnext. subst p'.
  unfold tool_phase in Hphase. rewrite Htm in Hphase.
  destruct Hphase as (outs & Hlen & -> & -> & _).
  exists (zip_with answer_of (tool_use_blocks r) outs). simpl.
  split; [done|].
  by apply answer_of_ids.
Qed.


End Runs.

(** Fuel: any two amounts that cover the remaining rounds give the same
    run, so the loop of [generate_response] never stops for lack of it. *)
Lemma round_loop_fuel tools tool_manager max_rounds system_content
    fuel1 fuel2 current_round messages response s :
  (Z.to_nat (max_rounds - current_round) ≤ fuel1)%nat →
  (Z.to_nat (max_rounds - current_round) ≤ fuel2)%nat →
  round_loop messages_create model tools tool_manager max_rounds
    system_content fuel1 current_round messages response s =
  round_loop messages_create model tools tool_manager max_rounds
    system_content fuel2 current_round messages response s.
Proof.
  revert fuel2 current_round messages response s.
  induction fuel1 as [|fuel1 IH];
    intros fuel2 current_round messages response s H1 H2.
  - assert ((current_round <? max_rounds)%Z = false) as Hge
      by (apply Z.ltb_ge; lia).
    destruct fuel2; simpl; by rewrite Hge.
  - destruct (current_round <? max_rounds)%Z eqn:Hlt.
    2:{ destruct fuel2; simpl; by rewrite Hlt. }
    apply Z.ltb_lt in Hlt.
    destruct fuel2 as [|fuel2]; [lia|].
    simpl. apply Z.ltb_lt in Hlt. rewrite Hlt. apply Z.ltb_lt in Hlt.
    unfold mbind, M_bind.
    destruct (_execute_conversation_round _ _ _ _ _ _ s)
      as [[[r tool_used]|e] s1];
      [|done].
    destruct (negb (_should_continue_rounds r (current_round + 1) max_rounds));
      [done|].
    match goal with
    | |- (match ?m with _ => _ end) = _ => destruct m as [[msgs|e] s2]
    end; [|done].
    apply IH; lia.
Qed.

Lemma events_since_app (s s' : State W) evs :
  trace s' = trace s ++ evs → events_since s s' = evs.
Proof. unfold events_since. intros ->. by rewrite drop_app_length. Qed.

Lemma nonblank_text_nonempty block :
  is_nonblank_text block = true → is_nonempty_text block = true.
Proof.
  unfold is_nonblank_text, is_nonempty_text, is_text.
  destruct (String.eqb (block_type block) "text"); simpl; [|done].
  apply truthy_strip_truthy.
Qed.

Lemma extract_first_nonblank response :
  _extract_final_response response =
    match first_nonblank_text response with
    | Some b => block_text b
    | None => FALLBACK
    end.
Proof.
  unfold _extract_final_response, first_nonblank_text.
  induction (resp_content response) as [|b bs IH]; simpl; [done|].
  by destruct (is_nonblank_text b).
Qed.

(** *** The round budget *)

(** C1 (as amended): for a round budget [max_rounds >= 1],
    [generate_response] issues at most [max_rounds] model-service calls,
    and it issues exactly [max_rounds] only if each of the first
    [max_rounds - 1] responses was tool-use-only: stop reason
    ["tool_use"] and no text block that is non-empty once stripped of
    white space. *)
Theorem generate_response_within_budget query conversation_history tools
    tool_manager max_rounds s res s' :
  (1 ≤ max_rounds)%Z →
  generate_response messages_create _build_system_content model query
    conversation_history tools tool_manager max_rounds s = (res, s') →
  within_budget max_rounds (events_since s s').
Proof.
  intros _ Hgen.
  apply generate_response_run in Hgen as (evs & lres & Htr & Hrun & _).
  rewrite (events_since_app _ _ _ Htr).
  pose proof (run_call_count _ _ _ _ _ _ _ _ _ Hrun) as Hle.
  rewrite Z.sub_0_r in Hle.
  split; [done|].
  intros Heq i Hi.
  eapply run_earlier_responses; [apply Hrun | lia].
Qed.

(** *** Responses mixing text and tool requests *)

(** C2 (as amended): a model response that contains both a text block
    that is non-empty once stripped of white space and a tool request
    ends [generate_response] with that round: its model-service call is
    the last event of the run, so no tool is executed for it, and the
    returned value is the text of its first such text block. *)
Theorem generate_response_mixed_response_final query conversation_history
    tools tool_manager max_rounds s res s' :
  generate_response messages_create _build_system_content model query
    conversation_history tools tool_manager max_rounds s = (res, s') →
  mixed_response_ends_run (events_since s s') res.
Proof.
  intros Hgen.
  apply generate_response_run in Hgen as (evs & lres & Htr & Hrun & ->).
  rewrite (events_since_app _ _ _ Htr).
  intros i p r Hi Htext _.
  destruct (run_mixed_is_last _ _ _ _ _ _ _ _ _ _ _ _ Hrun Hi Htext)
    as (Hlen & msgs & ->).
  split; [done|]. simpl. rewrite extract_first_nonblank.
  unfold first_nonblank_text in *.
  apply existsb_exists in Htext as (b & Hin & Hb).
  destruct (List.find is_nonblank_text (resp_content r)) as [b'|] eqn:Hfind.
  - eauto.
  - by rewrite (find_none _ _ Hfind b Hin) in Hb.
Qed.

(** *** Tool requests and their results *)

(** C3 (as amended): when a tool manager is supplied, every tool request
    of a round that continues is answered by exactly one tool result with
    the request's id, in the order of the requests, and these results are
    appended as one user turn, after the assistant turn of the response,
    before the next round's model-service call. *)
Theorem generate_response_requests_answered query conversation_history
    tools tm max_rounds s res s' :
  generate_response messages_create _build_system_content model query
    conversation_history tools (Some tm) max_rounds s = (res, s') →
  requests_answered (events_since s s').
Proof.
  intros Hgen.
  apply generate_response_run in Hgen as (evs & lres & Htr & Hrun & _).
  rewrite (events_since_app _ _ _ Htr).
  intros i p r p' o' Hi Hnext.
  by eapply run_next_call.
Qed.

(** *** The returned text *)

(** C4 (as amended): when [generate_response] ends with a model
    response, that is when its last event is a model-service call that
    returned, the returned value is the text of the first text block of
    that response whose text is non-empty once stripped of white space;
    if the response has no such block the value is the fixed fallback
    message and nothing is raised. (The call raises only what its last
    model-service call raised, what a tool execution raised outside
    [Exception], or, when no call was made, the unbound [response].) *)
Theorem generate_response_returns_last_text query conversation_history
    tools tool_manager max_rounds s res s' :
  generate_response messages_create _build_system_content model query
    conversation_history tools tool_manager max_rounds s = (res, s') →
  answer_from_last_response (events_since s s') res.
Proof.
  intros Hgen.
  apply generate_response_run in Hgen as (evs & lres & Htr & Hrun & ->).
  rewrite (events_since_app _ _ _ Htr).
  unfold answer_from_last_response.
  pose proof (run_last_event _ _ _ _ _ _ _ _ _ Hrun) as Hlast.
  destruct (last evs) as [[p [r|e]|b o]|].
  - destruct Hlast as [msgs ->]. simpl. by rewrite extract_first_nonblank.
  - by subst.
  - destruct Hlast as (e & -> & He & ->). eauto.
  - by destruct Hlast as [-> _].
Qed.

(** *** A budget of zero *)

(** C9: with [max_rounds = 0], [generate_response] issues no model-service
    call and returns neither a text nor the fallback message: the loop
    body never runs, [response] is never assigned, and the final
    extraction raises [UnboundLocalError]. *)
Theorem generate_response_zero_budget_unbound query conversation_history
    tools tool_manager s :
  generate_response messages_create _build_system_content model query
    conversation_history tools tool_manager 0 s =
  (Raise (UnboundLocalError "response"), s).
Proof. reflexivity. Qed.

(** No budget below one lets the call return. *)
Lemma generate_response_returns_needs_budget query conversation_history
    tools tool_manager max_rounds s v s' :
  generate_response messages_create _build_system_content model query
    conversation_history tools tool_manager max_rounds s = (Ok v, s') →
  (1 ≤ max_rounds)%Z.
Proof.
  intros Hgen.
  apply generate_response_run in Hgen as (evs & lres & Htr & Hrun & Hres).
  destruct (decide (1 ≤ max_rounds)%Z); [done|].
  inversion Hrun; subst; try lia. done.
Qed.

End RoundProtocol.

(** ** The round protocol on the test doubles *)

Lemma mock_run_events script tool_manager max_rounds :
  events_since (Mock.initial script)
    (Mock.generate script tool_manager max_rounds).2 =
  Mock.events_of (Mock.generate script tool_manager max_rounds).
Proof. unfold events_since, Mock.events_of. simpl. apply drop_0. Qed.

Lemma generate_response_within_budget_witness :
  within_budget 2 (Mock.events_of Mock.two_round_run).
Proof.
  unfold Mock.two_round_run. rewrite <- mock_run_events.
  apply (generate_response_within_budget Mock.messages_create
           (λ _ _, "system") "claude-3-sonnet-20241022" "What is Python?" None
           (Some Mock.sample_tools) (Some Mock.mock_tool_manager) 2
           (Mock.initial [Ok Mock.tool_response; Ok Mock.text_response])
           (Mock.result_of Mock.two_round_run)).
  - lia.
  - reflexivity.
Defined.

(** C1 as stated fails: under a budget of two, two model-service calls
    occur although the first response holds a text block whose text, one
    space, is not empty. *)
Lemma within_budget_as_stated_counterexample :
  ¬ within_budget_as_stated 2 (Mock.events_of Mock.blank_text_run).
Proof.
  intros [_ Hall].
  destruct (Hall eq_refl 0%nat) as (p & r & Hcall & _ & Hnone).
  - simpl. lia.
  - vm_compute in Hcall. inversion Hcall; subst r. vm_compute in Hnone. done.
Qed.

Lemma generate_response_mixed_response_final_witness :
  mixed_response_ends_run (Mock.events_of Mock.mixed_run)
    (Mock.result_of Mock.mixed_run).
Proof.
  unfold Mock.mixed_run at 1. rewrite <- mock_run_events.
  apply (generate_response_mixed_response_final Mock.messages_create
           (λ _ _, "system") "claude-3-sonnet-20241022" "What is Python?" None
           (Some Mock.sample_tools) (Some Mock.mock_tool_manager) 2
           (Mock.initial [Ok Mock.mixed_response; Ok Mock.text_response])).
  reflexivity.
Defined.

(** C2 as stated fails: a response holding a text block of one space and
    a tool request does not end the run; its tool is executed and a second
    model-service call follows. *)
Lemma mixed_response_as_stated_counterexample :
  ¬ mixed_response_ends_run_as_stated (Mock.events_of Mock.blank_text_run)
      (Mock.result_of Mock.blank_text_run).
Proof.
  intros Hall.
  destruct (Hall 0%nat
              (round_api_params "claude-3-sonnet-20241022" "system"
                 (Some Mock.sample_tools)
                 [{| msg_role := "user";
                     msg_content := PlainText "What is Python?" |}])
              Mock.blank_text_response) as [Hlen _]; try reflexivity.
  vm_compute in Hlen. lia.
Qed.

Lemma generate_response_requests_answered_witness :
  requests_answered (Mock.events_of Mock.two_round_run).
Proof.
  unfold Mock.two_round_run. rewrite <- mock_run_events.
  apply (generate_response_requests_answered Mock.messages_create
           (λ _ _, "system") "claude-3-sonnet-20241022" "What is Python?" None
           (Some Mock.sample_tools) Mock.mock_tool_manager 2
           (Mock.initial [Ok Mock.tool_response; Ok Mock.text_response])
           (Mock.result_of Mock.two_round_run)).
  reflexivity.
Defined.

(** C3 as stated fails: without a tool manager a tool-use-only response
    still continues the run, and the next model-service call is made with
    the request unanswered. *)
Lemma requests_answered_counterexample :
  ¬ requests_answered (Mock.events_of Mock.no_manager_run).
Proof.
  intros Hall.
  destruct (Hall 0%nat
              (round_api_params "claude-3-sonnet-20241022" "system"
                 (Some Mock.sample_tools)
                 [{| msg_role := "user";
                     msg_content := PlainText "What is Python?" |}])
              Mock.tool_response
              (round_api_params "claude-3-sonnet-20241022" "system"
                 (Some Mock.sample_tools)
                 [{| msg_role := "user";
                     msg_content := PlainText "What is Python?" |};
                  assistant_turn Mock.tool_response])
              (Ok Mock.text_response)) as (trs & Hmsgs & _); try reflexivity.
  simpl in Hmsgs. discriminate Hmsgs.
Qed.

Lemma generate_response_returns_last_text_witness :
  answer_from_last_response (Mock.events_of Mock.padded_run)
    (Mock.result_of Mock.padded_run).
Proof.
  unfold Mock.padded_run at 1. rewrite <- mock_run_events.
  apply (generate_response_returns_last_text Mock.messages_create
           (λ _ _, "system") "claude-3-sonnet-20241022" "What is Python?" None
           (Some Mock.sample_tools) (Some Mock.mock_tool_manager) 2
           (Mock.initial [Ok Mock.padded_response])).
  reflexivity.
Defined.

(** C4 as stated fails: the first text block of the last response holds
    one space, and the returned value is the text of the second. *)
Lemma answer_from_last_response_as_stated_counterexample :
  ¬ answer_from_last_response_as_stated (Mock.events_of Mock.padded_run)
      (Mock.result_of Mock.padded_run).
Proof. vm_compute. discriminate. Qed.

(** The runs of the test-suite, evaluated. *)

Example test_mixed_content_terminates_early :
  Mock.result_of Mock.mixed_run = Ok "Let me search for more info" ∧
  call_count (Mock.events_of Mock.mixed_run) = 1%nat ∧
  tool_call_count (Mock.events_of Mock.mixed_run) = 0%nat.
Proof. by vm_compute. Qed.

Example test_tool_execution_error_handling :
  Mock.result_of Mock.failing_tool_run = Ok "Python is a programming language." ∧
  call_count (Mock.events_of Mock.failing_tool_run) = 2%nat ∧
  (snd <$> tool_calls (Mock.events_of Mock.failing_tool_run)) =
    [Raise (Exception "Tool failed")] ∧
  ((λ c, last (api_messages c.1)) <$>
     api_calls (Mock.events_of Mock.failing_tool_run)) !! 1%nat =
    Some (Some (tool_results_turn
                  [tool_result "call_1" "Tool execution error: Tool failed"])).
Proof. by vm_compute. Qed.

Example test_blank_text_continues :
  Mock.result_of Mock.blank_text_run = Ok "Python is a programming language." ∧
  call_count (Mock.events_of Mock.blank_text_run) = 2%nat ∧
  tool_call_count (Mock.events_of Mock.blank_text_run) = 1%nat.
Proof. by vm_compute. Qed.

(** White space outside ASCII is stripped too: a text block that holds a
    no-break space only is passed over, by the continuation test and by
    the extraction of the answer. *)
Example nbsp_text_is_blank :
  Mock.result_of Mock.nbsp_mixed_run = Ok "Let me search" ∧
  call_count (Mock.events_of Mock.nbsp_mixed_run) = 1%nat ∧
  tool_call_count (Mock.events_of Mock.nbsp_mixed_run) = 0%nat ∧
  Mock.result_of Mock.nbsp_only_run = Ok "Python is a programming language." ∧
  call_count (Mock.events_of Mock.nbsp_only_run) = 2%nat ∧
  tool_call_count (Mock.events_of Mock.nbsp_only_run) = 1%nat.
Proof. by vm_compute. Qed.

(** A tool execution that raises outside [Exception] ends the run. *)
Example interrupted_run_trace :
  Mock.result_of Mock.interrupted_run = Raise KeyboardInterrupt ∧
  call_count (Mock.events_of Mock.interrupted_run) = 1%nat ∧
  (snd <$> tool_calls (Mock.events_of Mock.interrupted_run)) =
    [Raise KeyboardInterrupt].
Proof. by vm_compute. Qed.

Example test_padded_answer :
  Mock.result_of Mock.padded_run = Ok "Answer" ∧
  (block_text <$> first_text Mock.padded_response) = Some " ".
Proof. by vm_compute. Qed.

(** Two tool-use-only responses under a budget of two: the second call
    exhausts the budget, its tool is not executed and the fallback message
    is returned. ([test_two_round_sequential_tool_calling] scripts this run
    with a third, textual response and expects three calls and two tool
    executions.) *)
Example two_tool_rounds_under_budget_two :
  let run :=
    Mock.generate
      [Ok Mock.tool_response; Ok Mock.tool_response; Ok Mock.text_response]
      (Some Mock.mock_tool_manager) 2 in
  Mock.result_of run = Ok FALLBACK ∧
  call_count (Mock.events_of run) = 2%nat ∧
  tool_call_count (Mock.events_of run) = 1%nat.
Proof. by vm_compute. Qed.

Example test_max_rounds_termination :
  Mock.generate [Ok Mock.tool_response; Ok Mock.tool_response]
    (Some Mock.mock_tool_manager) 1 =
  (Ok FALLBACK,
   {| world := {| Mock.side_effect := [Ok Mock.tool_response] |};
      trace :=
        [ApiCall
           (round_api_params "claude-3-sonnet-20241022" "system"
              (Some Mock.sample_tools)
              [{| msg_role := "user";
                  msg_content := PlainText "What is Python?" |}])
           (Ok Mock.tool_response)] |}).
Proof. by vm_compute. Qed.

(** ** [CourseSearchTool]: the stored citations *)

Lemma _format_results_loop_sources self pairs formatted sources :
  (CourseSearchTool._format_results_loop self pairs formatted sources).2 =
  sources ++ (CourseSearchTool.source_info_of (CourseSearchTool.store self) <$> pairs.*2).
Proof.
  revert formatted sources.
  induction pairs as [|[doc meta] pairs IH]; intros formatted sources; simpl.
  - by rewrite app_nil_r.
  - rewrite IH. by rewrite <- app_assoc.
Qed.

Lemma _format_results_last_sources self results :
  CourseSearchTool.last_sources (CourseSearchTool._format_results self results).2 =
  CourseSearchTool.sources_for (CourseSearchTool.store self) results.
Proof.
  unfold CourseSearchTool._format_results, CourseSearchTool.sources_for.
  pose proof (_format_results_loop_sources self
                (zip (documents results) (metadata results)) [] []) as Hloop.
  destruct (CourseSearchTool._format_results_loop self _ [] [])
    as [formatted sources].
  simpl in *. by subst.
Qed.

(** What [last_sources] holds after a call of [execute]: the list built
    for the call when the search reports neither an error nor an empty
    result set, and what it held before otherwise, since [last_sources] is
    assigned in [_format_results] only. *)
Lemma execute_last_sources self query course_name lesson_number :
  let results :=
    search (CourseSearchTool.store self) query course_name lesson_number in
  CourseSearchTool.last_sources
    (CourseSearchTool.execute self query course_name lesson_number).2 =
    if CourseSearchTool.formats_results results
    then CourseSearchTool.sources_for (CourseSearchTool.store self) results
    else CourseSearchTool.last_sources self.
Proof.
  intros results. unfold CourseSearchTool.execute, CourseSearchTool.formats_results.
  fold results.
  destruct (truthy_opt (error results)); simpl; [done|].
  destruct (is_empty results); simpl; [done|].
  apply _format_results_last_sources.
Qed.

(** C5: the code does not do what the claim says. When the search
    reports an error or no passage, [execute] returns before
    [_format_results], the only place that assigns [last_sources]: a tool
    that holds the citations of an earlier call still holds them after the
    call, instead of the empty list built for it. The attribute is
    introduced as tracking the sources of the last search, and the path
    that finds passages does replace it. *)
Theorem execute_keeps_stale_sources self query course_name lesson_number :
  let results :=
    search (CourseSearchTool.store self) query course_name lesson_number in
  CourseSearchTool.formats_results results = false →
  CourseSearchTool.last_sources self ≠ [] →
  CourseSearchTool.last_sources
    (CourseSearchTool.execute self query course_name lesson_number).2 =
    CourseSearchTool.last_sources self ∧
  ¬ CourseSearchTool.last_sources_replaced_as_stated self query course_name
      lesson_number.
Proof.
  intros results Hfmt Hheld.
  pose proof (execute_last_sources self query course_name lesson_number)
    as Hlast.
  cbv zeta in Hlast. fold results in Hlast. rewrite Hfmt in Hlast.
  split; [done|].
  unfold CourseSearchTool.last_sources_replaced_as_stated.
  cbv zeta. fold results. rewrite Hfmt, Hlast. done.
Qed.

Lemma execute_keeps_stale_sources_witness :
  CourseSearchTool.last_sources
    (CourseSearchTool.execute (Mock.used_search_tool Mock.empty_store)
       "variable" None None).2 =
    CourseSearchTool.last_sources (Mock.used_search_tool Mock.empty_store) ∧
  ¬ CourseSearchTool.last_sources_replaced_as_stated
      (Mock.used_search_tool Mock.empty_store) "variable" None None.
Proof.
  apply (execute_keeps_stale_sources (Mock.used_search_tool Mock.empty_store)
           "variable" None None).
  - reflexivity.
  - discriminate.
Defined.

(** A search that finds nothing leaves the citation of the earlier call
    in place. *)
Lemma last_sources_replaced_as_stated_counterexample :
  ¬ CourseSearchTool.last_sources_replaced_as_stated
      (Mock.used_search_tool Mock.empty_store) "variable" None None.
Proof. vm_compute. discriminate. Qed.

Example execute_empty_keeps_citations :
  CourseSearchTool.execute (Mock.used_search_tool Mock.empty_store)
    "variable" None None =
  ("No relevant content found.", Mock.used_search_tool Mock.empty_store).
Proof. reflexivity. Qed.

Example execute_error_keeps_citations :
  CourseSearchTool.execute (Mock.used_search_tool Mock.failing_store)
    "variable" None None =
  ("Search error: index unavailable", Mock.used_search_tool Mock.failing_store).
Proof. reflexivity. Qed.

Example execute_found_replaces_citations :
  CourseSearchTool.execute
    {| CourseSearchTool.store := Mock.intro_store;
       CourseSearchTool.last_sources :=
         [{| title := "Older"; url := None |}; {| title := "Oldest"; url := None |}] |}
    "variable" None None =
  ("[Intro - Lesson 1]" +:+ newline +:+ "Variables store values.",
   Mock.used_search_tool Mock.intro_store).
Proof. reflexivity. Qed.

(** ** [CourseSearchTool]: the message for an empty result set *)

(** The message built when the search reports no error and no passage. *)
Lemma execute_empty_message self query course_name lesson_number :
  let results :=
    search (CourseSearchTool.store self) query course_name lesson_number in
  truthy_opt (error results) = false →
  is_empty results = true →
  CourseSearchTool.execute self query course_name lesson_number =
  ("No relevant content found"
   +:+ (if truthy_opt course_name
        then " in course '" +:+ fmt_opt_str course_name +:+ "'" else "")
   +:+ (if truthy_int lesson_number
        then " in lesson " +:+ str_opt_int lesson_number else "")
   +:+ ".", self).
Proof.
  intros results Herr Hempty. unfold CourseSearchTool.execute. fold results.
  rewrite Herr, Hempty.
  destruct (truthy_opt course_name), (truthy_int lesson_number); simpl; try done.
  all: by rewrite ?append_assoc, ?append_nil_l.
Qed.

(** C8 (the code at the failing input): when the search for lesson number
    0 reports no error and no passage, the returned text is exactly
    ["No relevant content found."]; the supplied lesson filter is not
    mentioned. *)
Theorem execute_empty_lesson_zero_unmentioned self query :
  let results := search (CourseSearchTool.store self) query None (Some 0%Z) in
  truthy_opt (error results) = false →
  is_empty results = true →
  CourseSearchTool.execute self query None (Some 0%Z) =
    ("No relevant content found.", self) ∧
  contains "lesson" "No relevant content found." = false.
Proof.
  intros results Herr Hempty. split; [|done].
  unfold CourseSearchTool.execute. fold results. by rewrite Herr, Hempty.
Qed.

Lemma execute_empty_lesson_zero_unmentioned_witness :
  CourseSearchTool.execute (CourseSearchTool.__init__ Mock.empty_store)
    "variable" None (Some 0%Z) =
    ("No relevant content found.", CourseSearchTool.__init__ Mock.empty_store) ∧
  contains "lesson" "No relevant content found." = false.
Proof.
  apply (execute_empty_lesson_zero_unmentioned
           (CourseSearchTool.__init__ Mock.empty_store) "variable");
    reflexivity.
Defined.

Example execute_empty_lesson_one_mentioned :
  (CourseSearchTool.execute (CourseSearchTool.__init__ Mock.empty_store)
     "variable" (Some "Intro") (Some 1%Z)).1 =
  "No relevant content found in course 'Intro' in lesson 1.".
Proof. reflexivity. Qed.

(** ** [CourseOutlineTool]: the line count of an outline *)

Lemma count_newlines_uint (d : Decimal.uint) :
  count_newlines (NilEmpty.string_of_uint d) = 0%nat.
Proof. induction d; simpl; auto. Qed.

Lemma count_newlines_str_int (n : Z) : count_newlines (str_int n) = 0%nat.
Proof.
  unfold str_int. destruct (Z.to_int n) as [d|d]; simpl.
  - destruct d; simpl; auto using count_newlines_uint.
  - destruct d; simpl; auto using count_newlines_uint.
Qed.

Lemma count_newlines_str_opt_int (o : option Z) :
  count_newlines (str_opt_int o) = 0%nat.
Proof. destruct o; [apply count_newlines_str_int | done]. Qed.

Lemma count_newlines_join (parts : list string) :
  parts ≠ [] →
  count_newlines (join newline parts) =
    (sum_list_with count_newlines parts + (length parts - 1))%nat.
Proof.
  induction parts as [|p parts IH]; [done|]. intros _.
  destruct parts as [|q parts].
  - simpl. lia.
  - change (join newline (p :: q :: parts))
      with (p +:+ newline +:+ join newline (q :: parts)).
    rewrite !count_newlines_append, IH by done.
    change (count_newlines newline) with 1%nat.
    simpl. lia.
Qed.

(** The line of a lesson. *)
Lemma lesson_lines_loop_app lessons outline_parts :
  CourseOutlineTool.lesson_lines_loop lessons outline_parts =
  outline_parts ++
    ((λ lesson,
        "  " +:+ str_opt_int (lesson_number lesson) +:+ ". "
        +:+ fmt_opt_str (dict_get (lesson_title lesson) (Some "Untitled")))
       <$> lessons).
Proof.
  revert outline_parts.
  induction lessons as [|lesson lessons IH]; intros outline_parts; simpl.
  - by rewrite app_nil_r.
  - rewrite IH. by rewrite <- app_assoc.
Qed.

Lemma sum_list_lesson_lines lessons :
  Forall (λ lesson,
            CourseOutlineTool.single_line_opt
              (dict_get (lesson_title lesson) (Some "Untitled"))) lessons →
  sum_list_with count_newlines
    ((λ lesson,
        "  " +:+ str_opt_int (lesson_number lesson) +:+ ". "
        +:+ fmt_opt_str (dict_get (lesson_title lesson) (Some "Untitled")))
       <$> lessons) = 0%nat.
Proof.
  induction 1 as [|lesson lessons Hone _ IH]; [done|].
  rewrite fmap_cons.
  match goal with
  | |- sum_list_with ?f (?x :: ?l) = _ =>
      change (sum_list_with f (x :: l)) with (f x + sum_list_with f l)%nat
  end.
  rewrite IH, !count_newlines_append, count_newlines_str_opt_int.
  unfold CourseOutlineTool.single_line_opt, CourseOutlineTool.single_line in Hone.
  by rewrite Hone.
Qed.

(** C7 (as amended): for a course record whose texts hold no line break,
    the text returned by [CourseOutlineTool._format_outline] has
    1 (title) + 1 if the instructor value is neither [None] nor empty (a
    record without the key gets "Unknown Instructor") + 1 if a course link
    is present + 2 (a blank line, then the lesson-count header or, with no
    lesson, the "no lessons" line) + the number of lessons lines. *)
Theorem _format_outline_line_count self course_data :
  CourseOutlineTool.single_line_fields course_data →
  line_count (CourseOutlineTool._format_outline self course_data).1 =
    (1 + CourseOutlineTool.bool_to_nat
           (CourseOutlineTool.has_instructor_line course_data)
     + CourseOutlineTool.bool_to_nat
         (CourseOutlineTool.has_link_line course_data)
     + 2 + length (CourseOutlineTool.lessons_of course_data))%nat.
Proof.
  intros (Htitle & Hinstr & Hlink & Hlessons).
  unfold CourseOutlineTool.single_line_opt, CourseOutlineTool.single_line in *.
  unfold CourseOutlineTool._format_outline, line_count. simpl.
  unfold CourseOutlineTool.outline_parts_of,
    CourseOutlineTool.has_instructor_line, CourseOutlineTool.has_link_line,
    CourseOutlineTool.lessons_of in *.
  set (title := dict_get (cd_title course_data) (Some "Unknown Course")) in *.
  set (instructor :=
         dict_get (cd_instructor course_data) (Some "Unknown Instructor")) in *.
  set (course_link := dict_get (cd_course_link course_data) None) in *.
  set (lessons := dict_get (cd_lessons course_data) []) in *.
  assert (∀ parts,
            parts ≠ [] → sum_list_with count_newlines parts = 0%nat →
            S (count_newlines
                 (join newline
                    match lessons with
                    | [] =>
                        parts ++ [newline +:+ "No lessons found for this course."]
                    | _ :: _ =>
                        CourseOutlineTool.lesson_lines_loop lessons
                          (parts ++
                             [newline +:+ "Lessons ("
                              +:+ str_int (Z.of_nat (length lessons))
                              +:+ " total):"])
                    end)) = (length parts + 2 + length lessons)%nat) as Htail.
  { intros parts Hne Hsum. destruct lessons as [|lesson lessons'] eqn:Hl.
    - rewrite count_newlines_join by (by destruct parts).
      rewrite sum_list_with_app, length_app, Hsum. simpl. lia.
    - rewrite lesson_lines_loop_app.
      rewrite count_newlines_join by (by destruct parts).
      rewrite !sum_list_with_app, !length_app, Hsum, length_fmap.
      rewrite sum_list_lesson_lines by done.
      simpl sum_list_with.
      rewrite !count_newlines_append, count_newlines_str_int.
      change (count_newlines newline) with 1%nat. simpl. lia. }
  destruct (truthy_opt instructor), (truthy_opt course_link);
    cbv beta iota zeta; rewrite Htail;
    rewrite ?length_app, ?sum_list_with_app; simpl;
    rewrite ?count_newlines_append, ?Htitle, ?Hinstr, ?Hlink; simpl;
    try done; lia.
Qed.

Lemma _format_outline_line_count_witness :
  line_count
    (CourseOutlineTool._format_outline
       (CourseOutlineTool.__init__ Mock.intro_store) Mock.intro_course).1 =
  5%nat.
Proof.
  apply (_format_outline_line_count
           (CourseOutlineTool.__init__ Mock.intro_store) Mock.intro_course).
  repeat split; repeat constructor.
Defined.

(** C7 as stated fails: a course with an instructor, no link and one
    lesson gives five lines (one of them blank), not four. *)
Lemma outline_line_count_as_stated_counterexample :
  line_count
    (CourseOutlineTool._format_outline
       (CourseOutlineTool.__init__ Mock.intro_store) Mock.intro_course).1
  ≠ CourseOutlineTool.outline_line_count_as_stated Mock.intro_course.
Proof. vm_compute. discriminate. Qed.

Example _format_outline_intro :
  (CourseOutlineTool._format_outline
     (CourseOutlineTool.__init__ Mock.intro_store) Mock.intro_course).1 =
  "**Intro**" +:+ newline +:+ "Instructor: Ada" +:+ newline +:+ newline
  +:+ "Lessons (1 total):" +:+ newline +:+ "  1. Variables".
Proof. reflexivity. Qed.

(** [outline_parts] itself has the stated number of entries when the
    instructor key is bound. *)
Lemma outline_parts_count course_data :
  is_Some (cd_instructor course_data) →
  length (CourseOutlineTool.outline_parts_of course_data) =
  CourseOutlineTool.outline_line_count_as_stated course_data.
Proof.
  intros [instructor Hinstr].
  unfold CourseOutlineTool.outline_parts_of,
    CourseOutlineTool.outline_line_count_as_stated,
    CourseOutlineTool.instructor_present, CourseOutlineTool.has_link_line,
    CourseOutlineTool.lessons_of.
  rewrite Hinstr. simpl.
  destruct (dict_get (cd_lessons course_data) []) as [|lesson lessons];
    destruct (truthy_opt instructor),
      (truthy_opt (dict_get (cd_course_link course_data) None));
    rewrite ?lesson_lines_loop_app, ?length_app, ?length_fmap; simpl; lia.
Qed.

(** ** [ToolManager]: dispatch by name *)

Section Registry.

Context {W : Type}.

Lemma execute_tool_unknown (self : ToolManager.t W) tool_name kwargs w :
  ToolManager.tools self !! tool_name = None →
  ToolManager.execute_tool self tool_name kwargs w =
  (Ok ("Tool '" +:+ tool_name +:+ "' not found"), w).
Proof. intros Hnone. unfold ToolManager.execute_tool. by rewrite Hnone. Qed.

Lemma execute_tool_registered (self : ToolManager.t W) tool_name tool kwargs w :
  ToolManager.tools self !! tool_name = Some tool →
  ToolManager.execute_tool self tool_name kwargs w = execute tool kwargs w.
Proof. intros Hsome. unfold ToolManager.execute_tool. by rewrite Hsome. Qed.

Lemma call_execute_tool_accepted (self : ToolManager.t W) tool_name kwargs w :
  ToolManager.colliding_keyword kwargs = None →
  ToolManager.call_execute_tool self tool_name kwargs w =
  ToolManager.execute_tool self tool_name kwargs w.
Proof. intros Hnone. unfold ToolManager.call_execute_tool. by rewrite Hnone. Qed.

Lemma call_execute_tool_collision (self : ToolManager.t W) tool_name kwargs
    key w :
  ToolManager.colliding_keyword kwargs = Some key →
  ToolManager.call_execute_tool self tool_name kwargs w =
  (Raise (ToolManager.multiple_values key), w).
Proof. intros Hkey. unfold ToolManager.call_execute_tool. by rewrite Hkey. Qed.

(** C10: [ToolManager.execute_tool] catches nothing: for a registered
    tool name, an exception raised by the tool's [execute] is raised by
    [execute_tool], in the world the tool left. It is
    [AIGenerator._execute_tools] that turns the failure into the text of a
    tool result, for an exception that is an instance of [Exception]; any
    other passes through [_execute_tools] as well. (When the request's
    input cannot be bound to the parameters of [execute_tool], the tool
    does not run and the text is that of the [TypeError] of the call.) *)
Theorem execute_tool_propagates_exception (self : ToolManager.t W)
    tool_name tool kwargs w e w' :
  ToolManager.tools self !! tool_name = Some tool →
  execute tool kwargs w = (Raise e, w') →
  ToolManager.execute_tool self tool_name kwargs w = (Raise e, w') ∧
  ∀ content_block stop_reason tr,
    is_tool_use content_block = true →
    block_name content_block = tool_name →
    block_input content_block = kwargs →
    _execute_tools
      {| resp_content := [content_block]; resp_stop_reason := stop_reason |}
      (ToolManager.as_executor self) {| world := w; trace := tr |} =
    match ToolManager.colliding_keyword kwargs with
    | None =>
        if isinstance_Exception e
        then
          (Ok (Some [tool_result (block_id content_block)
                       ("Tool execution error: " +:+ exc_str e)]),
           {| world := w';
              trace := tr ++ [ToolCall content_block (Raise e)] |})
        else
          (Raise e,
           {| world := w';
              trace := tr ++ [ToolCall content_block (Raise e)] |})
    | Some key =>
        (Ok (Some [tool_result (block_id content_block)
                     ("Tool execution error: "
                      +:+ exc_str (ToolManager.multiple_values key))]),
         {| world := w;
            trace :=
              tr ++ [ToolCall content_block
                       (Raise (ToolManager.multiple_values key))] |})
    end.
Proof.
  intros Hsome Hraise.
  assert (ToolManager.execute_tool self tool_name kwargs w = (Raise e, w'))
    as Hexec by (by rewrite (execute_tool_registered _ _ _ _ _ Hsome)).
  split; [done|].
  intros content_block stop_reason tr Huse Hname Hinput.
  unfold _execute_tools. simpl. rewrite Huse.
  unfold mbind, M_bind, try_except, call_execute_tool. simpl.
  rewrite Hname, Hinput. unfold ToolManager.call_execute_tool.
  destruct (ToolManager.colliding_keyword kwargs) as [key|]; [done|].
  rewrite Hexec. by destruct (isinstance_Exception e).
Qed.

End Registry.

Lemma execute_tool_propagates_exception_witness :
  ToolManager.execute_tool Mock.failing_registry "search_course_content"
    [("query", VStr "Python")] {| Mock.side_effect := [] |} =
  (Raise (Exception "Tool failed"),
   {| Mock.side_effect := [] |}).
Proof.
  apply (execute_tool_propagates_exception Mock.failing_registry
           "search_course_content" Mock.failing_tool
           [("query", VStr "Python")] {| Mock.side_effect := [] |}
           (Exception "Tool failed")
           {| Mock.side_effect := [] |});
    reflexivity.
Defined.

Example execute_tool_nonexistent :
  ToolManager.execute_tool Mock.failing_registry "nonexistent" []
    {| Mock.side_effect := [] |} =
  (Ok "Tool 'nonexistent' not found", {| Mock.side_effect := [] |}).
Proof. reflexivity. Qed.

(** ** Further properties of the round protocol *)

Section FurtherRoundProtocol.

Context {W : Type}.
Variable messages_create : ApiParams → W → Result Response * W.
Variable _build_system_content : option string → Z → string.
Variable model : string.

Lemma tool_calls_app tr1 tr2 :
  tool_calls (tr1 ++ tr2) = tool_calls tr1 ++ tool_calls tr2.
Proof.
  induction tr1 as [|[p o|b o] tr1 IH]; simpl; [done|done|].
  by rewrite IH.
Qed.

Lemma tool_calls_zip bs (outs : list (Result string)) :
  length outs = length bs →
  (tool_calls (zip_with ToolCall bs outs)).*1 = bs.
Proof.
  revert outs. induction bs as [|b bs IH]; intros [|o outs]; simpl; try done.
  intros [= Hlen]. by rewrite IH.
Qed.

Section MoreRuns.

Variable tools : option (list ToolDefinition).
Variable tool_manager : option (ToolExecutor W).
Variable max_rounds : Z.
Variable system_content : string.

Local Abbreviation run :=
  (loop_run model tools tool_manager max_rounds system_content).

Lemma tool_phase_tool_calls r evs turns :
  tool_phase tool_manager r evs turns →
  (tool_calls evs).*1 =
    if tool_manager is Some _ then tool_use_blocks r else [].
Proof.
  unfold tool_phase. destruct tool_manager.
  - intros (outs & Hlen & -> & _). by apply tool_calls_zip.
  - by intros [-> _].
Qed.

Lemma tool_phase_roles r evs turns :
  tool_phase tool_manager r evs turns →
  is_Some tool_manager →
  msg_role <$> turns = ["user"].
Proof.
  unfold tool_phase. intros Hphase [tm Htm]. rewrite Htm in Hphase.
  by destruct Hphase as (outs & _ & _ & -> & _).
Qed.

(** The arguments of the [i]-th model-service call of a run. *)
Lemma run_call_params current_round messages response evs res i p o :
  run current_round messages response evs res →
  api_calls evs !! i = Some (p, o) →
  ∃ ext,
    p = round_api_params model system_content tools (messages ++ ext) ∧
    (i = 0%nat → ext = []) ∧
    (is_Some tool_manager →
     msg_role <$> ext = mjoin (replicate i ["assistant"; "user"])).
Proof.
  intros Hrun. revert i.
  induction Hrun as [| | |cr msgs resp r evs turns rest res Hlt Hcont Hphase Hrun IH
                    |cr msgs resp r evs e Hlt Hcont Habort];
    intros i Hi.
  - done.
  - destruct i; simpl in Hi; [|done]. inversion Hi; subst.
    exists []. by rewrite app_nil_r.
  - destruct i; simpl in Hi; [|done]. inversion Hi; subst.
    exists []. by rewrite app_nil_r.
  - simpl in Hi.
    rewrite api_calls_app, (tool_phase_api_calls _ _ _ _ Hphase) in Hi.
    simpl in Hi. destruct i as [|i]; simpl in Hi.
    + inversion Hi; subst. exists []. by rewrite app_nil_r.
    + apply IH in Hi as (ext & -> & _ & Hroles).
      exists ([assistant_turn r] ++ turns ++ ext).
      split; [by rewrite <- !app_assoc|]. split; [done|].
      intros Hsome. rewrite !fmap_app, (tool_phase_roles _ _ _ Hphase Hsome).
      by rewrite (Hroles Hsome).
  - simpl in Hi.
    rewrite (tool_phase_aborted_api_calls _ _ _ _ Habort) in Hi.
    destruct i; simpl in Hi; [|done]. inversion Hi; subst.
    exists []. by rewrite app_nil_r.
Qed.

Lemma run_prefix current_round messages response evs res i j p o p' o' :
  run current_round messages response evs res →
  (i ≤ j)%nat →
  api_calls evs !! i = Some (p, o) →
  api_calls evs !! j = Some (p', o') →
  api_messages p `prefix_of` api_messages p'.
Proof.
  intros Hrun. revert i j.
  induction Hrun as [| | |cr msgs resp r evs turns rest res Hlt Hcont Hphase Hrun IH
                    |cr msgs resp r evs e Hlt Hcont Habort];
    intros i j Hij Hi Hj.
  - done.
  - destruct i, j; simpl in *; try done. by simplify_eq.
  - destruct i, j; simpl in *; try done. by simplify_eq.
  - simpl in Hi, Hj.
    rewrite api_calls_app, (tool_phase_api_calls _ _ _ _ Hphase) in Hi, Hj.
    simpl in Hi, Hj. destruct i as [|i]; simpl in Hi.
    + inversion Hi; subst p o; clear Hi. destruct j as [|j]; simpl in Hj.
      * by inversion Hj.
      * destruct (run_call_params _ _ _ _ _ _ _ _ Hrun Hj) as (ext & -> & _).
        simpl. rewrite <- app_assoc. by apply prefix_app_r.
    + destruct j as [|j]; [lia|]. simpl in Hj.
      eapply IH; [|done..]. lia.
  - simpl in Hi, Hj.
    rewrite (tool_phase_aborted_api_calls _ _ _ _ Habort) in Hi, Hj.
    destruct i, j; simpl in *; try done. by simplify_eq.
Qed.

Lemma run_tool_calls current_round messages response evs res :
  is_Some tool_manager →
  run current_round messages response evs res →
  requests_executed_in_order evs.
Proof.
  intros [tm Htm].
  induction 1 as [| | |cr msgs resp r evs turns rest res Hlt Hcont Hphase Hrun IH
                 |cr msgs resp r evs e Hlt Hcont Habort].
  - by exists [].
  - by exists [].
  - by exists [].
  - destruct IH as (interrupted & Hcalls & Hlast).
    exists interrupted.
    apply should_continue_inv in Hcont as [Hlt' _].
    destruct (run_head _ _ _ _ _ _ _ _ _ _ Hrun Hlt') as (o & rest' & Hrest).
    set (p := round_api_params model system_content tools msgs) in *.
    assert (api_calls (ApiCall p (Ok r) :: evs ++ rest)
            = (p, Ok r) :: api_calls rest) as Hapi.
    { simpl. by rewrite api_calls_app, (tool_phase_api_calls _ _ _ _ Hphase). }
    assert (earlier_responses (ApiCall p (Ok r) :: evs ++ rest)
            = r :: earlier_responses rest) as Hearlier.
    { unfold earlier_responses, call_count. rewrite Hapi, Hrest. simpl.
      by rewrite Nat.sub_0_r. }
    assert (rest ≠ []) as Hne by (by rewrite Hrest).
    split.
    + rewrite Hearlier. simpl.
      rewrite !tool_calls_app, fmap_app, Hcalls.
      rewrite (tool_phase_tool_calls _ _ _ Hphase), Htm.
      by rewrite <- app_assoc.
    + rewrite Hapi. rewrite last_cons, last_app, last_cons.
      destruct (last rest) as [ev|] eqn:Hev.
      2:{ by apply last_None in Hev. }
      destruct ev as [p' o'|b' o']; [done|].
      destruct Hlast as (p' & r' & Hl & Hrest').
      exists p', r'. by rewrite Hl.
  - destruct Habort as (_ & He & before & b & outs & Hpre & Hlen & _ & ->).
    exists (before ++ [b]). split.
    + simpl. rewrite tool_calls_app, fmap_app, tool_calls_zip by done.
      unfold earlier_responses, call_count. simpl.
      by rewrite api_calls_app, api_calls_tool_calls.
    + rewrite last_cons, last_snoc. simpl.
      rewrite api_calls_app, api_calls_tool_calls. simpl.
      eexists _, r. by rewrite last_snoc.
Qed.

Lemma run_no_manager current_round messages response evs res :
  tool_manager = None →
  run current_round messages response evs res →
  tool_calls evs = [].
Proof.
  intros Hnone.
  induction 1 as [| | |cr msgs resp r evs turns rest res Hlt Hcont Hphase Hrun IH
                 |cr msgs resp r evs e Hlt Hcont Habort];
    try done.
  - simpl. rewrite tool_calls_app, IH, app_nil_r.
    unfold tool_phase in Hphase. rewrite Hnone in Hphase.
    by destruct Hphase as [-> _].
  - destruct Habort as ([tm Htm] & _). congruence.
Qed.

Lemma run_failure_is_last current_round messages response evs res i p e :
  run current_round messages response evs res →
  evs !! i = Some (ApiCall p (Raise e)) →
  S i = length evs ∧ res = Raise e.
Proof.
  intros Hrun. revert i.
  induction Hrun as [| | |cr msgs resp r0 evs turns rest res Hlt Hcont Hphase Hrun IH
                    |cr msgs resp r0 evs e0 Hlt Hcont Habort];
    intros i Hi.
  - done.
  - destruct i; simpl in Hi; [|done]. by inversion Hi.
  - destruct i; simpl in Hi; [congruence|done].
  - destruct i as [|i]; simpl in Hi; [congruence|].
    destruct (decide (i < length evs)%nat) as [Hin|Hout].
    + rewrite lookup_app_l in Hi by done.
      eapply tool_phase_lookup in Hi as (b & o & ?); [done | apply Hphase].
    + rewrite lookup_app_r in Hi by lia.
      apply IH in Hi as [Hlen Hres].
      split; [|done]. simpl. rewrite length_app. lia.
  - destruct i as [|i]; simpl in Hi; [congruence|].
    eapply tool_phase_aborted_lookup in Hi as (b & o & ?);
      [done | apply Habort].
Qed.

Lemma run_direct_is_last current_round messages response evs res i p r :
  run current_round messages response evs res →
  evs !! i = Some (ApiCall p (Ok r)) →
  resp_stop_reason r ≠ "tool_use" ∨
    existsb is_tool_use (resp_content r) = false →
  S i = length evs ∧ ∃ msgs, res = Ok (msgs, Some r).
Proof.
  intros Hrun. revert i.
  induction Hrun as [| | |cr msgs resp r0 evs turns rest res Hlt Hcont Hphase Hrun IH
                    |cr msgs resp r0 evs e Hlt Hcont Habort];
    intros i Hi Hdirect.
  - done.
  - destruct i; simpl in Hi; [congruence | done].
  - destruct i; simpl in Hi; [|done]. inversion Hi; subst. simpl. eauto.
  - destruct i as [|i]; simpl in Hi.
    + inversion Hi; subst.
      apply should_continue_inv in Hcont as (_ & Hstop & Htools & _).
      destruct Hdirect; congruence.
    + destruct (decide (i < length evs)%nat) as [Hin|Hout].
      * rewrite lookup_app_l in Hi by done.
        eapply tool_phase_lookup in Hi as (b & o & ?); [done | apply Hphase].
      * rewrite lookup_app_r in Hi by lia.
        apply IH in Hi as [Hlen Hres]; [|done].
        split; [|done]. simpl. rewrite length_app. lia.
  - destruct i as [|i]; simpl in Hi.
    + inversion Hi; subst.
      apply should_continue_inv in Hcont as (_ & Hstop & Htools & _).
      destruct Hdirect; congruence.
    + eapply tool_phase_aborted_lookup in Hi as (b & o & ?);
        [done | apply Habort].
Qed.

End MoreRuns.


(** *** What the trace records *)

Lemma _execute_tools_loop_faithful (tm : ToolExecutor W) blocks acc s res s' :
  _execute_tools_loop tm blocks acc s = (res, s') →
  ∃ evs,
    trace s' = trace s ++ evs ∧
    Forall (recorded_faithfully messages_create (Some tm)) evs.
Proof.
  revert acc s. induction blocks as [|b rest IH]; intros acc s Hrun.
  - inversion Hrun; subst. exists []. by rewrite app_nil_r.
  - simpl in Hrun.
    unfold mbind, M_bind, mret, M_ret, try_except, call_execute_tool in Hrun.
    destruct (is_tool_use b).
    + destruct (execute_tool_method tm (block_name b) (block_input b) (world s))
        as [o w'] eqn:Hcall.
      assert (recorded_faithfully messages_create (Some tm) (ToolCall b o)) as Hev.
      { exists tm, (world s). by rewrite Hcall. }
      destruct o as [result|e]; [|destruct (isinstance_Exception e)].
      * apply IH in Hrun as (evs & Htr & Hall).
        simpl in Htr. rewrite <- app_assoc in Htr.
        eexists; (split; [exact Htr|]); by constructor.
      * apply IH in Hrun as (evs & Htr & Hall).
        simpl in Htr. rewrite <- app_assoc in Htr.
        eexists; (split; [exact Htr|]); by constructor.
      * inversion Hrun; subst res s'. simpl.
        eexists; (split; [done|]). by constructor.
    + by apply IH in Hrun.
Qed.

Lemma round_loop_faithful tools tool_manager max_rounds system_content
    fuel current_round messages response s res s' :
  round_loop messages_create model tools tool_manager max_rounds
    system_content fuel current_round messages response s = (res, s') →
  ∃ evs,
    trace s' = trace s ++ evs ∧
    Forall (recorded_faithfully messages_create tool_manager) evs.
Proof.
  revert current_round messages response s.
  induction fuel as [|fuel IH]; intros current_round messages response s Hrun.
  - simpl in Hrun. destruct (current_round <? max_rounds)%Z;
      inversion Hrun; subst; exists []; by rewrite app_nil_r.
  - simpl in Hrun. destruct (current_round <? max_rounds)%Z.
    2:{ inversion Hrun; subst; exists []; by rewrite app_nil_r. }
    unfold _execute_conversation_round in Hrun.
    unfold mbind, M_bind, client_messages_create in Hrun.
    match type of Hrun with
    | context [messages_create ?p (world s)] =>
        destruct (messages_create p (world s)) as [o w'] eqn:Hcall;
        assert (recorded_faithfully messages_create tool_manager (ApiCall p o))
          as Hev by (exists (world s); by rewrite Hcall)
    end.
    destruct o as [r|e].
    2:{ inversion Hrun; subst. simpl. eexists; split; [done|]. by constructor. }
    unfold mret at 1, M_ret at 1 in Hrun.
    destruct (_should_continue_rounds r (current_round + 1) max_rounds);
      simpl in Hrun.
    2:{ unfold mret, M_ret in Hrun. inversion Hrun; subst. simpl.
        eexists; split; [done|]. by constructor. }
    destruct (String.eqb (resp_stop_reason r) "tool_use").
    2:{ unfold mret at 1, M_ret at 1 in Hrun.
        apply IH in Hrun as (rest & Htr & Hall). simpl in Htr.
        rewrite <- app_assoc in Htr. eexists; split; [exact Htr|].
        by constructor. }
    destruct tool_manager as [tm|].
    2:{ unfold mret at 1, M_ret at 1 in Hrun.
        apply IH in Hrun as (rest & Htr & Hall). simpl in Htr.
        rewrite <- app_assoc in Htr. eexists; split; [exact Htr|].
        by constructor. }
    unfold _execute_tools in Hrun. unfold mbind, M_bind in Hrun.
    match type of Hrun with
    | context [_execute_tools_loop tm ?bs ?acc ?s0] =>
        destruct (_execute_tools_loop tm bs acc s0) as [lres s1] eqn:Hloop
    end.
    apply _execute_tools_loop_faithful in Hloop as (tevs & Htr1 & Hall1).
    destruct lres as [trs|e].
    2:{ inversion Hrun; subst. simpl in Htr1. rewrite <- app_assoc in Htr1.
        eexists; split; [exact Htr1|]. by constructor. }
    unfold mret at 1, M_ret at 1 in Hrun.
    assert (∃ msgs, round_loop messages_create model tools (Some tm) max_rounds
                      system_content fuel (current_round + 1) msgs (Some r) s1
                    = (res, s')) as [msgs Hrest].
    { destruct trs; unfold mret, M_ret in Hrun; eauto. }
    apply IH in Hrest as (rest & Htr & Hall).
    rewrite Htr1 in Htr. simpl in Htr. rewrite <- !app_assoc in Htr.
    eexists; split; [exact Htr|].
    constructor; [done|]. by apply Forall_app.
Qed.

Lemma generate_response_faithful query conversation_history tools
    tool_manager max_rounds s res s' :
  generate_response messages_create _build_system_content model query
    conversation_history tools tool_manager max_rounds s = (res, s') →
  Forall (recorded_faithfully messages_create tool_manager)
    (events_since s s').
Proof.
  unfold generate_response. unfold mbind at 1, M_bind at 1.
  destruct (round_loop _ _ _ _ _ _ _ _ _ _ s) as [lres s1] eqn:Hloop.
  apply round_loop_faithful in Hloop as (evs & Htr & Hall).
  intros Hres.
  assert (s' = s1) as ->.
  { destruct lres as [[msgs [r|]]|e]; unfold mret, M_ret, raise in Hres;
      by inversion Hres. }
  by rewrite (events_since_app _ _ _ Htr).
Qed.

(** *** Properties of [generate_response] *)

Lemma should_continue_intro response current_round max_rounds :
  (current_round < max_rounds)%Z →
  continuing_response response →
  _should_continue_rounds response current_round max_rounds = true.
Proof.
  intros Hlt (Hstop & Htools & Htext). unfold _should_continue_rounds.
  destruct (current_round >=? max_rounds)%Z eqn:Hge; [lia|].
  by rewrite Hstop, Htools, Htext.
Qed.

Lemma api_calls_lookup_elem evs i p o :
  api_calls evs !! i = Some (p, o) → ApiCall p o ∈ evs.
Proof.
  revert i. induction evs as [|[p' o'|b o'] evs IH]; intros i Hi; simpl in Hi.
  - done.
  - destruct i as [|i]; simpl in Hi.
    + inversion Hi. apply list_elem_of_here.
    + apply list_elem_of_further. by eapply IH.
  - apply list_elem_of_further. by eapply IH.
Qed.

Lemma no_nonblank_text_fallback response :
  existsb is_nonblank_text (resp_content response) = false →
  _extract_final_response response = FALLBACK.
Proof.
  unfold _extract_final_response.
  induction (resp_content response) as [|b bs IH]; simpl; [done|].
  destruct (is_nonblank_text b); simpl; [done|]. exact IH.
Qed.

Lemma _extract_final_response_nonblank response :
  truthy (strip (_extract_final_response response)) = true.
Proof.
  unfold _extract_final_response.
  induction (resp_content response) as [|b bs IH]; simpl; [done|].
  destruct (is_nonblank_text b) eqn:Hb; [|done].
  unfold is_nonblank_text in Hb. by apply andb_prop in Hb as [_ ?].
Qed.

Lemma run_all_continuing tools (tool_manager : option (ToolExecutor W))
    max_rounds system_content current_round messages response evs res :
  loop_run model tools tool_manager max_rounds system_content
    current_round messages response evs res →
  (∀ i p o, api_calls evs !! i = Some (p, o) →
            ∃ r, o = Ok r ∧ continuing_response r) →
  (∀ b e, ToolCall b (Raise e) ∈ evs → isinstance_Exception e = true) →
  (current_round < max_rounds)%Z →
  call_count evs = Z.to_nat (max_rounds - current_round) ∧
  ∃ msgs r, res = Ok (msgs, Some r) ∧ continuing_response r.
Proof.
  unfold call_count.
  induction 1 as [| |cr msgs resp r Hlt Hcont
                 |cr msgs resp r evs turns rest res Hlt Hcont Hphase Hrun IH
                 |cr msgs resp r evs e Hlt Hcont Habort];
    intros Hall Hcaught Hlt'.
  - lia.
  - edestruct (Hall 0%nat) as (r & ? & _); [reflexivity | done].
  - edestruct (Hall 0%nat) as (r' & Heq & Hr); [reflexivity|].
    inversion Heq; subst r'; clear Heq.
    destruct (decide (cr + 1 < max_rounds)%Z) as [Hmore|Hlast].
    + by rewrite (should_continue_intro _ _ _ Hmore Hr) in Hcont.
    + simpl. split; [lia|]. eauto.
  - apply should_continue_inv in Hcont as [Hmore _].
    simpl. rewrite api_calls_app, (tool_phase_api_calls _ _ _ _ Hphase).
    simpl. destruct IH as [Hcount Hres]; [| |done|].
    + intros i p o Hi. apply (Hall (S i) p). simpl.
      by rewrite api_calls_app, (tool_phase_api_calls _ _ _ _ Hphase).
    + intros b e Hin. apply (Hcaught b), list_elem_of_further, elem_of_app.
      by right.
    + split; [lia | done].
  - exfalso.
    destruct (tool_phase_aborted_last _ _ _ _ Habort) as [b Hlast].
    pose proof Habort as (_ & He & _).
    assert (isinstance_Exception e = true); [|congruence].
    apply (Hcaught b), list_elem_of_further.
    apply last_Some in Hlast as [l ->]. apply elem_of_app. right.
    apply list_elem_of_here.
Qed.

(** In a run over a tool manager that raises nothing outside
    [Exception], no tool execution of the trace did. *)
Lemma faithful_caught (tm : ToolExecutor W) evs :
  raises_only_Exception tm →
  Forall (recorded_faithfully messages_create (Some tm)) evs →
  ∀ b e, ToolCall b (Raise e) ∈ evs → isinstance_Exception e = true.
Proof.
  intros Honly Hfaith b e Hin.
  rewrite Forall_forall in Hfaith.
  apply Hfaith in Hin as (tm' & w & [= <-] & Hout).
  destruct (execute_tool_method tm (block_name b) (block_input b) w)
    as [o w'] eqn:Hcall.
  simpl in Hout. subst o. by eapply Honly.
Qed.

(** *** Failing tools *)


(** X1: every model-service call of a run carries the same model, a
    temperature of 0, 800 as token limit, the system instructions built
    once for the call, the tool declarations as given, and the automatic
    tool choice exactly when declarations are given. *)
Theorem generate_response_same_request_settings query conversation_history
    tools tool_manager max_rounds s res s' :
  generate_response messages_create _build_system_content model query
    conversation_history tools tool_manager max_rounds s = (res, s') →
  same_request_settings model
    (_build_system_content conversation_history max_rounds) tools
    (events_since s s').
Proof.
  intros Hgen.
  apply generate_response_run in Hgen as (evs & lres & Htr & Hrun & _).
  rewrite (events_since_app _ _ _ Htr).
  intros i p o Hi.
  by destruct (run_call_params _ _ _ _ _ _ _ _ _ _ _ _ Hrun Hi) as (ext & -> & _).
Qed.

(** X2: the first model-service call is made with the query as its only
    turn, and no turn is ever dropped or changed: the turns sent with a
    call are a prefix of the turns sent with every later call. *)
Theorem generate_response_turns_only_grow query conversation_history
    tools tool_manager max_rounds s res s' :
  generate_response messages_create _build_system_content model query
    conversation_history tools tool_manager max_rounds s = (res, s') →
  turns_only_grow query (events_since s s').
Proof.
  intros Hgen.
  apply generate_response_run in Hgen as (evs & lres & Htr & Hrun & _).
  rewrite (events_since_app _ _ _ Htr). split.
  - intros p o Hi.
    destruct (run_call_params _ _ _ _ _ _ _ _ _ _ _ _ Hrun Hi)
      as (ext & -> & Hnil & _).
    by rewrite (Hnil eq_refl).
  - intros i j p o p' o' Hij Hi Hj. by eapply run_prefix.
Qed.

(** X3: with a tool manager, the turns sent with every model-service call
    alternate between user and assistant, starting and ending with a user
    turn: the [i]-th call is made with [2 i + 1] turns. *)
Theorem generate_response_roles_alternate query conversation_history
    tools tm max_rounds s res s' :
  generate_response messages_create _build_system_content model query
    conversation_history tools (Some tm) max_rounds s = (res, s') →
  roles_alternate (events_since s s').
Proof.
  intros Hgen.
  apply generate_response_run in Hgen as (evs & lres & Htr & Hrun & _).
  rewrite (events_since_app _ _ _ Htr).
  intros i p o Hi.
  destruct (run_call_params _ _ _ _ _ _ _ _ _ _ _ _ Hrun Hi)
    as (ext & -> & _ & Hroles).
  unfold round_api_params. cbn [api_messages].
  rewrite fmap_app, Hroles by eauto. done.
Qed.

(** X4: with a tool manager, the tools executed in a run are the tool
    requests of every response but the last, each executed once, in the
    order of the responses and of the blocks within a response; the
    requests of the last response are not executed. The one exception is
    a run that a tool execution ends by raising outside [Exception]: the
    requests of the last response up to that one have then been executed
    as well, and those after it have not. Over a tool manager that raises
    nothing outside [Exception] there is no such run. *)
Theorem generate_response_requests_executed_in_order query
    conversation_history tools tm max_rounds s res s' :
  generate_response messages_create _build_system_content model query
    conversation_history tools (Some tm) max_rounds s = (res, s') →
  requests_executed_in_order (events_since s s') ∧
  (raises_only_Exception tm →
   (tool_calls (events_since s s')).*1 =
     mjoin (tool_use_blocks <$> earlier_responses (events_since s s'))).
Proof.
  intros Hgen.
  pose proof (generate_response_faithful _ _ _ _ _ _ _ _ Hgen) as Hfaith.
  apply generate_response_run in Hgen as (evs & lres & Htr & Hrun & _).
  rewrite (events_since_app _ _ _ Htr) in *.
  pose proof (run_tool_calls _ _ _ _ _ _ _ _ _ (mk_is_Some _ _ eq_refl) Hrun)
    as Hcalls.
  split; [done|]. intros Honly.
  destruct Hcalls as (interrupted & -> & Hlast).
  pose proof (run_last_event _ _ _ _ _ _ _ _ _ _ Hrun) as Hend.
  destruct (last evs) as [[p o|b o]|] eqn:Hl;
    [by rewrite Hlast, app_nil_r| |by rewrite Hlast, app_nil_r].
  destruct Hend as (e & -> & He & _).
  assert (isinstance_Exception e = true); [|congruence].
  apply (faithful_caught tm evs Honly Hfaith b).
  apply last_Some in Hl as [l ->]. apply elem_of_app. right.
  apply list_elem_of_here.
Qed.

(** X5: without a tool manager no tool is ever executed, whatever the
    model asks for. *)
Theorem generate_response_no_manager_no_execution query conversation_history
    tools max_rounds s res s' :
  generate_response messages_create _build_system_content model query
    conversation_history tools None max_rounds s = (res, s') →
  tool_calls (events_since s s') = [].
Proof.
  intros Hgen.
  apply generate_response_run in Hgen as (evs & lres & Htr & Hrun & _).
  rewrite (events_since_app _ _ _ Htr).
  by apply (run_no_manager _ _ _ _ _ _ _ _ _ eq_refl Hrun).
Qed.

(** X6: a failure of the model service is not retried and not handled:
    the call that raised is the last event of the run, and
    [generate_response] raises the same exception. *)
Theorem generate_response_service_failure_propagates query
    conversation_history tools tool_manager max_rounds s res s' :
  generate_response messages_create _build_system_content model query
    conversation_history tools tool_manager max_rounds s = (res, s') →
  failure_ends_run (events_since s s') res.
Proof.
  intros Hgen.
  apply generate_response_run in Hgen as (evs & lres & Htr & Hrun & ->).
  rewrite (events_since_app _ _ _ Htr).
  intros i p e Hi.
  by destruct (run_failure_is_last _ _ _ _ _ _ _ _ _ _ _ _ Hrun Hi) as [? ->].
Qed.

(** X7: a response that did not stop for tool use, or that holds no tool
    request, ends the run in whatever round it comes: no tool is executed
    after it, no further model-service call is made, and the result is
    the text of its first text block that is non-empty once stripped of
    white space, or the fallback message. *)
Theorem generate_response_direct_answer_final query conversation_history
    tools tool_manager max_rounds s res s' :
  generate_response messages_create _build_system_content model query
    conversation_history tools tool_manager max_rounds s = (res, s') →
  direct_answer_ends_run (events_since s s') res.
Proof.
  intros Hgen.
  apply generate_response_run in Hgen as (evs & lres & Htr & Hrun & ->).
  rewrite (events_since_app _ _ _ Htr).
  intros i p r Hi Hdirect.
  destruct (run_direct_is_last _ _ _ _ _ _ _ _ _ _ _ _ Hrun Hi Hdirect)
    as (? & msgs & ->).
  split; [done|]. simpl. by rewrite extract_first_nonblank.
Qed.

(** X8: a text returned by [generate_response] is never empty and never
    made of white space only. *)
Theorem generate_response_answer_not_blank query conversation_history
    tools tool_manager max_rounds s v s' :
  generate_response messages_create _build_system_content model query
    conversation_history tools tool_manager max_rounds s = (Ok v, s') →
  truthy (strip v) = true.
Proof.
  intros Hgen.
  apply generate_response_run in Hgen as (evs & lres & Htr & Hrun & Hres).
  destruct lres as [[msgs [r|]]|e]; simpl in Hres; try done.
  inversion Hres. apply _extract_final_response_nonblank.
Qed.

(** X9: a round budget of zero or less lets no round run: the call
    raises [UnboundLocalError] for [response] and leaves the world and the
    trace as they were. *)
Theorem generate_response_nonpositive_budget query conversation_history
    tools tool_manager max_rounds s :
  (max_rounds ≤ 0)%Z →
  generate_response messages_create _build_system_content model query
    conversation_history tools tool_manager max_rounds s =
  (Raise (UnboundLocalError "response"), s).
Proof.
  intros Hle. unfold generate_response.
  assert ((0 <? max_rounds)%Z = false) as Hguard by (apply Z.ltb_ge; lia).
  unfold mbind, M_bind.
  destruct (Z.to_nat max_rounds); simpl; by rewrite Hguard.
Qed.

(** X10: [_execute_tools] raises nothing that is an instance of
    [Exception], whatever the tool manager does. When it returns, it
    returns [None] exactly when the response holds no tool request, and
    otherwise one result per request, with the request's id, in order,
    having called the tool manager once per request. When it raises, it
    raises what the last tool execution raised, which is outside
    [Exception], and the requests after that one are not executed. It
    never calls the model service, and it always returns over a tool
    manager that raises nothing outside [Exception]. *)
Theorem _execute_tools_outcome (tm : ToolExecutor W) response s :
  match _execute_tools response tm s with
  | (Ok results, s') =>
      (results = None ↔ tool_use_blocks response = []) ∧
      (∀ trs, results = Some trs →
              tool_use_id <$> trs = block_id <$> tool_use_blocks response) ∧
      tool_call_count (events_since s s') = length (tool_use_blocks response) ∧
      call_count (events_since s s') = 0%nat
  | (Raise e, s') =>
      isinstance_Exception e = false ∧
      (∃ b, last (events_since s s') = Some (ToolCall b (Raise e))) ∧
      (tool_calls (events_since s s')).*1
        `prefix_of` tool_use_blocks response ∧
      call_count (events_since s s') = 0%nat ∧
      ¬ raises_only_Exception tm
  end.
Proof.
  pose proof (_execute_tools_loop_faithful tm (resp_content response) [] s)
    as Hfaith.
  destruct (_execute_tools_spec tm response s)
    as [(outs & s' & Hlen & Hall & Hrun & Htr)
       |(before & b & outs & e & s' & Hpre & Hlen & Hall & He & Hrun & Htr)];
    rewrite Hrun, (events_since_app _ _ _ Htr).
  - destruct (answer_of_ids (tool_use_blocks response) outs Hlen) as [Hids _].
    split; [|split; [|split]].
    + destruct (tool_use_blocks response) as [|b bs], outs as [|o outs];
        simpl in *; try done; split; done.
    + intros trs Hsome.
      destruct (zip_with answer_of (tool_use_blocks response) outs) eqn:Hzip;
        [done|]. by inversion Hsome; subst.
    + unfold tool_call_count.
      rewrite <- (length_fmap fst), tool_calls_zip by done. done.
    + unfold call_count. by rewrite api_calls_tool_calls.
  - split; [done|]. split; [|split; [|split]].
    + exists b. by rewrite last_snoc.
    + rewrite tool_calls_app, fmap_app, tool_calls_zip by done. done.
    + unfold call_count. by rewrite api_calls_app, api_calls_tool_calls.
    + intros Honly.
      unfold _execute_tools, mbind, M_bind in Hrun.
      destruct (_execute_tools_loop tm (resp_content response) [] s)
        as [lres s1] eqn:Hloop.
      destruct (Hfaith _ _ eq_refl) as (evs & Htr' & Hall').
      assert (s1 = s') as -> by (destruct lres; by inversion Hrun).
      rewrite Htr in Htr'. apply app_inv_head in Htr'. subst evs.
      assert (isinstance_Exception e = true); [|congruence].
      apply (faithful_caught tm _ Honly Hall' b).
      apply elem_of_app. right. apply list_elem_of_here.
Qed.

(** X11: when the model service answers every call with a request for
    tools and no text that is non-empty once stripped of white space, and
    the tool manager, if there is one, raises nothing outside
    [Exception], a run with budget [max_rounds >= 1] makes exactly
    [max_rounds] model-service calls and returns the fallback message. *)
Theorem generate_response_budget_exhausted query conversation_history
    tools tool_manager max_rounds s res s' :
  always_asks_for_tools messages_create →
  (∀ tm, tool_manager = Some tm → raises_only_Exception tm) →
  (1 ≤ max_rounds)%Z →
  generate_response messages_create _build_system_content model query
    conversation_history tools tool_manager max_rounds s = (res, s') →
  res = Ok FALLBACK ∧
  call_count (events_since s s') = Z.to_nat max_rounds.
Proof.
  intros Hasks Honly Hpos Hgen.
  pose proof (generate_response_faithful _ _ _ _ _ _ _ _ Hgen) as Hfaith.
  apply generate_response_run in Hgen as (evs & lres & Htr & Hrun & ->).
  rewrite (events_since_app _ _ _ Htr) in *.
  destruct (run_all_continuing _ _ _ _ _ _ _ _ _ Hrun)
    as (Hcount & msgs & r & -> & _ & _ & Htext); [| |lia|].
  - intros i p o Hi. apply api_calls_lookup_elem in Hi.
    rewrite Forall_forall in Hfaith. apply Hfaith in Hi as [w Hw].
    destruct (Hasks p w) as (r & w' & Hcall & Hr).
    rewrite Hcall in Hw. simpl in Hw. eauto.
  - intros b e Hin. destruct tool_manager as [tm|].
    + by apply (faithful_caught tm evs (Honly tm eq_refl) Hfaith b).
    + rewrite Forall_forall in Hfaith.
      by apply Hfaith in Hin as (tm' & w & ? & _).
  - rewrite Z.sub_0_r in Hcount. split; [|done].
    simpl. by rewrite no_nonblank_text_fallback.
Qed.

End FurtherRoundProtocol.

(** *** The further properties on the test doubles *)

Lemma generate_response_same_request_settings_witness :
  same_request_settings "claude-3-sonnet-20241022" "system"
    (Some Mock.sample_tools) (Mock.events_of Mock.two_round_run).
Proof.
  unfold Mock.two_round_run. rewrite <- mock_run_events.
  apply (generate_response_same_request_settings Mock.messages_create
           (λ _ _, "system") "claude-3-sonnet-20241022" "What is Python?" None
           (Some Mock.sample_tools) (Some Mock.mock_tool_manager) 2
           (Mock.initial [Ok Mock.tool_response; Ok Mock.text_response])
           (Mock.result_of Mock.two_round_run)).
  reflexivity.
Defined.

Lemma generate_response_turns_only_grow_witness :
  turns_only_grow "What is Python?" (Mock.events_of Mock.two_round_run).
Proof.
  unfold Mock.two_round_run. rewrite <- mock_run_events.
  apply (generate_response_turns_only_grow Mock.messages_create
           (λ _ _, "system") "claude-3-sonnet-20241022" "What is Python?" None
           (Some Mock.sample_tools) (Some Mock.mock_tool_manager) 2
           (Mock.initial [Ok Mock.tool_response; Ok Mock.text_response])
           (Mock.result_of Mock.two_round_run)).
  reflexivity.
Defined.

Lemma generate_response_roles_alternate_witness :
  roles_alternate (Mock.events_of Mock.two_round_run).
Proof.
  unfold Mock.two_round_run. rewrite <- mock_run_events.
  apply (generate_response_roles_alternate Mock.messages_create
           (λ _ _, "system") "claude-3-sonnet-20241022" "What is Python?" None
           (Some Mock.sample_tools) Mock.mock_tool_manager 2
           (Mock.initial [Ok Mock.tool_response; Ok Mock.text_response])
           (Mock.result_of Mock.two_round_run)).
  reflexivity.
Defined.

Lemma generate_response_requests_executed_in_order_witness :
  requests_executed_in_order (Mock.events_of Mock.two_round_run) ∧
  (raises_only_Exception Mock.mock_tool_manager →
   (tool_calls (Mock.events_of Mock.two_round_run)).*1 =
     mjoin (tool_use_blocks
              <$> earlier_responses (Mock.events_of Mock.two_round_run))).
Proof.
  unfold Mock.two_round_run. rewrite <- mock_run_events.
  apply (generate_response_requests_executed_in_order Mock.messages_create
           (λ _ _, "system") "claude-3-sonnet-20241022" "What is Python?" None
           (Some Mock.sample_tools) Mock.mock_tool_manager 2
           (Mock.initial [Ok Mock.tool_response; Ok Mock.text_response])
           (Mock.result_of Mock.two_round_run)).
  reflexivity.
Defined.

Lemma generate_response_no_manager_no_execution_witness :
  tool_calls (Mock.events_of Mock.no_manager_run) = [].
Proof.
  unfold Mock.no_manager_run. rewrite <- mock_run_events.
  apply (generate_response_no_manager_no_execution Mock.messages_create
           (λ _ _, "system") "claude-3-sonnet-20241022" "What is Python?" None
           (Some Mock.sample_tools) 2
           (Mock.initial [Ok Mock.tool_response; Ok Mock.text_response])
           (Mock.result_of Mock.no_manager_run)).
  reflexivity.
Defined.

Lemma generate_response_service_failure_propagates_witness :
  failure_ends_run (Mock.events_of Mock.failing_service_run)
    (Mock.result_of Mock.failing_service_run).
Proof.
  unfold Mock.failing_service_run at 1. rewrite <- mock_run_events.
  apply (generate_response_service_failure_propagates Mock.messages_create
           (λ _ _, "system") "claude-3-sonnet-20241022" "What is Python?" None
           (Some Mock.sample_tools) (Some Mock.mock_tool_manager) 3
           (Mock.initial
              [Ok Mock.tool_response; Raise Mock.overloaded;
               Ok Mock.text_response])).
  reflexivity.
Defined.

Lemma generate_response_direct_answer_final_witness :
  direct_answer_ends_run (Mock.events_of Mock.direct_run)
    (Mock.result_of Mock.direct_run).
Proof.
  unfold Mock.direct_run at 1. rewrite <- mock_run_events.
  apply (generate_response_direct_answer_final Mock.messages_create
           (λ _ _, "system") "claude-3-sonnet-20241022" "What is Python?" None
           (Some Mock.sample_tools) (Some Mock.mock_tool_manager) 2
           (Mock.initial [Ok Mock.text_response; Ok Mock.tool_response])).
  reflexivity.
Defined.

Lemma generate_response_answer_not_blank_witness :
  truthy (strip "Python is a programming language.") = true.
Proof.
  apply (generate_response_answer_not_blank Mock.messages_create
           (λ _ _, "system") "claude-3-sonnet-20241022" "What is Python?" None
           (Some Mock.sample_tools) (Some Mock.mock_tool_manager) 2
           (Mock.initial [Ok Mock.tool_response; Ok Mock.text_response])
           "Python is a programming language."
           (Mock.two_round_run).2).
  reflexivity.
Defined.

Lemma generate_response_nonpositive_budget_witness :
  Mock.generate [Ok Mock.text_response] (Some Mock.mock_tool_manager) (-1) =
  (Raise (UnboundLocalError "response"), Mock.initial [Ok Mock.text_response]).
Proof.
  apply (generate_response_nonpositive_budget Mock.messages_create
           (λ _ _, "system") "claude-3-sonnet-20241022" "What is Python?" None
           (Some Mock.sample_tools) (Some Mock.mock_tool_manager) (-1)
           (Mock.initial [Ok Mock.text_response])).
  lia.
Defined.

Lemma generate_response_budget_exhausted_witness :
  Mock.result_of Mock.insistent_run = Ok FALLBACK ∧
  call_count (events_since (Mock.initial []) Mock.insistent_run.2) = 3%nat.
Proof.
  apply (generate_response_budget_exhausted
           (Mock.constant_create Mock.tool_response)
           (λ _ _, "system") "claude-3-sonnet-20241022" "What is Python?" None
           (Some Mock.sample_tools) (Some Mock.mock_tool_manager) 3
           (Mock.initial [])).
  - intros p w. exists Mock.tool_response, w. repeat split; reflexivity.
  - intros tm [= <-] name input w e w' Hcall. by inversion Hcall.
  - lia.
  - reflexivity.
Defined.



Example failing_service_run_trace :
  Mock.result_of Mock.failing_service_run = Raise Mock.overloaded ∧
  call_count (Mock.events_of Mock.failing_service_run) = 2%nat ∧
  tool_call_count (Mock.events_of Mock.failing_service_run) = 1%nat.
Proof. by vm_compute. Qed.

Example direct_run_trace :
  Mock.result_of Mock.direct_run = Ok "Python is a programming language." ∧
  call_count (Mock.events_of Mock.direct_run) = 1%nat ∧
  tool_call_count (Mock.events_of Mock.direct_run) = 0%nat.
Proof. by vm_compute. Qed.

(** ** The system instructions *)

Lemma prefix_append (x a b : string) :
  String.prefix x a = true → String.prefix x (a +:+ b) = true.
Proof.
  revert a. induction x as [|c x IH]; intros a Hpre;
    [by destruct (a +:+ b)|].
  destruct a as [|d a]; [discriminate Hpre|].
  rewrite append_cons. simpl in *.
  destruct (ascii_dec c d); [|done]. by apply IH.
Qed.

Lemma contains_append_l (x a b : string) :
  contains x a = true → contains x (a +:+ b) = true.
Proof.
  induction a as [|d a IH].
  - destruct x; [|done]. intros _. by destruct b.
  - change (contains x (String d a))
      with (String.prefix x (String d a) || contains x a).
    rewrite append_cons.
    change (contains x (String d (a +:+ b)))
      with (String.prefix x (String d (a +:+ b)) || contains x (a +:+ b)).
    intros [Hpre|Hin]%orb_true_iff.
    + rewrite <- append_cons, (prefix_append _ _ _ Hpre). done.
    + rewrite (IH Hin). apply orb_true_r.
Qed.

Lemma contains_append_r (x a b : string) :
  contains x b = true → contains x (a +:+ b) = true.
Proof.
  intros Hin. induction a as [|d a IH]; [done|].
  rewrite append_cons.
  change (contains x (String d (a +:+ b)))
    with (String.prefix x (String d (a +:+ b)) || contains x (a +:+ b)).
  rewrite IH. apply orb_true_r.
Qed.

Lemma str_replace_system_prompt (new : string) :
  str_replace AIGenerator.SYSTEM_PROMPT AIGenerator.SEQUENTIAL_LINE new =
  AIGenerator.SYSTEM_PROMPT_HEAD +:+ new +:+ AIGenerator.SYSTEM_PROMPT_TAIL.
Proof. vm_compute. reflexivity. Qed.

Lemma system_prompt_split :
  AIGenerator.SYSTEM_PROMPT =
  AIGenerator.SYSTEM_PROMPT_HEAD +:+ AIGenerator.SEQUENTIAL_LINE
  +:+ AIGenerator.SYSTEM_PROMPT_TAIL.
Proof. vm_compute. reflexivity. Qed.

Lemma append_nil_r (s : string) : s +:+ "" = s.
Proof. induction s as [|c s IH]; [done|]. by rewrite append_cons, IH. Qed.

Lemma _build_system_content_split conversation_history max_rounds :
  AIGenerator._build_system_content conversation_history max_rounds =
  AIGenerator.SYSTEM_PROMPT_HEAD
  +:+ AIGenerator.multi_round_instructions max_rounds
  +:+ AIGenerator.SYSTEM_PROMPT_TAIL
  +:+ AIGenerator.history_section conversation_history.
Proof.
  unfold AIGenerator._build_system_content, AIGenerator.history_section.
  rewrite str_replace_system_prompt.
  destruct conversation_history as [history|]; cbn [truthy_opt default].
  - destruct (truthy history).
    + rewrite !append_assoc. reflexivity.
    + by rewrite append_nil_r.
  - by rewrite append_nil_r.
Qed.

(** X12: the system content is the system prompt with its line on
    sequential tool calls replaced by the multi-round instructions for the
    given budget, followed, when a non-empty conversation history is given,
    by the history section; the prompt holds that line exactly once, and
    everything around it is kept. *)
Theorem _build_system_content_shape conversation_history max_rounds :
  AIGenerator._build_system_content conversation_history max_rounds =
  AIGenerator.SYSTEM_PROMPT_HEAD
  +:+ AIGenerator.multi_round_instructions max_rounds
  +:+ AIGenerator.SYSTEM_PROMPT_TAIL
  +:+ AIGenerator.history_section conversation_history.
Proof. apply _build_system_content_split. Qed.

Lemma budget_clause_in_instructions max_rounds :
  contains (AIGenerator.budget_clause max_rounds)
    (AIGenerator.multi_round_instructions max_rounds) = true.
Proof.
  unfold AIGenerator.multi_round_instructions.
  set (clause := AIGenerator.budget_clause max_rounds).
  change ("- You can make up to " +:+ str_int max_rounds
          +:+ " tool calls across separate rounds") with clause.
  cbn [join].
  do 4 apply contains_append_r.
  apply contains_append_l, contains_self.
Qed.

(** X13: whatever the history, the system content states the round budget
    it was built for: it contains the clause on how many tool calls can be
    made, with [max_rounds] printed in it. *)
Theorem _build_system_content_states_budget conversation_history max_rounds :
  contains (AIGenerator.budget_clause max_rounds)
    (AIGenerator._build_system_content conversation_history max_rounds) = true.
Proof.
  rewrite _build_system_content_split.
  apply contains_append_r, contains_append_l, budget_clause_in_instructions.
Qed.

(** ** [CourseSearchTool]: text and citations *)

Lemma header_of_source vector_store meta :
  CourseSearchTool.header_of (dict_get (meta_course_title meta) "unknown")
    (meta_lesson_number meta) =
  "[" +:+ title (CourseSearchTool.source_info_of vector_store meta) +:+ "]".
Proof.
  unfold CourseSearchTool.header_of, CourseSearchTool.source_info_of.
  destruct (meta_lesson_number meta); simpl; by rewrite ?append_assoc.
Qed.

Lemma _format_results_loop_formatted self pairs formatted sources :
  (CourseSearchTool._format_results_loop self pairs formatted sources).1 =
  formatted ++
    ((λ pair : string * Meta,
        CourseSearchTool.passage_text pair.1
          (CourseSearchTool.source_info_of (CourseSearchTool.store self) pair.2))
       <$> pairs).
Proof.
  revert formatted sources.
  induction pairs as [|[doc meta] pairs IH]; intros formatted sources; simpl.
  - by rewrite app_nil_r.
  - rewrite IH, <- app_assoc. simpl. do 2 f_equal.
    unfold CourseSearchTool.passage_text. simpl.
    rewrite (header_of_source (CourseSearchTool.store self)).
    by rewrite !append_assoc.
Qed.

Lemma zip_with_zip_snd {A B C D} (f : A → C → D) (g : B → C)
    (l : list A) (k : list B) :
  zip_with f l (g <$> (zip l k).*2) =
  (λ pair : A * B, f pair.1 (g pair.2)) <$> zip l k.
Proof.
  revert k. induction l as [|x l IH]; intros [|y k]; simpl; try done.
  by rewrite IH.
Qed.

(** The outcome of [execute] when the search reports neither an error nor
    an empty result set. *)
Lemma execute_formats self query course_name lesson_number :
  let results :=
    search (CourseSearchTool.store self) query course_name lesson_number in
  CourseSearchTool.formats_results results = true →
  CourseSearchTool.execute self query course_name lesson_number =
  (join (newline +:+ newline)
     (zip_with CourseSearchTool.passage_text (documents results)
        (CourseSearchTool.sources_for (CourseSearchTool.store self) results)),
   {| CourseSearchTool.store := CourseSearchTool.store self;
      CourseSearchTool.last_sources :=
        CourseSearchTool.sources_for (CourseSearchTool.store self) results |}).
Proof.
  intros results Hfmt. unfold CourseSearchTool.formats_results in Hfmt.
  apply andb_prop in Hfmt as [Herr Hempty].
  apply negb_true_iff in Herr, Hempty.
  unfold CourseSearchTool.execute. fold results. rewrite Herr, Hempty.
  unfold CourseSearchTool._format_results, CourseSearchTool.sources_for.
  pose proof (_format_results_loop_formatted self
                (zip (documents results) (metadata results)) [] []) as Hf.
  pose proof (_format_results_loop_sources self
                (zip (documents results) (metadata results)) [] []) as Hs.
  destruct (CourseSearchTool._format_results_loop self _ [] [])
    as [formatted sources].
  simpl in Hf, Hs. subst formatted sources.
  by rewrite zip_with_zip_snd.
Qed.

(** X14: when the search neither fails nor comes back empty, the text
    [execute] returns is made of one passage per recorded citation, in
    order and separated by blank lines: each passage is the title of its
    citation in brackets, a line break and the document; there are as many
    citations as pairs of a document with its metadata. *)
Theorem execute_text_matches_citations self query course_name lesson_number :
  let results :=
    search (CourseSearchTool.store self) query course_name lesson_number in
  let out := CourseSearchTool.execute self query course_name lesson_number in
  CourseSearchTool.formats_results results = true →
  out.1 =
    join (newline +:+ newline)
      (zip_with CourseSearchTool.passage_text (documents results)
         (CourseSearchTool.last_sources out.2)) ∧
  length (CourseSearchTool.last_sources out.2) =
    (length (documents results) `min` length (metadata results))%nat.
Proof.
  intros results out Hfmt. subst out.
  rewrite (execute_formats self query course_name lesson_number Hfmt).
  simpl. split; [done|].
  unfold CourseSearchTool.sources_for.
  by rewrite !length_fmap, length_zip_with.
Qed.

(** X15: a citation recorded by [execute] carries a link only when its
    passage names a lesson of a course whose title is known and is not the
    placeholder, and the store has a non-empty link for that lesson; the
    title of such a citation names the course and the lesson. *)
Theorem execute_citation_urls self query course_name lesson_number source link :
  let results :=
    search (CourseSearchTool.store self) query course_name lesson_number in
  CourseSearchTool.formats_results results = true →
  source ∈ CourseSearchTool.last_sources
             (CourseSearchTool.execute self query course_name lesson_number).2 →
  url source = Some link →
  truthy link = true ∧
  ∃ meta course_title lesson,
    meta ∈ metadata results ∧
    meta_course_title meta = Some course_title ∧
    course_title ≠ "unknown" ∧
    meta_lesson_number meta = Some lesson ∧
    get_lesson_link (CourseSearchTool.store self) course_title lesson
      = Some link ∧
    title source = course_title +:+ " - Lesson " +:+ str_int lesson.
Proof.
  intros results Hfmt Hin Hurl.
  rewrite (execute_formats self query course_name lesson_number Hfmt) in Hin.
  simpl in Hin. unfold CourseSearchTool.sources_for in Hin.
  apply list_elem_of_fmap in Hin as (meta & -> & Hmeta).
  apply list_elem_of_fmap in Hmeta as ([doc meta'] & -> & Hpair).
  apply elem_of_zip_r in Hpair. simpl in *.
  unfold CourseSearchTool.source_info_of in *. simpl in *.
  destruct (meta_lesson_number meta') as [lesson|] eqn:Hlesson; [|done].
  destruct (meta_course_title meta') as [course_title|] eqn:Htitle;
    simpl in *; [|done].
  destruct (String.eqb course_title "unknown") eqn:Hunknown; simpl in *;
    [done|].
  apply String.eqb_neq in Hunknown.
  destruct (get_lesson_link (CourseSearchTool.store self) course_title lesson)
    as [link'|] eqn:Hlink; simpl in *; [|done].
  destruct (truthy link') eqn:Htruthy; [|done].
  inversion Hurl; subst link'.
  split; [done|]. exists meta', course_title, lesson.
  by rewrite Htitle, Hlesson.
Qed.

(** X16: the text [execute] returns does not depend on the citations the
    tool holds from an earlier search, and [execute] never changes the
    store of the tool. *)
Theorem execute_ignores_stored_citations self self' query course_name
    lesson_number :
  CourseSearchTool.store self = CourseSearchTool.store self' →
  (CourseSearchTool.execute self query course_name lesson_number).1 =
  (CourseSearchTool.execute self' query course_name lesson_number).1 ∧
  CourseSearchTool.store
    (CourseSearchTool.execute self query course_name lesson_number).2 =
  CourseSearchTool.store self.
Proof.
  intros Hstore.
  set (results :=
         search (CourseSearchTool.store self) query course_name lesson_number).
  destruct (CourseSearchTool.formats_results results) eqn:Hfmt.
  - rewrite (execute_formats self query course_name lesson_number Hfmt).
    assert (CourseSearchTool.formats_results
              (search (CourseSearchTool.store self') query course_name
                 lesson_number) = true) as Hfmt'
      by (by rewrite <- Hstore).
    rewrite (execute_formats self' query course_name lesson_number Hfmt').
    simpl. by rewrite <- Hstore.
  - unfold CourseSearchTool.formats_results in Hfmt.
    unfold CourseSearchTool.execute. rewrite <- Hstore. fold results.
    destruct (truthy_opt (error results)); simpl in *; [done|].
    destruct (is_empty results); simpl in *; done.
Qed.

(** X17: when the search finds nothing, the message names the filters
    that were in force: a non-empty course name, and a lesson number other
    than zero. *)
Theorem execute_empty_names_filters self query course_name lesson_number :
  let results :=
    search (CourseSearchTool.store self) query course_name lesson_number in
  let text :=
    (CourseSearchTool.execute self query course_name lesson_number).1 in
  truthy_opt (error results) = false →
  is_empty results = true →
  (∀ course, course_name = Some course → course ≠ "" →
     contains (" in course '" +:+ course +:+ "'") text = true) ∧
  (∀ lesson, lesson_number = Some lesson → lesson ≠ 0 →
     contains (" in lesson " +:+ str_int lesson) text = true).
Proof.
  intros results text Herr Hempty. subst text.
  rewrite (execute_empty_message self query course_name lesson_number
             Herr Hempty). cbn [fst].
  split.
  - intros course -> Hne.
    assert (truthy course = true) as Ht by (by destruct course).
    cbn [truthy_opt fmt_opt_str]. rewrite Ht. cbv beta iota.
    apply contains_append_r, contains_append_l, contains_self.
  - intros lesson -> Hne.
    assert ((lesson =? 0) = false) as Hz by (by apply Z.eqb_neq).
    cbn [truthy_int str_opt_int]. rewrite Hz. cbn [negb]. cbv beta iota.
    do 2 apply contains_append_r.
    apply contains_append_l, contains_self.
Qed.

(** ** [CourseOutlineTool]: looking a course up *)

Lemma find_course_first pre course_data post resolved_title :
  dict_get (cd_title course_data) None = Some resolved_title →
  (∀ course, course ∈ pre →
     dict_get (cd_title course) None ≠ Some resolved_title) →
  CourseOutlineTool.find_course (pre ++ course_data :: post) resolved_title =
  Some course_data.
Proof.
  intros Htitle. induction pre as [|course pre IH]; intros Hpre; simpl.
  - by rewrite bool_decide_eq_true_2.
  - rewrite bool_decide_eq_false_2
      by (apply Hpre, list_elem_of_here).
    apply IH. intros c Hc. by apply Hpre, list_elem_of_further.
Qed.

Lemma find_course_none courses resolved_title :
  (∀ course, course ∈ courses →
     dict_get (cd_title course) None ≠ Some resolved_title) →
  CourseOutlineTool.find_course courses resolved_title = None.
Proof.
  induction courses as [|course courses IH]; intros Hall; simpl; [done|].
  rewrite bool_decide_eq_false_2 by (apply Hall, list_elem_of_here).
  apply IH. intros c Hc. by apply Hall, list_elem_of_further.
Qed.

Lemma contains_join (sep x : string) (parts : list string) :
  x ∈ parts → contains x (join sep parts) = true.
Proof.
  induction parts as [|p parts IH]; intros Hin; [by apply elem_of_nil in Hin|].
  destruct parts as [|q parts].
  - apply list_elem_of_singleton in Hin as ->. apply contains_self.
  - change (join sep (p :: q :: parts))
      with (p +:+ sep +:+ join sep (q :: parts)).
    apply elem_of_cons in Hin as [->|Hin].
    + apply contains_append_l, contains_self.
    + by apply contains_append_r, contains_append_r, IH.
Qed.

(** X18: when the resolved title is listed more than once in the catalog,
    the outline is that of the first course with that title; the single
    citation recorded names the resolved title, with the link of that
    course when it has a non-empty one. *)
Theorem outline_execute_first_match self course_title resolved_title
    pre course_data post :
  _resolve_course_name (CourseOutlineTool.store self) course_title
    = Some resolved_title →
  truthy resolved_title = true →
  get_all_courses_metadata (CourseOutlineTool.store self)
    = pre ++ course_data :: post →
  dict_get (cd_title course_data) None = Some resolved_title →
  (∀ course, course ∈ pre →
     dict_get (cd_title course) None ≠ Some resolved_title) →
  CourseOutlineTool.execute self course_title =
    CourseOutlineTool._format_outline self course_data ∧
  CourseOutlineTool.last_sources
    (CourseOutlineTool.execute self course_title).2 =
    [{| title := resolved_title +:+ " - Course Outline";
        url := if truthy_opt (dict_get (cd_course_link course_data) None)
               then dict_get (cd_course_link course_data) None
               else None |}].
Proof.
  intros Hresolve Htruthy Hcatalog Htitle Hpre.
  assert (CourseOutlineTool.execute self course_title =
          CourseOutlineTool._format_outline self course_data) as Hexec.
  { unfold CourseOutlineTool.execute.
    rewrite Hresolve, Htruthy, Hcatalog.
    by rewrite (find_course_first _ _ _ _ Htitle Hpre). }
  split; [done|]. rewrite Hexec.
  unfold CourseOutlineTool._format_outline. simpl.
  destruct (cd_title course_data) as [[t|]|]; simpl in Htitle; try done.
  by inversion Htitle.
Qed.

(** X19: when the course name resolves to nothing, or to an empty title,
    [execute] answers with a message that lists every existing course
    title, and leaves the tool, its citations included, as it was. *)
Theorem outline_execute_unresolved self course_title :
  _resolve_course_name (CourseOutlineTool.store self) course_title = None ∨
  _resolve_course_name (CourseOutlineTool.store self) course_title = Some "" →
  CourseOutlineTool.execute self course_title =
    ("No course found matching '" +:+ course_title
     +:+ "'. Available courses: "
     +:+ join ", " (get_existing_course_titles (CourseOutlineTool.store self)),
     self) ∧
  ∀ known, known ∈ get_existing_course_titles (CourseOutlineTool.store self) →
    contains known (CourseOutlineTool.execute self course_title).1 = true.
Proof.
  intros Hresolve.
  assert (CourseOutlineTool.execute self course_title =
            ("No course found matching '" +:+ course_title
             +:+ "'. Available courses: "
             +:+ join ", "
                   (get_existing_course_titles (CourseOutlineTool.store self)),
             self)) as Hexec.
  { unfold CourseOutlineTool.execute. by destruct Hresolve as [-> | ->]. }
  split; [done|]. intros known Hin. rewrite Hexec. cbn [fst].
  by do 3 apply contains_append_r; apply contains_join.
Qed.

(** X20: when the resolved title is in no entry of the catalog, [execute]
    reports that the metadata is missing, naming the resolved title, and
    leaves the tool as it was. *)
Theorem outline_execute_missing_metadata self course_title resolved_title :
  _resolve_course_name (CourseOutlineTool.store self) course_title
    = Some resolved_title →
  truthy resolved_title = true →
  (∀ course,
     course ∈ get_all_courses_metadata (CourseOutlineTool.store self) →
     dict_get (cd_title course) None ≠ Some resolved_title) →
  CourseOutlineTool.execute self course_title =
    ("Course metadata not found for '" +:+ resolved_title +:+ "'", self).
Proof.
  intros Hresolve Htruthy Hnone. unfold CourseOutlineTool.execute.
  by rewrite Hresolve, Htruthy, (find_course_none _ _ Hnone).
Qed.

(** ** [ToolManager]: registration and dispatch *)

Section RegistryDispatch.

Context {W : Type}.

(** X21: registering a tool either raises [ValueError], exactly when the
    declaration of the tool has no name or an empty one, or yields a
    manager whose [execute_tool], called with that name, runs the tool,
    replacing a tool registered under the name before, and called with
    any other name does what it did before. A call whose keywords name
    [self] or [tool_name] raises [TypeError] and runs no tool. *)
Theorem register_tool_then_dispatch (self : ToolManager.t W) (tool : Tool W) :
  match ToolManager.register_tool self tool with
  | Ok self' =>
      ∃ tool_name,
        def_name (get_tool_definition tool) = Some tool_name ∧
        truthy tool_name = true ∧
        (∀ kwargs w,
           ToolManager.call_execute_tool self' tool_name kwargs w =
           match ToolManager.colliding_keyword kwargs with
           | Some key => (Raise (ToolManager.multiple_values key), w)
           | None => execute tool kwargs w
           end) ∧
        (∀ other kwargs w,
           other ≠ tool_name →
           ToolManager.call_execute_tool self' other kwargs w =
           ToolManager.call_execute_tool self other kwargs w)
  | Raise e =>
      exc_class e = "ValueError" ∧
      truthy_opt (def_name (get_tool_definition tool)) = false
  end.
Proof.
  unfold ToolManager.register_tool.
  destruct (def_name (get_tool_definition tool)) as [tool_name|] eqn:Hname;
    simpl; [|done].
  destruct (truthy tool_name) eqn:Htruthy; simpl; [|done].
  exists tool_name. repeat split; try done.
  - intros kwargs w.
    unfold ToolManager.call_execute_tool, ToolManager.execute_tool. simpl.
    rewrite lookup_insert_eq. by destruct (ToolManager.colliding_keyword kwargs).
  - intros other kwargs w Hne.
    unfold ToolManager.call_execute_tool, ToolManager.execute_tool. simpl.
    by rewrite lookup_insert_ne.
Qed.

Variable messages_create : ApiParams → W → Result Response * W.
Variable _build_system_content : option string → Z → string.
Variable model : string.

(** X22: in a run over a [ToolManager], every tool request of the model
    is dispatched by its name: the outcome recorded for it is that of the
    tool registered under the name, on the input of the request, and for a
    name that is not registered it is the not-found message, which is a
    result and not a failure. A request whose input has a key [self] or
    [tool_name] runs no tool: its outcome is the [TypeError] of the
    call. *)
Theorem generate_response_dispatches_by_name (self : ToolManager.t W) query
    conversation_history tools max_rounds s res s' :
  generate_response messages_create _build_system_content model query
    conversation_history tools (Some (ToolManager.as_executor self))
    max_rounds s = (res, s') →
  ∀ content_block outcome,
    ToolCall content_block outcome ∈ events_since s s' →
    match ToolManager.colliding_keyword (block_input content_block) with
    | Some key => outcome = Raise (ToolManager.multiple_values key)
    | None =>
        match ToolManager.tools self !! block_name content_block with
        | None =>
            outcome =
              Ok ("Tool '" +:+ block_name content_block +:+ "' not found")
        | Some tool =>
            ∃ w, outcome = (execute tool (block_input content_block) w).1
        end
    end.
Proof.
  intros Hgen b o Hin.
  pose proof (generate_response_faithful _ _ _ _ _ _ _ _ _ _ _ Hgen) as Hfaith.
  rewrite Forall_forall in Hfaith.
  apply Hfaith in Hin as (tm & w & [= <-] & <-). simpl.
  unfold ToolManager.call_execute_tool, ToolManager.execute_tool.
  destruct (ToolManager.colliding_keyword (block_input b)); [done|].
  destruct (ToolManager.tools self !! block_name b); [eauto | done].
Qed.

End RegistryDispatch.

(** ** [ToolManager]: declarations and citations of the registered tools *)

Section ToolCatalog.

Import SourceTracking.

Lemma dict_lookup_set_eq {V} key (value : V) d :
  dict_lookup key (dict_set key value d) = Some value.
Proof.
  induction d as [|[k v] d IH]; simpl.
  - by rewrite String.eqb_refl.
  - destruct (String.eqb k key) eqn:Hk; simpl.
    + by rewrite String.eqb_refl.
    + by rewrite Hk.
Qed.

Lemma dict_lookup_set_ne {V} key other (value : V) d :
  other ≠ key →
  dict_lookup other (dict_set key value d) = dict_lookup other d.
Proof.
  intros Hne. apply String.eqb_neq in Hne.
  induction d as [|[k v] d IH]; simpl.
  - rewrite String.eqb_sym. by rewrite Hne.
  - destruct (String.eqb k key) eqn:Hk; simpl.
    + apply String.eqb_eq in Hk as ->.
      rewrite String.eqb_sym. by rewrite Hne.
    + by rewrite IH.
Qed.

Lemma dict_set_keys {V} key (value : V) d :
  (dict_set key value d).*1 =
  if decide (key ∈ d.*1) then d.*1 else d.*1 ++ [key].
Proof.
  induction d as [|[k v] d IH].
  - destruct (decide (key ∈ ([] : list (string * V)).*1)) as [Hin|Hin];
      [by apply elem_of_nil in Hin | done].
  - cbn [dict_set]. destruct (String.eqb k key) eqn:Hk.
    + apply String.eqb_eq in Hk as ->. cbn [fmap list_fmap fst].
      destruct (decide (key ∈ key :: d.*1)) as [Hin|Hin]; [done|].
      exfalso. apply Hin, list_elem_of_here.
    + apply String.eqb_neq in Hk. rewrite !fmap_cons, IH. cbn [fst].
      destruct (decide (key ∈ d.*1)) as [Hin|Hin],
        (decide (key ∈ k :: d.*1)) as [Hin'|Hin']; try done.
      * exfalso. by apply Hin', list_elem_of_further.
      * apply elem_of_cons in Hin' as [->|?]; done.
Qed.

(** The dictionary in insertion order and the finite map of
    [ToolManager] hold the same bindings. *)
Lemma dict_set_insert {V} key (value : V) d :
  list_to_map (dict_set key value d) =@{gmap string V}
  <[key := value]> (list_to_map d).
Proof.
  induction d as [|[k v] d IH]; simpl; [done|].
  destruct (String.eqb k key) eqn:Hk; simpl.
  - apply String.eqb_eq in Hk as ->. by rewrite insert_insert_eq.
  - apply String.eqb_neq in Hk. rewrite IH. by apply insert_insert_ne.
Qed.

Lemma get_last_sources_loop_reset values :
  get_last_sources_loop (reset_tool <$> values) = [].
Proof.
  induction values as [|tool values IH]; simpl; [done|].
  unfold reset_tool at 1.
  by destruct (tracked_sources tool) as [sources|] eqn:Hs; simpl; rewrite ?Hs.
Qed.

(** X23: after [reset_sources] the manager has nothing to cite, while its
    tool declarations and the names it knows, and their order, are
    unchanged; a tool without a [last_sources] attribute is left alone. *)
Theorem reset_sources_clears self :
  get_last_sources (reset_sources self) = [] ∧
  get_tool_definitions (reset_sources self) = get_tool_definitions self ∧
  names (reset_sources self) = names self ∧
  ∀ tool_name tool,
    dict_lookup tool_name (tools self) = Some tool →
    dict_lookup tool_name (tools (reset_sources self)) = Some (reset_tool tool).
Proof.
  unfold get_last_sources, get_tool_definitions, names, reset_sources. simpl.
  split; [|split; [|split]].
  - rewrite <- list_fmap_compose.
    rewrite (list_fmap_ext _ (reset_tool ∘ snd) (tools self)) by (by intros [] ).
    rewrite list_fmap_compose. apply get_last_sources_loop_reset.
  - rewrite <- !list_fmap_compose. apply list_fmap_ext.
    intros _ [k tool] _. simpl. unfold reset_tool.
    by destruct (tracked_sources tool).
  - rewrite <- list_fmap_compose. by apply list_fmap_ext; intros _ [] _.
  - intros tool_name tool.
    induction (tools self) as [|[k v] d IH]; simpl; [done|].
    destruct (String.eqb k tool_name); [by intros [= ->]|done].
Qed.

(** X24: [get_last_sources] returns the citations of the first tool, in
    registration order, that has any; tools registered later are not
    looked at. *)
Theorem get_last_sources_first_nonempty self pre tool_name tool post sources :
  tools self = pre ++ (tool_name, tool) :: post →
  Forall (λ entry, nothing_to_cite entry.2) pre →
  tracked_sources tool = Some sources →
  sources ≠ [] →
  get_last_sources self = sources.
Proof.
  intros Htools Hpre Hsources Hne. unfold get_last_sources. rewrite Htools.
  clear Htools. induction Hpre as [|[k v] pre [Hnone|Hnil] _ IH]; simpl.
  - rewrite Hsources. by destruct sources.
  - simpl in Hnone. by rewrite Hnone.
  - simpl in Hnil. by rewrite Hnil.
Qed.

Lemma get_last_sources_none self :
  Forall (λ entry, nothing_to_cite entry.2) (tools self) →
  get_last_sources self = [].
Proof.
  unfold get_last_sources.
  induction 1 as [|[k v] d [Hnone|Hnil] _ IH]; simpl; [done| |].
  - simpl in Hnone. by rewrite Hnone.
  - simpl in Hnil. by rewrite Hnil.
Qed.

(** X25: a successful registration keeps the order of the names: a name
    that is already known keeps its place and gets the new tool, a new name
    goes to the end; names stay free of duplicates, there is one declaration
    per name, and the other bindings are untouched. *)
Theorem register_tool_names self tool self' :
  register_tool self tool = Ok self' →
  ∃ tool_name,
    def_name (tracked_definition tool) = Some tool_name ∧
    names self' =
      (if decide (tool_name ∈ names self) then names self
       else names self ++ [tool_name]) ∧
    length (get_tool_definitions self') = length (names self') ∧
    (NoDup (names self) → NoDup (names self')) ∧
    dict_lookup tool_name (tools self') = Some tool ∧
    ∀ other, other ≠ tool_name →
      dict_lookup other (tools self') = dict_lookup other (tools self).
Proof.
  unfold register_tool.
  destruct (def_name (tracked_definition tool)) as [tool_name|]; [|done].
  destruct (truthy tool_name); [|done].
  intros [= <-]. exists tool_name. unfold names, get_tool_definitions. simpl.
  split; [done|]. split; [apply dict_set_keys|].
  split; [by rewrite !length_fmap|].
  split; [|split].
  - rewrite dict_set_keys. intros Hnodup.
    destruct (decide (tool_name ∈ (tools self).*1)); [done|].
    apply NoDup_app. split; [done|]. split.
    + intros x Hx ->%list_elem_of_singleton. done.
    + apply NoDup_singleton.
  - apply dict_lookup_set_eq.
  - intros other Hne. by apply dict_lookup_set_ne.
Qed.

End ToolCatalog.

(** ** The query endpoint of the test application *)

Section QueryEndpoint.

Context {W : Type}.
Variable create_session : W → Result string * W.
Variable rag_query :
  string → string → W → Result (string * list TestApp.RawSource) * W.

Lemma source_objects_loop_mapM sources source_objects :
  TestApp.source_objects_loop sources source_objects =
  match mapM TestApp.source_info_of sources with
  | Some infos => Ok (source_objects ++ infos)
  | None => Raise (TestApp.KeyError "title")
  end.
Proof.
  revert source_objects.
  induction sources as [|source sources IH]; intros source_objects; simpl.
  - by rewrite app_nil_r.
  - destruct source as [[source_title|] url_entry|text]; simpl; [|done|].
    + rewrite IH.
      destruct (mapM TestApp.source_info_of sources); simpl; [|done].
      by rewrite <- app_assoc.
    + rewrite IH.
      destruct (mapM TestApp.source_info_of sources); simpl; [|done].
      by rewrite <- app_assoc.
Qed.

(** X26: when the query endpoint answers, the session of the answer is
    the one of the request if that is non-empty, and then no session is
    created, and a newly created one otherwise; the RAG system was queried
    once, with the query of the request and that session, and its sources
    are converted one for one, in order, a plain string becoming a source
    without link. *)
Theorem query_documents_success request w response w' :
  TestApp.query_documents create_session rag_query request w
    = (inl response, w') →
  ∃ w1 raw,
    (if truthy_opt (TestApp.request_session_id request)
     then TestApp.request_session_id request
            = Some (TestApp.session_id response) ∧ w1 = w
     else create_session w = (Ok (TestApp.session_id response), w1)) ∧
    rag_query (TestApp.request_query request) (TestApp.session_id response) w1
      = (Ok (TestApp.answer response, raw), w') ∧
    mapM TestApp.source_info_of raw = Some (TestApp.sources response) ∧
    length (TestApp.sources response) = length raw.
Proof.
  unfold TestApp.query_documents, TestApp.query_documents_body.
  set (session :=
         match TestApp.request_session_id request with
         | Some session_id =>
             if truthy session_id then (Ok session_id, w) else create_session w
         | None => create_session w
         end).
  destruct session as [[session_id|e] w1] eqn:Hsession;
    [|by destruct (isinstance_Exception e)].
  destruct (rag_query (TestApp.request_query request) session_id w1)
    as [[[answer raw]|e] w2] eqn:Hquery;
    [|by destruct (isinstance_Exception e)].
  rewrite source_objects_loop_mapM.
  destruct (mapM TestApp.source_info_of raw) as [infos|] eqn:Hinfos; [|done].
  intros [= <- <-]. simpl. exists w1, raw.
  split; [|split; [done|split; [done|]]].
  - subst session.
    destruct (TestApp.request_session_id request) as [sid|]; simpl; [|done].
    destruct (truthy sid); [|done]. by inversion Hsession.
  - apply mapM_Some_1, Forall2_length in Hinfos. done.
Qed.

End QueryEndpoint.

(** [test_query_endpoint_rag_system_error]: a RAG system that raises
    [Exception("RAG system error")]. *)
Example query_documents_rag_failure :
  TestApp.query_documents Mock.create_session Mock.failing_rag_query
    {| TestApp.request_query := "What is MCP?";
       TestApp.request_session_id := None |}
    {| Mock.side_effect := [] |} =
  (inr (inl {| TestApp.status_code := 500;
               TestApp.detail := "RAG system error" |}),
   {| Mock.side_effect := [] |}).
Proof. reflexivity. Qed.

(** ** The further properties on the test doubles *)

Lemma execute_text_matches_citations_witness :
  (CourseSearchTool.execute (Mock.used_search_tool Mock.intro_store)
     "variables" None None).1 =
    join (newline +:+ newline)
      (zip_with CourseSearchTool.passage_text
         (documents (search Mock.intro_store "variables" None None))
         (CourseSearchTool.last_sources
            (CourseSearchTool.execute (Mock.used_search_tool Mock.intro_store)
               "variables" None None).2)) ∧
  length
    (CourseSearchTool.last_sources
       (CourseSearchTool.execute (Mock.used_search_tool Mock.intro_store)
          "variables" None None).2) =
    (length (documents (search Mock.intro_store "variables" None None))
     `min` length (metadata (search Mock.intro_store "variables" None None)))%nat.
Proof.
  apply (execute_text_matches_citations
           (Mock.used_search_tool Mock.intro_store) "variables" None None).
  reflexivity.
Defined.

Lemma execute_citation_urls_witness :
  truthy "https://example.com/lesson1" = true ∧
  ∃ meta course_title lesson,
    meta ∈ metadata (search Mock.intro_store "variables" None None) ∧
    meta_course_title meta = Some course_title ∧
    course_title ≠ "unknown" ∧
    meta_lesson_number meta = Some lesson ∧
    get_lesson_link Mock.intro_store course_title lesson
      = Some "https://example.com/lesson1" ∧
    title Mock.intro_citation = course_title +:+ " - Lesson " +:+ str_int lesson.
Proof.
  apply (execute_citation_urls (CourseSearchTool.__init__ Mock.intro_store)
           "variables" None None Mock.intro_citation
           "https://example.com/lesson1").
  - reflexivity.
  - vm_compute. apply list_elem_of_here.
  - reflexivity.
Defined.

Lemma execute_ignores_stored_citations_witness :
  (CourseSearchTool.execute (Mock.used_search_tool Mock.empty_store)
     "variables" None None).1 =
  (CourseSearchTool.execute (CourseSearchTool.__init__ Mock.empty_store)
     "variables" None None).1 ∧
  CourseSearchTool.store
    (CourseSearchTool.execute (Mock.used_search_tool Mock.empty_store)
       "variables" None None).2 =
  CourseSearchTool.store (Mock.used_search_tool Mock.empty_store).
Proof.
  apply (execute_ignores_stored_citations
           (Mock.used_search_tool Mock.empty_store)
           (CourseSearchTool.__init__ Mock.empty_store) "variables" None None).
  reflexivity.
Defined.

Lemma execute_empty_names_filters_witness :
  (∀ course, Some "MCP" = Some course → course ≠ "" →
     contains (" in course '" +:+ course +:+ "'")
       (CourseSearchTool.execute (CourseSearchTool.__init__ Mock.empty_store)
          "variables" (Some "MCP") (Some 2)).1 = true) ∧
  (∀ lesson, Some 2 = Some lesson → lesson ≠ 0 →
     contains (" in lesson " +:+ str_int lesson)
       (CourseSearchTool.execute (CourseSearchTool.__init__ Mock.empty_store)
          "variables" (Some "MCP") (Some 2)).1 = true).
Proof.
  apply (execute_empty_names_filters
           (CourseSearchTool.__init__ Mock.empty_store) "variables"
           (Some "MCP") (Some 2)); reflexivity.
Defined.

Lemma outline_execute_first_match_witness :
  CourseOutlineTool.execute (CourseOutlineTool.__init__ Mock.duplicate_store)
    "intro" =
    CourseOutlineTool._format_outline
      (CourseOutlineTool.__init__ Mock.duplicate_store) Mock.intro_course ∧
  CourseOutlineTool.last_sources
    (CourseOutlineTool.execute
       (CourseOutlineTool.__init__ Mock.duplicate_store) "intro").2 =
    [{| title := "Intro" +:+ " - Course Outline";
        url := if truthy_opt (dict_get (cd_course_link Mock.intro_course) None)
               then dict_get (cd_course_link Mock.intro_course) None
               else None |}].
Proof.
  apply (outline_execute_first_match
           (CourseOutlineTool.__init__ Mock.duplicate_store) "intro" "Intro"
           [Mock.other_course] Mock.intro_course [Mock.second_intro]).
  - reflexivity.
  - reflexivity.
  - reflexivity.
  - reflexivity.
  - intros course Hin. apply list_elem_of_singleton in Hin. subst course.
    vm_compute. discriminate.
Defined.

Lemma outline_execute_unresolved_witness :
  CourseOutlineTool.execute (CourseOutlineTool.__init__ Mock.unresolving_store)
    "biology" =
    ("No course found matching '" +:+ "biology"
     +:+ "'. Available courses: "
     +:+ join ", " (get_existing_course_titles Mock.unresolving_store),
     CourseOutlineTool.__init__ Mock.unresolving_store) ∧
  ∀ known, known ∈ get_existing_course_titles Mock.unresolving_store →
    contains known
      (CourseOutlineTool.execute
         (CourseOutlineTool.__init__ Mock.unresolving_store) "biology").1
      = true.
Proof.
  apply (outline_execute_unresolved
           (CourseOutlineTool.__init__ Mock.unresolving_store) "biology").
  left. reflexivity.
Defined.

Lemma outline_execute_missing_metadata_witness :
  CourseOutlineTool.execute
    (CourseOutlineTool.__init__ Mock.uncatalogued_store) "intro" =
    ("Course metadata not found for '" +:+ "Intro" +:+ "'",
     CourseOutlineTool.__init__ Mock.uncatalogued_store).
Proof.
  apply (outline_execute_missing_metadata
           (CourseOutlineTool.__init__ Mock.uncatalogued_store) "intro"
           "Intro").
  - reflexivity.
  - reflexivity.
  - intros course Hin. apply list_elem_of_singleton in Hin. subst course.
    vm_compute. discriminate.
Defined.

Lemma generate_response_dispatches_by_name_witness :
  match ToolManager.colliding_keyword (block_input Mock.colliding_request) with
  | Some key =>
      Raise (ToolManager.multiple_values "tool_name")
      =@{Result string} Raise (ToolManager.multiple_values key)
  | None =>
      match ToolManager.tools Mock.failing_registry
              !! block_name Mock.colliding_request with
      | None =>
          Raise (ToolManager.multiple_values "tool_name") =
            Ok ("Tool '" +:+ block_name Mock.colliding_request
                +:+ "' not found")
      | Some tool =>
          ∃ w, Raise (ToolManager.multiple_values "tool_name") =
                 (execute tool (block_input Mock.colliding_request) w).1
      end
  end.
Proof.
  apply (generate_response_dispatches_by_name Mock.messages_create
           (λ _ _, "system") "claude-3-sonnet-20241022" Mock.failing_registry
           "What is Python?" None (Some Mock.sample_tools) 2
           (Mock.initial
              [Ok {| resp_content := [Mock.colliding_request];
                     resp_stop_reason := "tool_use" |};
               Ok Mock.text_response])
           (Mock.result_of Mock.colliding_run) (Mock.colliding_run.2)).
  - reflexivity.
  - vm_compute. apply list_elem_of_further, list_elem_of_here.
Defined.

(** The run on the colliding request: the [TypeError] of the call is fed
    back to the model as the result of the request, and the tool, which
    would raise, is not run. The run on an unknown name. *)
Example colliding_run_trace :
  Mock.result_of Mock.colliding_run = Ok "Python is a programming language." ∧
  call_count (Mock.events_of Mock.colliding_run) = 2%nat ∧
  ((λ c, last (api_messages c.1)) <$>
     api_calls (Mock.events_of Mock.colliding_run)) !! 1%nat =
    Some (Some (tool_results_turn
                  [tool_result "call_3"
                     "Tool execution error: ToolManager.execute_tool() got multiple values for argument 'tool_name'"])).
Proof. by vm_compute. Qed.

Example registry_run_trace :
  (snd <$> tool_calls (Mock.events_of Mock.registry_run)) =
    [Raise (Exception "Tool failed"); Ok "Tool 'get_weather' not found"].
Proof. by vm_compute. Qed.

Lemma get_last_sources_first_nonempty_witness :
  SourceTracking.get_last_sources Mock.tracked_manager = [Mock.intro_citation].
Proof.
  apply (get_last_sources_first_nonempty Mock.tracked_manager
           [("get_course_outline",
             SourceTracking.of_outline_tool
               (CourseOutlineTool.__init__ Mock.intro_store))]
           "search_course_content"
           (SourceTracking.of_search_tool
              (Mock.used_search_tool Mock.intro_store))
           []).
  - reflexivity.
  - constructor; [right; reflexivity | constructor].
  - reflexivity.
  - discriminate.
Defined.

Lemma register_tool_names_witness :
  ∃ tool_name,
    def_name
      (SourceTracking.tracked_definition
         (SourceTracking.of_search_tool
            (CourseSearchTool.__init__ Mock.empty_store)))
      = Some tool_name ∧
    SourceTracking.names
      {| SourceTracking.tools :=
           SourceTracking.dict_set "search_course_content"
             (SourceTracking.of_search_tool
                (CourseSearchTool.__init__ Mock.empty_store))
             (SourceTracking.tools Mock.tracked_manager) |} =
      (if decide (tool_name ∈ SourceTracking.names Mock.tracked_manager)
       then SourceTracking.names Mock.tracked_manager
       else SourceTracking.names Mock.tracked_manager ++ [tool_name]) ∧
    length
      (SourceTracking.get_tool_definitions
         {| SourceTracking.tools :=
              SourceTracking.dict_set "search_course_content"
                (SourceTracking.of_search_tool
                   (CourseSearchTool.__init__ Mock.empty_store))
                (SourceTracking.tools Mock.tracked_manager) |}) =
    length
      (SourceTracking.names
         {| SourceTracking.tools :=
              SourceTracking.dict_set "search_course_content"
                (SourceTracking.of_search_tool
                   (CourseSearchTool.__init__ Mock.empty_store))
                (SourceTracking.tools Mock.tracked_manager) |}) ∧
    (NoDup (SourceTracking.names Mock.tracked_manager) →
     NoDup
       (SourceTracking.names
          {| SourceTracking.tools :=
               SourceTracking.dict_set "search_course_content"
                 (SourceTracking.of_search_tool
                    (CourseSearchTool.__init__ Mock.empty_store))
                 (SourceTracking.tools Mock.tracked_manager) |})) ∧
    SourceTracking.dict_lookup tool_name
      (SourceTracking.tools
         {| SourceTracking.tools :=
              SourceTracking.dict_set "search_course_content"
                (SourceTracking.of_search_tool
                   (CourseSearchTool.__init__ Mock.empty_store))
                (SourceTracking.tools Mock.tracked_manager) |})
      = Some (SourceTracking.of_search_tool
                (CourseSearchTool.__init__ Mock.empty_store)) ∧
    ∀ other, other ≠ tool_name →
      SourceTracking.dict_lookup other
        (SourceTracking.tools
           {| SourceTracking.tools :=
                SourceTracking.dict_set "search_course_content"
                  (SourceTracking.of_search_tool
                     (CourseSearchTool.__init__ Mock.empty_store))
                  (SourceTracking.tools Mock.tracked_manager) |})
      = SourceTracking.dict_lookup other
          (SourceTracking.tools Mock.tracked_manager).
Proof.
  apply (register_tool_names Mock.tracked_manager
           (SourceTracking.of_search_tool
              (CourseSearchTool.__init__ Mock.empty_store))).
  reflexivity.
Defined.

Lemma query_documents_success_witness :
  ∃ w1 raw,
    Mock.create_session {| Mock.side_effect := [] |}
      = (Ok "test_session_123", w1) ∧
    Mock.rag_query Mock.mixed_sources "What is MCP?" "test_session_123" w1
      = (Ok ("Test response", raw), {| Mock.side_effect := [] |}) ∧
    mapM TestApp.source_info_of raw =
      Some [{| TestApp.info_title := "Course 1";
               TestApp.info_url := Some "http://example.com/1" |};
            {| TestApp.info_title := "String Source";
               TestApp.info_url := None |};
            {| TestApp.info_title := "Course 2";
               TestApp.info_url := None |}] ∧
    length
      [{| TestApp.info_title := "Course 1";
          TestApp.info_url := Some "http://example.com/1" |};
       {| TestApp.info_title := "String Source";
          TestApp.info_url := None |};
       {| TestApp.info_title := "Course 2";
          TestApp.info_url := None |}] = length raw.
Proof.
  apply (query_documents_success Mock.create_session
           (Mock.rag_query Mock.mixed_sources)
           {| TestApp.request_query := "What is MCP?";
              TestApp.request_session_id := None |}
           {| Mock.side_effect := [] |}
           {| TestApp.answer := "Test response";
              TestApp.sources :=
                [{| TestApp.info_title := "Course 1";
                    TestApp.info_url := Some "http://example.com/1" |};
                 {| TestApp.info_title := "String Source";
                    TestApp.info_url := None |};
                 {| TestApp.info_title := "Course 2";
                    TestApp.info_url := None |}];
              TestApp.session_id := "test_session_123" |}
           {| Mock.side_effect := [] |}).
  reflexivity.
Defined.
